(** * ai_crawler: the page fetch-and-extract pipeline

    A shallow embedding of [src/utils.py], [src/parser.py] and
    [src/crawler.py], followed by the properties of the crawler's
    specification that can be settled on it.

    Conventions.
    - A Python [str] is a sequence of Unicode code points ([list N]).
    - A Python [int] is a [Z]; a Python [float] is a binary64 [float].
    - A [dict] with string keys is an association list in insertion order.
    - A BeautifulSoup tree is the inductive [PageElement]; the parser
      functions take the tree [BeautifulSoup(html_content, 'lxml')].
    - The interpreter is CPython 3.11 with its default settings (Unicode
      14.0 character tables, 4300-digit limit on int/str conversions).
    - Code that raises returns [Raise e]; effects (HTTP requests, sleeps,
      the wall clock, the debug file) go through an explicit [World], which
      also holds the room the interpreter's recursion limit leaves.

    Left out: log output, the request headers, cancellation of a task, and
    exhaustion of memory. *)

From Stdlib Require Import ZArith NArith List Bool Lia String Ascii Floats.
From Stdlib Require Import DecimalString Sorted.
From Stdlib Require DecimalFacts DecimalPos DecimalN.
From Equations Require Import Equations.
Import ListNotations.

(** ** Exceptions and results *)

Inductive exception :=
| ValueError
| OverflowError
| RuntimeError
| RecursionError      (* in Python a RuntimeError; kept apart here *)
| OSError
| ClientError.        (* aiohttp / asyncio.TimeoutError / UnicodeDecodeError *)

Inductive res (A : Type) :=
| Return (a : A)
| Raise (e : exception).
Arguments Return {A} a.
Arguments Raise {A} e.

Definition res_bind {A B} (r : res A) (k : A -> res B) : res B :=
  match r with
  | Return a => k a
  | Raise e => Raise e
  end.

Declare Scope res_scope.
Delimit Scope res_scope with res.
Notation "'try!' x <- r ; k" := (res_bind r (fun x => k))
  (at level 10, x name, r at level 100, k at level 200) : res_scope.

(** ** Python strings *)

Module PyStr.

Open Scope N_scope.

Definition char := N.
Definition str := list char.

(** ASCII literal of the source as a [str]. *)
Definition py (s : string) : str := map N_of_ascii (list_ascii_of_string s).

Definition LF : char := 10.
Definition CR : char := 13.
Definition TAB : char := 9.
Definition SP : char := 32.

Fixpoint eqb (a b : str) : bool :=
  match a, b with
  | [], [] => true
  | x :: a', y :: b' => (x =? y) && eqb a' b'
  | _, _ => false
  end.

(** [c in chars] *)
Definition mem (c : char) (chars : str) : bool := existsb (N.eqb c) chars.

(** [x in l] for a list of strings. *)
Definition contains (x : str) (l : list str) : bool := existsb (eqb x) l.

Definition in_ranges (c : char) (rs : list (N * N)) : bool :=
  existsb (fun r => (fst r <=? c) && (c <=? snd r)) rs.

(** [str.isspace] on one character. *)
Definition isspace (c : char) : bool :=
  in_ranges c
    [(9, 13); (28, 32); (133, 133); (160, 160); (5760, 5760); (8192, 8202);
     (8232, 8233); (8239, 8239); (8287, 8287); (12288, 12288)].

(** Characters with a decimal value (Unicode category Nd).  Every range
    starts at the digit zero of its script, so the value of [c] in the range
    starting at [lo] is [(c - lo) mod 10]. *)
Definition decimal_ranges : list (N * N) :=
  [ (48, 57); (1632, 1641); (1776, 1785); (1984, 1993); (2406, 2415);
    (2534, 2543); (2662, 2671); (2790, 2799); (2918, 2927); (3046, 3055);
    (3174, 3183); (3302, 3311); (3430, 3439); (3558, 3567); (3664, 3673);
    (3792, 3801); (3872, 3881); (4160, 4169); (4240, 4249); (6112, 6121);
    (6160, 6169); (6470, 6479); (6608, 6617); (6784, 6793); (6800, 6809);
    (6992, 7001); (7088, 7097); (7232, 7241); (7248, 7257); (42528, 42537);
    (43216, 43225); (43264, 43273); (43472, 43481); (43504, 43513);
    (43600, 43609); (44016, 44025); (65296, 65305); (66720, 66729);
    (68912, 68921); (69734, 69743); (69872, 69881); (69942, 69951);
    (70096, 70105); (70384, 70393); (70736, 70745); (70864, 70873);
    (71248, 71257); (71360, 71369); (71472, 71481); (71904, 71913);
    (72016, 72025); (72784, 72793); (73040, 73049); (73120, 73129);
    (92768, 92777); (92864, 92873); (93008, 93017); (120782, 120831);
    (123200, 123209); (123632, 123641); (125264, 125273); (130032, 130041) ].

(** Characters that are digits without being decimals (superscripts,
    circled digits and the like): [isdigit] holds, [int] rejects them. *)
Definition other_digit_ranges : list (N * N) :=
  [ (178, 179); (185, 185); (4969, 4977); (6618, 6618); (8304, 8304);
    (8308, 8313); (8320, 8329); (9312, 9320); (9332, 9340); (9352, 9360);
    (9450, 9450); (9461, 9469); (9471, 9471); (10102, 10110); (10112, 10120);
    (10122, 10130); (68160, 68163); (69216, 69224); (69714, 69722);
    (127232, 127242) ].

Fixpoint decimal_in (c : char) (rs : list (N * N)) : option Z :=
  match rs with
  | [] => None
  | (lo, hi) :: rs' =>
      if (lo <=? c) && (c <=? hi) then Some (Z.of_N ((c - lo) mod 10))
      else decimal_in c rs'
  end.

(** [Py_UNICODE_TODECIMAL] *)
Definition decimal (c : char) : option Z := decimal_in c decimal_ranges.

(** [Py_UNICODE_ISDIGIT] *)
Definition isdigit_char (c : char) : bool :=
  in_ranges c decimal_ranges || in_ranges c other_digit_ranges.

(** [s.isdigit()]: at least one character, all of them digits. *)
Definition isdigit (s : str) : bool :=
  match s with
  | [] => false
  | _ => forallb isdigit_char s
  end.

Fixpoint lstrip_by (p : char -> bool) (s : str) : str :=
  match s with
  | [] => []
  | c :: t => if p c then lstrip_by p t else s
  end.

Definition rstrip_by (p : char -> bool) (s : str) : str :=
  rev (lstrip_by p (rev s)).

(** [s.strip()] *)
Definition strip (s : str) : str := rstrip_by isspace (lstrip_by isspace s).

(** [s.rstrip(chars)] *)
Definition rstrip (chars : str) (s : str) : str :=
  rstrip_by (fun c => mem c chars) s.

Fixpoint startswith (prefix s : str) : bool :=
  match prefix, s with
  | [], _ => true
  | p :: ps, c :: cs => (p =? c) && startswith ps cs
  | _ :: _, [] => false
  end.

(** Left-to-right scan of [s.replace(old, new)] for a non-empty [old];
    [skip] counts the characters of the occurrence just replaced that are
    still to be passed over. *)
Fixpoint replace_from (old new : str) (skip : nat) (s : str) : str :=
  match s with
  | [] => []
  | c :: rest =>
      match skip with
      | S k => replace_from old new k rest
      | O =>
          if startswith old s
          then new ++ replace_from old new (Nat.pred (List.length old)) rest
          else c :: replace_from old new O rest
      end
  end.

(** [s.replace(old, new)] *)
Definition replace (old new s : str) : str :=
  match old with
  | [] => new ++ flat_map (fun c => c :: new) s
  | _ :: _ => replace_from old new O s
  end.

(** *** [int(s)] in base ten *)

(** White space skipped by [int]: the ASCII characters of [Py_ISSPACE], and
    beyond ASCII every Unicode white space. *)
Definition int_space (c : char) : bool :=
  if c <? 127 then in_ranges c [(9, 13); (32, 32)] else isspace c.

Definition underscore : char := 95.
Definition plus_sign : char := 43.
Definition minus_sign : char := 45.

(** Limit on the number of digits of an int/str conversion
    ([sys.get_int_max_str_digits()]). *)
Definition int_max_str_digits : N := 4300.

(** Scans digits separated by single underscores.  [need_digit] holds at the
    start and right after an underscore.  Returns the value, the number of
    digits and the unread rest. *)
Fixpoint scan_digits (acc : Z) (ndigits : N) (need_digit : bool) (s : str)
  : option (Z * N * str) :=
  match s with
  | [] => if need_digit then None else Some (acc, ndigits, [])
  | c :: t =>
      match decimal c with
      | Some d => scan_digits (10 * acc + d)%Z (N.succ ndigits) false t
      | None =>
          if c =? underscore
          then (if need_digit then None else scan_digits acc ndigits true t)
          else (if need_digit then None else Some (acc, ndigits, s))
      end
  end.

Definition int_unsigned (s : str) : option Z :=
  match scan_digits 0%Z 0 true s with
  | Some (v, n, rest) =>
      match lstrip_by int_space rest with
      | [] => if int_max_str_digits <? n then None else Some v
      | _ :: _ => None
      end
  | None => None
  end.

(** [int(s)]: [None] stands for [ValueError]. *)
Definition int (s : str) : option Z :=
  match lstrip_by int_space s with
  | c :: t =>
      if c =? minus_sign then option_map Z.opp (int_unsigned t)
      else if c =? plus_sign then int_unsigned t
      else int_unsigned (c :: t)
  | [] => None
  end.

(** *** [str(n)] *)

Fixpoint digits_of_uint (d : Decimal.uint) : str :=
  match d with
  | Decimal.Nil => []
  | Decimal.D0 d' => 48 :: digits_of_uint d'
  | Decimal.D1 d' => 49 :: digits_of_uint d'
  | Decimal.D2 d' => 50 :: digits_of_uint d'
  | Decimal.D3 d' => 51 :: digits_of_uint d'
  | Decimal.D4 d' => 52 :: digits_of_uint d'
  | Decimal.D5 d' => 53 :: digits_of_uint d'
  | Decimal.D6 d' => 54 :: digits_of_uint d'
  | Decimal.D7 d' => 55 :: digits_of_uint d'
  | Decimal.D8 d' => 56 :: digits_of_uint d'
  | Decimal.D9 d' => 57 :: digits_of_uint d'
  end.

(** [str(n)], also what an f-string does with [{n}]. *)
Definition str_of_int (n : Z) : res str :=
  let ds := digits_of_uint (N.to_uint (Z.abs_N n)) in
  if int_max_str_digits <? N.of_nat (List.length ds) then Raise ValueError
  else Return (if (n <? 0)%Z then minus_sign :: ds else ds).

End PyStr.

(** ** Python numbers *)

Module PyNum.

Open Scope Z_scope.

Inductive number :=
| PyInt (z : Z)
| PyFloat (x : float).

(** Nearest binary64 of a non-negative integer, ties to even
    ([PyLong_AsDouble]); [None] when it does not fit. *)
Definition float_of_nat (z : Z) : option float :=
  let e := Z.log2 z - 52 in
  if e <=? 0 then Some (PrimFloat.of_uint63 (Uint63.of_Z z))
  else
    let q := Z.shiftr z e in
    let r := Z.land z (Z.ones e) in
    let half := 2 ^ (e - 1) in
    let m := if r <? half then q
             else if half <? r then q + 1
             else if Z.even q then q else q + 1 in
    if 2 ^ 1024 <=? m * 2 ^ e then None
    else Some (Z.ldexp (PrimFloat.of_uint63 (Uint63.of_Z m)) e).

(** [float(z)] *)
Definition float_of_int (z : Z) : res float :=
  match float_of_nat (Z.abs z) with
  | Some x => Return (if z <? 0 then PrimFloat.opp x else x)
  | None => Raise OverflowError
  end.

(** [2 ** n] for an int [n]: an int when [n >= 0], else the float
    [2.0 ** float(n)]. *)
Definition pow2 (n : Z) : res number :=
  if 0 <=? n then Return (PyInt (2 ^ n))
  else
    match float_of_int n with
    | Return _ => Return (PyFloat (Z.ldexp 1%float n))
    | Raise e => Raise e
    end.

(** [x * y]: the product of two ints is an int; when one factor is a float
    the other is converted to a float first. *)
Definition mul (x y : number) : res number :=
  match x, y with
  | PyInt a, PyInt b => Return (PyInt (a * b))
  | PyFloat a, PyFloat b => Return (PyFloat (PrimFloat.mul a b))
  | PyFloat a, PyInt b =>
      match float_of_int b with
      | Return b' => Return (PyFloat (PrimFloat.mul a b'))
      | Raise e => Raise e
      end
  | PyInt a, PyFloat b =>
      match float_of_int a with
      | Return a' => Return (PyFloat (PrimFloat.mul a' b))
      | Raise e => Raise e
      end
  end.

(** [min(x, 60)]: the first argument unless the second is smaller.  60 is a
    binary64 value, so the comparison with a float is exact. *)
Definition min_60 (x : number) : number :=
  match x with
  | PyInt z => if 60 <? z then PyInt 60 else PyInt z
  | PyFloat f => if PrimFloat.ltb 60%float f then PyInt 60 else PyFloat f
  end.

(** The exact value of a number, when it is an integer. *)
Definition integer_value (d : number) : option Z :=
  match d with
  | PyInt z => Some z
  | PyFloat x =>
      match Prim2SF x with
      | S754_zero _ => Some 0
      | S754_finite s m e =>
          if 0 <=? e
          then Some ((if s then -1 else 1) * (Z.pos m * 2 ^ e))
          else if Z.land (Z.pos m) (Z.ones (- e)) =? 0
               then Some ((if s then -1 else 1) * Z.shiftr (Z.pos m) (- e))
               else None
      | _ => None
      end
  end.

End PyNum.

(** ** utils.py *)

Module Utils.

Import PyStr PyNum.

(** A record dict: keys in insertion order. *)
Definition dict := list (string * str).

Fixpoint dict_get (k : string) (d : dict) : option str :=
  match d with
  | [] => None
  | (k', v) :: d' => if String.eqb k k' then Some v else dict_get k d'
  end.

(** [d[k] = v] *)
Fixpoint dict_set (k : string) (v : str) (d : dict) : dict :=
  match d with
  | [] => [(k, v)]
  | (k', v') :: d' =>
      if String.eqb k k' then (k, v) :: d' else (k', v') :: dict_set k v d'
  end.

(** [d.update(other)] *)
Definition dict_update (d other : dict) : dict :=
  fold_left (fun acc kv => dict_set (fst kv) (snd kv) acc) other d.

Definition clean_text (text : str) : str :=
  match text with
  | [] => []
  | _ :: _ => replace [TAB] [SP] (replace [CR] [] (replace [LF] [SP] (strip text)))
  end.

(** The default category ("uncategorised", three CJK characters). *)
Definition default_category : str := [26410; 20998; 31867]%N.

(** [timestamp] is the value of [format_timestamp()] at the call. *)
Definition create_tool_item (timestamp : str)
    (name description url category : str) : dict :=
  [ ("name"%string, clean_text name);
    ("description"%string, clean_text description);
    ("url"%string, strip url);
    ("category"%string, clean_text category);
    ("crawl_time"%string, timestamp) ].

(** The default of the parameter [base_delay]: the float [1.0]. *)
Definition default_base_delay : number := PyFloat 1%float.

Definition get_retry_delay (attempt : Z) (base_delay : number) : res number :=
  (try! p <- pow2 attempt;
   try! x <- mul base_delay p;
   Return (min_60 x))%res.

(** What [save_data] has done to the file system, in order: [Makedirs] is
    a directory made, [WriteFile] a file opened for writing (created or
    truncated) together with the text it holds when it is closed. *)
Inductive file_event :=
| Makedirs (path : str)
| WriteFile (path : str) (text : str).

(** The exceptions [save_data] lets through. *)
Inductive save_error :=
| FieldsError            (* ValueError of csv.DictWriter: a key outside the
                            field names *)
| UnicodeEncodeError     (* a text that UTF-8 cannot encode *)
| BadFileName            (* ValueError (embedded null byte) or
                            UnicodeEncodeError, for a file name *)
| FileSystemError.       (* OSError, FileNotFoundError included *)

(** How [save_data] ends: with the path, or with an exception. *)
Inductive saved :=
| Saved (filepath : str)
| Failed (e : save_error).

(** The file system as [save_data] meets it: the names that exist, the
    directories [os.makedirs] can make and the files [open(..., 'w')] can
    create.  The answers count for a name the operating system can be given
    (see [usable]); an opened file takes what is written to it. *)
Record FileSystem := {
  holds : str -> bool;
  makes : str -> bool;
  opens : str -> bool
}.

(** A name the operating system can be given: it has no null character,
    and no surrogate but those that stand for an undecodable byte (U+DC80
    to U+DCFF). *)
Definition usable (name : str) : bool :=
  forallb (fun c => negb (c =? 0)
                    && (negb ((55296 <=? c) && (c <=? 57343))
                        || ((56448 <=? c) && (c <=? 56575))))%N name.

(** [os.path.exists(name)]: false for the empty name and for a name that
    is not usable. *)
Definition path_exists (fs : FileSystem) (name : str) : bool :=
  match name with
  | [] => false
  | _ :: _ => usable name && holds fs name
  end.

(** [os.makedirs(name)]: [None] when the directory has been made.  The
    empty name raises [FileNotFoundError]. *)
Definition makedirs (fs : FileSystem) (name : str) : option save_error :=
  match name with
  | [] => Some FileSystemError
  | _ :: _ =>
      if negb (usable name) then Some BadFileName
      else if makes fs name then None else Some FileSystemError
  end.

(** [open(name, 'w', encoding='utf-8')]: [None] when the file is open. *)
Definition open_w (fs : FileSystem) (name : str) : option save_error :=
  match name with
  | [] => Some FileSystemError
  | _ :: _ =>
      if negb (usable name) then Some BadFileName
      else if opens fs name then None else Some FileSystemError
  end.

(** [d.keys()] *)
Definition keys (d : dict) : list string := map fst d.

(** [os.path.join(a, b)] with the POSIX separator. *)
Definition path_join (a b : str) : str :=
  if startswith (py "/") b then b
  else match rev a with
       | [] => b
       | c :: _ => if (c =? 47)%N then a ++ b else a ++ py "/" ++ b
       end.

(** [text.encode('utf-8')] succeeds: no surrogate code point. *)
Definition encodable (text : str) : bool :=
  forallb (fun c => negb ((55296 <=? c) && (c <=? 57343)))%N text.

(** [f.write(chunk)]: a chunk that cannot be encoded raises and leaves the
    file as it was. *)
Definition write (chunk written : str) : option save_error * str :=
  if encodable chunk then (None, written ++ chunk)
  else (Some UnicodeEncodeError, written).

(** [for chunk in iterable: fp.write(chunk)] of [json.dump]. *)
Fixpoint write_chunks (chunks : list str) (written : str)
  : option save_error * str :=
  match chunks with
  | [] => (None, written)
  | chunk :: rest =>
      match write chunk written with
      | (None, written') => write_chunks rest written'
      | failed => failed
      end
  end.

(** [rowdict.get(key, restval) for key in fieldnames], [restval] the empty
    string. *)
Definition row_cells (fieldnames : list string) (rowdict : dict) : list str :=
  map (fun key => match dict_get key rowdict with
                  | Some v => v
                  | None => []
                  end) fieldnames.

(** [DictWriter._dict_to_list]: a row with a key outside the field names is
    refused ([None]). *)
Definition dict_to_list (fieldnames : list string) (rowdict : dict)
  : option (list str) :=
  if forallb (fun k => existsb (String.eqb k) fieldnames) (keys rowdict)
  then Some (row_cells fieldnames rowdict)
  else None.

Section Persistence.

(** [str.lower] *)
Variable lower : str -> str.

(** The chunks [json.dump({'tools': data}, f, ensure_ascii=False, indent=2)]
    writes one after the other. *)
Variable json_chunks : list dict -> list str.

(** The line [csv.writer] writes for one row. *)
Variable writerow : list str -> str.

(** [DictWriter.writerow] *)
Definition DictWriter_writerow (fieldnames : list string) (rowdict : dict)
    (written : str) : option save_error * str :=
  match dict_to_list fieldnames rowdict with
  | None => (Some FieldsError, written)
  | Some cells => write (writerow cells) written
  end.

(** [DictWriter.writeheader]: the row that maps each field name to itself. *)
Definition DictWriter_writeheader (fieldnames : list string) (written : str)
  : option save_error * str :=
  DictWriter_writerow fieldnames (map (fun k => (k, py k)) fieldnames) written.

(** [DictWriter.writerows]: rows are converted and written one by one, so
    what precedes a refused row is in the file already. *)
Fixpoint DictWriter_writerows (fieldnames : list string) (rows : list dict)
    (written : str) : option save_error * str :=
  match rows with
  | [] => (None, written)
  | rowdict :: rest =>
      match DictWriter_writerow fieldnames rowdict written with
      | (None, written') => DictWriter_writerows fieldnames rest written'
      | failed => failed
      end
  end.

(** [timestamp] is the clock formatted with ['%Y%m%d_%H%M%S']. *)
Definition save_data (fs : FileSystem) (timestamp : str)
    (data : list dict) (output_format output_dir : str)
  : saved * list file_event :=
  let '(refused, made) :=
    if path_exists fs output_dir then (None, [])
    else match makedirs fs output_dir with
         | Some e => (Some e, [])
         | None => (None, [Makedirs output_dir])
         end in
  match refused with
  | Some e => (Failed e, made)
  | None =>
      if eqb (lower output_format) (py "json") then
        let filename := py "ai_tools_" ++ timestamp ++ py ".json" in
        let filepath := path_join output_dir filename in
        match open_w fs filepath with
        | Some e => (Failed e, made)
        | None =>
            match write_chunks (json_chunks data) [] with
            | (None, text) => (Saved filepath, made ++ [WriteFile filepath text])
            | (Some e, text) => (Failed e, made ++ [WriteFile filepath text])
            end
        end
      else
        let filename := py "ai_tools_" ++ timestamp ++ py ".csv" in
        let filepath := path_join output_dir filename in
        match data with
        | [] => (Saved filepath, made)
        | first :: _ =>
            let fieldnames := keys first in
            match open_w fs filepath with
            | Some e => (Failed e, made)
            | None =>
                match DictWriter_writeheader fieldnames [] with
                | (Some e, text) =>
                    (Failed e, made ++ [WriteFile filepath text])
                | (None, header) =>
                    match DictWriter_writerows fieldnames data header with
                    | (None, text) =>
                        (Saved filepath, made ++ [WriteFile filepath text])
                    | (Some e, text) =>
                        (Failed e, made ++ [WriteFile filepath text])
                    end
                end
            end
        end
  end.

End Persistence.

End Utils.

(** ** BeautifulSoup trees *)

Module Soup.

Import PyStr.

#[local] Set Warnings "-register-all".

(** A node of the parsed document.  [class_] is the token list of the
    [class] attribute (empty when the attribute is absent); [attrs] holds the
    other, single-valued attributes.  Comments, processing instructions and
    the like, which neither a search by tag name nor [get_text] sees, have
    no node. *)
Inductive PageElement :=
| NavigableString (text : str)
| Tag (name : str) (class_ : list str) (attrs : list (str * str))
      (contents : list PageElement).

Definition children (e : PageElement) : list PageElement :=
  match e with
  | NavigableString _ => []
  | Tag _ _ _ cs => cs
  end.

(** [e.descendants]: document order, [e] itself excluded. *)
Fixpoint descendants (e : PageElement) : list PageElement :=
  match e with
  | NavigableString _ => []
  | Tag _ _ _ cs =>
      (fix walk (l : list PageElement) : list PageElement :=
         match l with
         | [] => []
         | c :: l' => c :: descendants c ++ walk l'
         end) cs
  end.

(** Does [e] match a search for tag [name], with [class_=cls] when given? *)
Definition matches (name : str) (cls : option str) (e : PageElement) : bool :=
  match e with
  | NavigableString _ => false
  | Tag n cl _ _ =>
      eqb n name &&
      match cls with
      | None => true
      | Some c => contains c cl
      end
  end.

(** [e.find_all(name, class_=cls, recursive=...)] *)
Definition find_all (name : str) (cls : option str) (recursive : bool)
    (e : PageElement) : list PageElement :=
  filter (matches name cls) (if recursive then descendants e else children e).

(** [e.find(name, class_=cls, recursive=...)] *)
Definition find (name : str) (cls : option str) (recursive : bool)
    (e : PageElement) : option PageElement :=
  hd_error (find_all name cls recursive e).

(** [e.get_text()] *)
Fixpoint get_text (e : PageElement) : str :=
  match e with
  | NavigableString s => s
  | Tag _ _ _ cs =>
      (fix walk (l : list PageElement) : str :=
         match l with
         | [] => []
         | c :: l' => get_text c ++ walk l'
         end) cs
  end.

Fixpoint lookup (key : str) (attrs : list (str * str)) : option str :=
  match attrs with
  | [] => None
  | (k, v) :: attrs' => if eqb key k then Some v else lookup key attrs'
  end.

(** [e.get(key, default)] for a single-valued attribute. *)
Definition get (key : str) (default : str) (e : PageElement) : str :=
  match e with
  | NavigableString _ => default
  | Tag _ _ attrs _ =>
      match lookup key attrs with
      | Some v => v
      | None => default
      end
  end.

(** [e.get('class', [])] *)
Definition get_class (e : PageElement) : list str :=
  match e with
  | NavigableString _ => []
  | Tag _ cl _ _ => cl
  end.

End Soup.

(** ** parser.py *)

Module AIToolParser.

Import PyStr Utils Soup.

(** The loop over the spans of the counter block: the last span of each kind
    wins. *)
Fixpoint scan_spans (spans : list PageElement) (views likes : str)
  : str * str :=
  match spans with
  | [] => (views, likes)
  | span :: rest =>
      if contains (py "down") (get_class span)
      then scan_spans rest (strip (replace (py "down") [] (get_text span))) likes
      else if contains (py "home-like") (get_class span)
      then scan_spans rest views (strip (get_text span))
      else scan_spans rest views likes
  end.

(** [timestamp] is what [format_timestamp()] returns if the card gets as far
    as [create_tool_item].  No operation of the [try] block can raise on a
    parsed tree, so the [except] branch does not appear. *)
Definition _parse_tool_card (timestamp : str) (card_element : PageElement)
  : option dict :=
  match find (py "div") (Some (py "card-body")) true card_element with
  | None => None
  | Some card_body =>
  match find (py "div") (Some (py "app-content")) true card_body with
  | None => None
  | Some app_content =>
  match find (py "a") None true app_content with
  | None => None
  | Some title_element =>
      let name := strip (get_text title_element) in
      let url := get (py "href") [] title_element in
      let description :=
        match find (py "div") (Some (py "text-muted")) true app_content with
        | Some description_element => strip (get_text description_element)
        | None => []
        end in
      let category :=
        match find (py "div") (Some (py "tga")) true app_content with
        | Some tga_element =>
            match find (py "a") None true tga_element with
            | Some category_link => strip (get_text category_link)
            | None => default_category
            end
        | None => default_category
        end in
      let '(views, likes) :=
        match find (py "div") (Some (py "text-muted")) false app_content with
        | Some meta_info =>
            scan_spans (find_all (py "span") None true meta_info)
                       (py "0") (py "0")
        | None => (py "0", py "0")
        end in
      let icon_url :=
        match find (py "a") (Some (py "media-content")) true card_body with
        | Some media_content =>
            strip (replace (py ")") []
                     (replace (py "url(") [] (get (py "data-bg") [] media_content)))
        | None => []
        end in
      let tool_info := create_tool_item timestamp name description url category in
      Some (dict_update tool_info
              [ ("views"%string, clean_text views);
                ("likes"%string, clean_text likes);
                ("icon_url"%string, icon_url) ])
  end end end.

(** [if d:] for a dict: true when it has a key. *)
Definition truthy (d : dict) : bool :=
  match d with
  | [] => false
  | _ :: _ => true
  end.

(** The loop of [parse_tool_list].  [clock k] is the time stamp of the
    [k]-th call of [format_timestamp()]; [tick] counts the calls made. *)
Fixpoint parse_cards (clock : nat -> str) (tick : nat)
    (tool_cards : list PageElement) (tools : list dict) : list dict * nat :=
  match tool_cards with
  | [] => (tools, tick)
  | card :: rest =>
      match _parse_tool_card (clock tick) card with
      | Some tool_info =>
          if truthy tool_info
          then parse_cards clock (S tick) rest (tools ++ [tool_info])
          else parse_cards clock (S tick) rest tools
      | None => parse_cards clock tick rest tools
      end
  end.

Definition tool_cards_of (soup : PageElement) : list PageElement :=
  find_all (py "div") (Some (py "card-app")) true soup.

Definition parse_tool_list (clock : nat -> str) (soup : PageElement)
  : list dict :=
  fst (parse_cards clock O (tool_cards_of soup) []).

(** How many times [parse_tool_list] reads the clock. *)
Definition timestamp_calls (clock : nat -> str) (soup : PageElement) : nat :=
  snd (parse_cards clock O (tool_cards_of soup) []).

Record PaginationInfo := {
  current_page : Z;
  total_pages : Z
}.

(** [max(l)] for a non-empty list. *)
Definition max_of (x : Z) (l : list Z) : Z := fold_left Z.max l x.

(** The list comprehension [[int(t) for t in texts if t.isdigit()]];
    [None] when an [int] raises [ValueError]. *)
Fixpoint page_numbers_of (texts : list str) : option (list Z) :=
  match texts with
  | [] => Some []
  | t :: rest =>
      if isdigit t then
        match int t with
        | None => None
        | Some n => option_map (cons n) (page_numbers_of rest)
        end
      else page_numbers_of rest
  end.

Definition extract_pagination_info (soup : PageElement) : PaginationInfo :=
  match find (py "div") (Some (py "pagination")) true soup with
  | None => {| current_page := 1; total_pages := 1 |}
  | Some pagination =>
      let current_page :=
        match find (py "span") (Some (py "current")) true pagination with
        | Some current =>
            match int (get_text current) with
            | Some n => n
            | None => 1%Z
            end
        | None => 1%Z
        end in
      let page_links := find_all (py "a") (Some (py "page-numbers")) true pagination in
      let total_pages :=
        match page_links with
        | [] => 1%Z
        | _ :: _ =>
            match page_numbers_of (map get_text page_links) with
            | Some (n :: ns) => max_of n ns
            | Some [] => 1%Z
            | None => 1%Z
            end
        end in
      {| current_page := current_page; total_pages := total_pages |}
  end.

Definition is_valid_page (soup : PageElement) : bool :=
  match find (py "div") (Some (py "content")) true soup with
  | None => false
  | Some _ =>
      match tool_cards_of soup with
      | [] => false
      | _ :: _ => true
      end
  end.

End AIToolParser.

(** ** crawler.py *)

Module AICrawler.

Import PyStr PyNum Utils Soup AIToolParser.

(** What the server does with one GET. *)
Inductive response :=
| Response (status : Z) (text : res str)   (* [text]: decoding the body *)
| RequestError (e : exception).            (* network error, timeout *)

Inductive event :=
| Get (url : str)
| Sleep (delay : number)                   (* the back-off sleep *)
| SleepUniform (lo hi : Z)                 (* sleep(random.uniform(lo, hi)) *)
| WriteDebug (html : str).                 (* debug_page.html overwritten *)

(** The environment of a run.  [server k url] answers the [k]-th GET of the
    run, [disk k] tells whether the [k]-th opening of the debug file
    succeeds, [wallclock k] is the [k]-th formatted reading of the clock.
    [trace] lists what has happened, oldest first.

    [room] is what the recursion limit of the interpreter leaves when the
    crawler calls [fetch_page], counted in retries: that many retries, each
    awaited by the handler of the attempt before it, run as they would on an
    unbounded stack; the retry after them does not fit (see [fetch_page]).
    Under CPython's default limit of 1000 frames the room is somewhat below
    1000. *)
Record World := {
  server : nat -> str -> response;
  disk : nat -> bool;
  wallclock : nat -> str;
  room : nat;
  gets : nat;
  writes : nat;
  ticks : nat;
  trace : list event
}.

Definition log_event (ev : event) (w : World) : World :=
  {| server := server w; disk := disk w; wallclock := wallclock w;
     room := room w;
     gets := gets w; writes := writes w; ticks := ticks w;
     trace := trace w ++ [ev] |}.

Definition count_get (w : World) : World :=
  {| server := server w; disk := disk w; wallclock := wallclock w;
     room := room w;
     gets := S (gets w); writes := writes w; ticks := ticks w;
     trace := trace w |}.

Definition count_write (w : World) : World :=
  {| server := server w; disk := disk w; wallclock := wallclock w;
     room := room w;
     gets := gets w; writes := S (writes w); ticks := ticks w;
     trace := trace w |}.

Definition advance_clock (n : nat) (w : World) : World :=
  {| server := server w; disk := disk w; wallclock := wallclock w;
     room := room w;
     gets := gets w; writes := writes w; ticks := n;
     trace := trace w |}.

Definition with_room (n : nat) (w : World) : World :=
  {| server := server w; disk := disk w; wallclock := wallclock w;
     room := n;
     gets := gets w; writes := writes w; ticks := ticks w;
     trace := trace w |}.

(** A nested call runs one frame deeper, with one unit of room less; the
    room is back when the call has returned or raised. *)
Definition enter_call (w : World) : World := with_room (pred (room w)) w.

Definition leave_call {A : Type} (out : A * World) : A * World :=
  (fst out, with_room (S (room (snd out))) (snd out)).

(** The fields of [self].  [session] tells whether the HTTP session has been
    opened ([__aenter__]). *)
Record Crawler := {
  base_url : str;
  max_retries : Z;
  tools : list dict;
  session : bool
}.

Definition __init__ (base_url : str) (max_retries : Z) : Crawler :=
  {| base_url := rstrip (py "/") base_url;
     max_retries := max_retries;
     tools := [];
     session := false |}.

Definition __aenter__ (self : Crawler) : Crawler :=
  {| base_url := base_url self; max_retries := max_retries self;
     tools := tools self; session := true |}.

Definition extend_tools (self : Crawler) (page_tools : list dict) : Crawler :=
  {| base_url := base_url self; max_retries := max_retries self;
     tools := tools self ++ page_tools; session := session self |}.

(** The [try] block of [fetch_page]: [Return (Some html)] is the [return]
    inside it, [Return None] is falling out of it after a status other
    than 200. *)
Definition request (self : Crawler) (url : str) (w : World)
  : res (option str) * World :=
  if negb (session self) then (Raise RuntimeError, w)
  else
    let w1 := count_get (log_event (Get url) w) in
    match server w (gets w) url with
    | RequestError e => (Raise e, w1)
    | Response status text =>
        if (status =? 200)%Z then
          match text with
          | Raise e => (Raise e, w1)
          | Return html_content =>
              if disk w1 (writes w1)
              then (Return (Some html_content),
                    count_write (log_event (WriteDebug html_content) w1))
              else (Raise OSError, count_write w1)
          end
        else (Return None, w1)
    end.

(** [fetch_page] retries by awaiting itself from its [except] handler, so
    each retry runs one call deeper.  A retry for which no room is left
    raises [RecursionError] before it has done anything: its first calls
    ([get_random_headers], [logger.debug]) raise it, its own handler
    catches that and raises it again at [logger.error].  As every pending
    call is waiting inside its handler, none catches it, and it reaches the
    caller of the outermost [fetch_page]. *)
Equations? fetch_page (self : Crawler) (url : str) (retry_count : Z)
    (w : World) : res (option str) * World
  by wf (Z.to_nat (max_retries self - retry_count)) lt :=
  fetch_page self url retry_count w with request self url w := {
    | (Return r, w1) => (Return r, w1);
    | (Raise e, w1) with Z_lt_dec retry_count (max_retries self) := {
        | left _ with get_retry_delay retry_count default_base_delay := {
            | Return delay with Nat.eq_dec (room w1) 0 := {
                | left _ =>
                    (Raise RecursionError, log_event (Sleep delay) w1);
                | right _ =>
                    leave_call
                      (fetch_page self url (retry_count + 1)
                                  (enter_call (log_event (Sleep delay) w1))) };
            | Raise e' => (Raise e', w1) };
        | right _ => (Return None, w1) } }.
Proof. lia. Qed.

Section WithParser.

(** [BeautifulSoup(html_content, 'lxml')] *)
Variable BeautifulSoup : str -> PageElement.

(** The URL of a page: the f-string of [crawl_page]. *)
Definition page_url (self : Crawler) (page : Z) : res str :=
  if (1 <? page)%Z
  then (try! n <- str_of_int page;
        Return (base_url self ++ py "page/" ++ n))%res
  else Return (base_url self).

Definition crawl_page (page : Z) (self : Crawler) (w : World)
  : res bool * Crawler * World :=
  match page_url self page with
  | Raise e => (Raise e, self, w)
  | Return url =>
      let w1 := log_event (SleepUniform 2 5) w in
      match fetch_page self url 0 w1 with
      | (Raise e, w2) => (Raise e, self, w2)
      | (Return None, w2) => (Return false, self, w2)
      | (Return (Some []), w2) => (Return false, self, w2)
      | (Return (Some html_content), w2) =>
          if negb (is_valid_page (BeautifulSoup html_content))
          then (Return false, self, w2)
          else
            let clock := fun k => wallclock w2 (ticks w2 + k)%nat in
            let page_tools :=
              parse_tool_list clock (BeautifulSoup html_content) in
            let w3 :=
              advance_clock
                (ticks w2 + timestamp_calls clock (BeautifulSoup html_content))
                w2 in
            match page_tools with
            | _ :: _ => (Return true, extend_tools self page_tools, w3)
            | [] => (Return false, self, w3)
            end
      end
  end.

End WithParser.

Section WithScheduler.

(** [BeautifulSoup(html_content, 'lxml')] *)
Variable BeautifulSoup : str -> PageElement.

(** A coroutine of the crawler: what it does to the crawler and to the world
    when it is run. *)
Definition coroutine (A : Type) : Type :=
  Crawler -> World -> res A * Crawler * World.

(** [asyncio.gather] on the tasks: the event loop's run of them. *)
Variable gather : list (coroutine bool) -> coroutine (list bool).

(** [range(2, total_pages + 1)] *)
Definition page_range (total_pages : Z) : list Z :=
  map (fun k => (2 + Z.of_nat k)%Z) (seq 0 (Z.to_nat (total_pages - 1))).

(** The loop that builds the tasks: for each page a pacing sleep, then the
    coroutine of the page, which [gather] will start. *)
Fixpoint schedule (pages : list Z) (tasks : list (coroutine bool))
    (w : World) : list (coroutine bool) * World :=
  match pages with
  | [] => (tasks, w)
  | page :: rest =>
      schedule rest (tasks ++ [crawl_page BeautifulSoup page])
               (log_event (SleepUniform 1 3) w)
  end.

Definition crawl_all (self : Crawler) (w : World)
  : res unit * Crawler * World :=
  match fetch_page self (base_url self) 0 w with
  | (Raise e, w1) => (Raise e, self, w1)
  | (Return None, w1) => (Return tt, self, w1)
  | (Return (Some []), w1) => (Return tt, self, w1)
  | (Return (Some html_content), w1) =>
      let soup := BeautifulSoup html_content in
      let '(self1, w2) :=
        if is_valid_page soup then
          let clock := fun k => wallclock w1 (ticks w1 + k)%nat in
          let page_tools := parse_tool_list clock soup in
          let w2 := advance_clock (ticks w1 + timestamp_calls clock soup) w1 in
          match page_tools with
          | _ :: _ => (extend_tools self page_tools, w2)
          | [] => (self, w2)
          end
        else (self, w1) in
      let total := total_pages (extract_pagination_info soup) in
      if (1 <? total)%Z then
        let '(tasks, w3) := schedule (page_range total) [] w2 in
        match gather tasks self1 w3 with
        | (Raise e, self2, w4) => (Raise e, self2, w4)
        | (Return results, self2, w4) => (Return tt, self2, w4)
        end
      else (Return tt, self1, w2)
  end.

End WithScheduler.

(** [sum(1 for r in results if r)] of [crawl_all]. *)
Definition successful_pages (results : list bool) : nat :=
  List.length (filter (fun r => r) results).

End AICrawler.

Import PyStr PyNum Utils Soup AIToolParser AICrawler.

(** ** The specification's reading of the operations *)

Module Spec.

(** What cleaning does to one character. *)
Definition clean_char (c : char) : str :=
  if (c =? LF)%N then [SP]
  else if (c =? CR)%N then []
  else if (c =? TAB)%N then [SP]
  else [c].

(** [clean]: strip, then substitute character by character. *)
Definition clean (s : str) : str := flat_map clean_char (strip s).

(** The back-off delay in seconds: [min(1 * 2^attempt, 60)]. *)
Definition backoff_seconds (attempt : Z) : Z := Z.min (1 * 2 ^ attempt) 60.

(** The delay of [get_retry_delay], called as [fetch_page] calls it, in
    whole seconds, when it returns one. *)
Definition delay_seconds (attempt : Z) : option Z :=
  match get_retry_delay attempt default_base_delay with
  | Return d => integer_value d
  | Raise _ => None
  end.

Definition delay_is_backoff (attempt : Z) : bool :=
  match delay_seconds attempt with
  | Some v => (v =? backoff_seconds attempt)%Z
  | None => false
  end.

(** The anchor that names an entry: the first [a] of the [app-content]
    block of the entry's [card-body] block. *)
Definition title_anchor (card : PageElement) : option PageElement :=
  match find (py "div") (Some (py "card-body")) true card with
  | None => None
  | Some card_body =>
      match find (py "div") (Some (py "app-content")) true card_body with
      | None => None
      | Some app_content => find (py "a") None true app_content
      end
  end.

(** A valid entry: its content block and name anchor can be located. *)
Definition located (card : PageElement) : bool :=
  match title_anchor card with
  | Some _ => true
  | None => false
  end.

(** An entry of a listing: a [div] element whose class attribute has the
    token [card-app]. *)
Definition is_entry (e : PageElement) : bool :=
  match e with
  | NavigableString _ => false
  | Tag name class_ _ _ =>
      eqb name (py "div") && existsb (eqb (py "card-app")) class_
  end.

(** The entries inside a page, in document order: an entry comes before
    the entries nested in it, and those before the entries that follow
    it. *)
Fixpoint entries (e : PageElement) : list PageElement :=
  match e with
  | NavigableString _ => []
  | Tag _ _ _ cs =>
      (fix walk (l : list PageElement) : list PageElement :=
         match l with
         | [] => []
         | c :: l' => (if is_entry c then [c] else []) ++ entries c ++ walk l'
         end) cs
  end.

(** [r] is the record extracted from [card]. *)
Definition record_of (card : PageElement) (r : dict) : Prop :=
  exists a ts,
    title_anchor card = Some a
    /\ _parse_tool_card ts card = Some r
    /\ dict_get "name" r = Some (clean_text (strip (get_text a)))
    /\ dict_get "url" r = Some (strip (get (py "href") [] a)).

(** The texts of the page links of the pagination control. *)
Definition page_link_texts (soup : PageElement) : list str :=
  match find (py "div") (Some (py "pagination")) true soup with
  | Some pagination =>
      map get_text
        (find_all (py "a") (Some (py "page-numbers")) true pagination)
  | None => []
  end.

(** The text of the current-page marker. *)
Definition current_text (soup : PageElement) : option str :=
  match find (py "div") (Some (py "pagination")) true soup with
  | Some pagination =>
      option_map get_text
        (find (py "span") (Some (py "current")) true pagination)
  | None => None
  end.

(** The integers among the texts: those [int] accepts. *)
Definition integers_of (texts : list str) : list Z :=
  flat_map (fun t => match int t with Some n => [n] | None => [] end) texts.

Definition maximum_or (default : Z) (l : list Z) : Z :=
  match l with
  | [] => default
  | n :: ns => max_of n ns
  end.

(** [total_pages] as the specification words it: the largest page-link text
    that parses as an integer, 1 when none does. *)
Definition largest_parsed_link (soup : PageElement) : Z :=
  maximum_or 1 (integers_of (page_link_texts soup)).

(** The texts the code keeps: digit strings. *)
Definition digit_texts (texts : list str) : list str := filter isdigit texts.

(** [if not html_content] of [crawl_page]: no page, or an empty text. *)
Definition fetch_failed (h : option str) : bool :=
  match h with
  | None => true
  | Some [] => true
  | Some (_ :: _) => false
  end.

(** The clock as [parse_tool_list] sees it from the world [w]. *)
Definition clock_of (w : World) : nat -> str :=
  fun k => wallclock w (ticks w + k)%nat.

(** Does an attempt that is answered by [r], and that writes the debug file
    with outcome [written], end in an exception?  It does on a request
    error, on a body that cannot be decoded, and on a failed write. *)
Definition attempt_raises (r : response) (written : bool) : bool :=
  match r with
  | RequestError _ => true
  | Response status text =>
      (status =? 200)%Z
      && match text with
         | Raise _ => true
         | Return _ => negb written
         end
  end.

(** Every attempt to fetch [url] ends in an exception. *)
Definition always_raises (w : World) (url : str) : Prop :=
  forall k j, attempt_raises (server w k url) (disk w j) = true.

(** The back-off sleeps of a trace, in whole seconds. *)
Definition backoff_sleeps (t : list event) : list (option Z) :=
  flat_map (fun ev => match ev with
                      | Sleep d => [integer_value d]
                      | _ => []
                      end) t.

(** The delays slept before retries [first], [first + 1], ... *)
Definition backoff_schedule (first : Z) (n : nat) : list (option Z) :=
  map (fun k => Some (backoff_seconds (first + Z.of_nat k))) (seq 0 n).

End Spec.

(** ** Concrete pages and environments *)

Module Examples.

(** The tree lxml builds around a body. *)
Definition document (body : list PageElement) : PageElement :=
  Tag (py "[document]") [] []
    [Tag (py "html") [] [] [Tag (py "body") [] [] body]].

Definition div (cls : string) (contents : list PageElement) : PageElement :=
  Tag (py "div") [py cls] [] contents.

(** A parser that knows the given pages; any other text is an empty
    document. *)
Fixpoint lxml (pages : list (str * PageElement)) (html : str) : PageElement :=
  match pages with
  | [] => document []
  | (text, soup) :: rest => if eqb html text then soup else lxml rest html
  end.

(** An environment with nothing done yet, a working disk, a stopped clock
    and room for 900 retries. *)
Definition fresh_world (srv : nat -> str -> response) : World :=
  {| server := srv; disk := fun _ => true;
     wallclock := fun _ => py "2024-01-01 00:00:00";
     room := 900;
     gets := 0; writes := 0; ticks := 0; trace := [] |}.

(** A crawler with its session open. *)
Definition crawler (base : str) (retries : Z) : Crawler :=
  __aenter__ (__init__ base retries).

Definition page_link (text : str) : PageElement :=
  Tag (py "a") [py "page-numbers"] [] [NavigableString text].

(** The pagination control of the last of three pages: links to pages 1 and
    2, and the current page as a span. *)
Definition last_of_three_pages : PageElement :=
  document
    [div "pagination"
       [page_link (py "1"); page_link (py "2");
        Tag (py "span") [py "page-numbers"; py "current"] []
          [NavigableString (py "3")]]].

(** A pagination control whose current marker reads "next". *)
Definition marker_without_number : PageElement :=
  document
    [div "pagination"
       [page_link (py "1");
        Tag (py "span") [py "page-numbers"; py "current"] []
          [NavigableString (py "next")]]].

(** Page links "5" and the superscript two (U+00B2). *)
Definition links_5_and_superscript_2 : PageElement :=
  document [div "pagination" [page_link (py "5"); page_link [178%N]]].

(** Page links "1", "2", "next", "5". *)
Definition links_1_2_next_5 : PageElement :=
  document
    [div "pagination"
       [page_link (py "1"); page_link (py "2"); page_link (py "next");
        page_link (py "5")]].

(** [<div class=content><div class=card-app></div></div>]: a listing
    whose only entry has no content block. *)
Definition entry_without_content_html : str :=
  py "<div class=content><div class=card-app></div></div>".

Definition entry_without_content : PageElement :=
  document [div "content" [div "card-app" []]].

(** A listing whose only entry has an anchor with no text and no [href]. *)
Definition entry_with_blank_anchor_html : str :=
  py "<div class=content><div class=card-app><div class=card-body><div class=app-content><a></a></div></div></div></div>".

Definition entry_with_blank_anchor : PageElement :=
  document
    [div "content"
       [div "card-app"
          [div "card-body" [div "app-content" [Tag (py "a") [] [] []]]]]].

Definition pages : list (str * PageElement) :=
  [ (entry_without_content_html, entry_without_content);
    (entry_with_blank_anchor_html, entry_with_blank_anchor) ].

(** A server that answers every GET with status 200 and the given text. *)
Definition serve (html : str) : nat -> str -> response :=
  fun _ _ => Response 200 (Return html).

(** A server that answers every GET with the given status and no text. *)
Definition refuse (status : Z) : nat -> str -> response :=
  fun _ _ => Response status (Return []).

(** A server no GET reaches. *)
Definition unreachable : nat -> str -> response :=
  fun _ _ => RequestError ClientError.

(** The crawler of the examples, and the URL of its second page. *)
Definition site : Crawler := crawler (py "https://x/y/") 3.

Definition second_page : str := py "https://x/ypage/2".

(** The world in which [crawl_page] issues its fetch. *)
Definition paced (w : World) : World := log_event (SleepUniform 2 5) w.

End Examples.

(** ** Properties of the texts and records *)

Module Props.

(** A layout character: newline, carriage return or tab. *)
Definition is_layout (c : char) : bool :=
  ((c =? LF) || (c =? CR) || (c =? TAB))%N.

(** The text neither begins nor ends with white space. *)
Definition trimmed (s : str) : bool :=
  match s with
  | [] => true
  | c :: _ => negb (isspace c) && negb (isspace (last s c))
  end.

(** Cleaned text: trimmed, and without layout characters. *)
Definition cleaned (s : str) : bool :=
  trimmed s && forallb (fun c => negb (is_layout c)) s.

(** The keys of a record, in the order they are inserted. *)
Definition columns : list string :=
  ["name"; "description"; "url"; "category"; "crawl_time"; "views"; "likes";
   "icon_url"]%string.

(** [r[k]] of a record that has the key. *)
Definition field (k : string) (r : dict) : str :=
  match dict_get k r with
  | Some v => v
  | None => []
  end.

(** The record of an entry that gave one. *)
Definition field_record (r : option dict) : dict :=
  match r with
  | Some d => d
  | None => []
  end.

(** An attempt that raises before anything is written: a request error, or
    a 200 answer whose body cannot be decoded. *)
Definition request_fails (r : response) : bool :=
  match r with
  | RequestError _ => true
  | Response status (Raise _) => (status =? 200)%Z
  | Response _ (Return _) => false
  end.

(** The world after [n] pacing sleeps of one to three seconds. *)
Definition paced (n : nat) (w : World) : World :=
  {| server := server w; disk := disk w; wallclock := wallclock w;
     room := room w;
     gets := gets w; writes := writes w; ticks := ticks w;
     trace := trace w ++ repeat (SleepUniform 1 3) n |}.

(** What [crawl_all] makes of the outcome of [gather]: the results are only
    counted for the log. *)
Definition report (out : res (list bool) * Crawler * World)
  : res unit * Crawler * World :=
  match out with
  | (Raise e, self, w) => (Raise e, self, w)
  | (Return _, self, w) => (Return tt, self, w)
  end.

(** What [crawl_all] makes of the outcome of its only task. *)
Definition report_one (out : res bool * Crawler * World)
  : res unit * Crawler * World :=
  match out with
  | (Raise e, self, w) => (Raise e, self, w)
  | (Return _, self, w) => (Return tt, self, w)
  end.

(** [gather] on a single task runs the task. *)
Definition runs_single_task
    (gather : list (coroutine bool) -> coroutine (list bool)) : Prop :=
  forall (task : coroutine bool) (self : Crawler) (w : World),
    gather [task] self w
    = match task self w with
      | (Raise e, self', w') => (Raise e, self', w')
      | (Return b, self', w') => (Return [b], self', w')
      end.

(** The records of the first page, as [crawl_all] appends them. *)
Definition first_page_records (soup : PageElement) (w : World) : list dict :=
  if is_valid_page soup then parse_tool_list (Spec.clock_of w) soup else [].

(** A record without its time stamp. *)
Definition without_time (r : dict) : dict :=
  filter (fun kv => negb (String.eqb (fst kv) "crawl_time")) r.

(** An event of a fetch of [url]: a GET of [url], a back-off sleep, or a
    write of the debug file. *)
Definition fetch_event (url : str) (ev : event) : bool :=
  match ev with
  | Get u => eqb u url
  | Sleep _ => true
  | WriteDebug _ => true
  | SleepUniform _ _ => false
  end.

(** The back-off sleeps among the events. *)
Definition is_backoff (ev : event) : bool :=
  match ev with
  | Sleep _ => true
  | _ => false
  end.

(** The text of a CSV export: the line of the field names, then the line of
    each record's cells, a missing cell being empty. *)
Definition csv_text (writerow : list str -> str) (fieldnames : list string)
    (data : list dict) : str :=
  writerow (map py fieldnames)
  ++ flat_map (fun r => writerow (row_cells fieldnames r)) data.

(** The path [save_data] builds for a file of extension [ext]. *)
Definition export_path (output_dir timestamp : str) (ext : string) : str :=
  path_join output_dir (py "ai_tools_" ++ timestamp ++ py ext).

(** The directory [save_data] makes, if any, on a file system that lets
    it. *)
Definition made (fs : FileSystem) (output_dir : str) : list file_event :=
  if path_exists fs output_dir then [] else [Makedirs output_dir].

(** The file system accepts what [save_data] asks of it: the output
    directory exists or can be made, and the file can be opened. *)
Definition accepts (fs : FileSystem) (output_dir filepath : str) : Prop :=
  (path_exists fs output_dir = true \/ makedirs fs output_dir = None)
  /\ open_w fs filepath = None.


End Props.

(** ** More concrete inputs *)

Module Samples.

Definition stamp : str := py "2024-01-01 00:00:00".

Definition anchor (href text : string) : PageElement :=
  Tag (py "a") [] [(py "href", py href)] [NavigableString (py text)].

(** The content block of an entry that has a name anchor and nothing else. *)
Definition bare_content : PageElement :=
  Examples.div "app-content" [anchor "/tool" "Tool"].

Definition bare_body : PageElement := Examples.div "card-body" [bare_content].

Definition bare_card : PageElement := Examples.div "card-app" [bare_body].

(** A server that fails the first two requests and then serves [html]. *)
Definition flaky (html : str) : nat -> str -> response :=
  fun k _ => if (k <? 2)%nat then RequestError ClientError
             else Response 200 (Return html).

(** A crawler whose session was never opened. *)
Definition unopened : Crawler := __init__ (py "https://x/y/") 3.

(** A schedule of [gather]: the tasks run one after the other. *)
Fixpoint gather_in_turn (tasks : list (coroutine bool))
  : coroutine (list bool) :=
  fun self w =>
    match tasks with
    | [] => (Return [], self, w)
    | task :: rest =>
        match task self w with
        | (Raise e, self', w') => (Raise e, self', w')
        | (Return b, self', w') =>
            match gather_in_turn rest self' w' with
            | (Raise e, self2, w2) => (Raise e, self2, w2)
            | (Return bs, self2, w2) => (Return (b :: bs), self2, w2)
            end
        end
    end.

(** A listing of two pages: the first names "One" and links page 2, the
    second names "Two". *)
Definition entry (href text : string) : PageElement :=
  Examples.div "card-app"
    [Examples.div "card-body" [Examples.div "app-content" [anchor href text]]].

Definition first_page_html : str :=
  py "<div class=content><div class=card-app><div class=card-body><div class=app-content><a href=/one>One</a></div></div></div></div><div class=pagination><a class=page-numbers>2</a></div>".

Definition first_page : PageElement :=
  Examples.document
    [Examples.div "content" [entry "/one" "One"];
     Examples.div "pagination" [Examples.page_link (py "2")]].

Definition next_page_html : str :=
  py "<div class=content><div class=card-app><div class=card-body><div class=app-content><a href=/two>Two</a></div></div></div></div>".

Definition next_page : PageElement :=
  Examples.document [Examples.div "content" [entry "/two" "Two"]].

Definition listing : list (str * PageElement) :=
  [(first_page_html, first_page); (next_page_html, next_page)].

(** The server of the listing. *)
Definition listing_server : nat -> str -> response :=
  fun _ url =>
    if eqb url Examples.second_page then Response 200 (Return next_page_html)
    else if eqb url (py "https://x/y") then Response 200 (Return first_page_html)
    else Response 404 (Return []).

(** A lower-casing of the ASCII letters. *)
Definition ascii_lower (s : str) : str :=
  map (fun c => if ((65 <=? c) && (c <=? 90))%N then (c + 32)%N else c) s.

(** A row writer for cells that need no quoting: commas between the cells,
    CR LF at the end. *)
Definition plain_row (cells : list str) : str :=
  match cells with
  | [] => []
  | c :: cs => c ++ flat_map (fun x => py "," ++ x) cs
  end ++ [CR; LF].

(** A file system on which nothing exists yet and everything can be
    made, and one that has every directory. *)
Definition empty_disk : FileSystem :=
  {| holds := fun _ => false; makes := fun _ => true; opens := fun _ => true |}.

Definition full_disk : FileSystem :=
  {| holds := fun _ => true; makes := fun _ => true; opens := fun _ => true |}.

(** A JSON writer is not needed for the CSV samples. *)
Definition no_chunks : list dict -> list str := fun _ => [].

(** Two records with the same keys, and one with a key of its own. *)
Definition row_one : dict := [("name"%string, py "One"); ("url"%string, py "/one")].
Definition row_two : dict := [("url"%string, py "/two"); ("name"%string, py "Two")].
Definition row_odd : dict := [("name"%string, py "Odd"); ("rank"%string, py "3")].

End Samples.

(** Evaluates the list a [Forall] or [Exists] goal ranges over, leaving the
    predicate alone. *)
Ltac evaluate_list :=
  match goal with
  | |- Exists _ ?l => let v := eval vm_compute in l in change l with v
  | |- Forall _ ?l => let v := eval vm_compute in l in change l with v
  end.

(** Closes the frame of a fetch that ends after one attempt. *)
Ltac single_attempt Base Room :=
  let B1 := fresh "B" in let B2 := fresh "B" in let B3 := fresh "B" in
  let B4 := fresh "B" in let B5 := fresh "B" in let B6 := fresh "B" in
  let B7 := fresh "B" in let K := fresh "K" in
  destruct Base as (B1 & B2 & B3 & B4 & B5 & B6 & B7 & K);
  split; [exact B1|]; split; [exact B2|]; split; [exact B3|];
  split; [exact B4|]; split; [exact Room|];
  split; [intros _ ?; discriminate|];
  exists 0%nat; split; [lia|]; split; [exact B5|];
  split; [intros ? _; apply B6; assumption|]; split; [exact B7|];
  first [exact K | intros ? ?; discriminate].

(** ** Strings *)

Lemma replace_char (x : char) (new s : str) :
  replace [x] new s = flat_map (fun c => if (x =? c)%N then new else [c]) s.
Proof.
  unfold replace.
  induction s as [|c rest IH]; simpl; [reflexivity|].
  destruct (x =? c)%N; simpl; rewrite IH; reflexivity.
Qed.

Lemma flat_map_flat_map {A B C} (f : A -> list B) (g : B -> list C) l :
  flat_map g (flat_map f l) = flat_map (fun a => flat_map g (f a)) l.
Proof.
  induction l as [|a l IH]; simpl; [reflexivity|].
  rewrite flat_map_app, IH. reflexivity.
Qed.

Lemma clean_char_chain (c : char) :
  flat_map (fun c => if (TAB =? c)%N then [SP] else [c])
    (flat_map (fun c => if (CR =? c)%N then [] else [c])
       (if (LF =? c)%N then [SP] else [c]))
  = Spec.clean_char c.
Proof.
  unfold Spec.clean_char.
  rewrite (N.eqb_sym c LF), (N.eqb_sym c CR), (N.eqb_sym c TAB).
  destruct (LF =? c)%N eqn:E10.
  - apply N.eqb_eq in E10. subst c. reflexivity.
  - cbn [flat_map app].
    destruct (CR =? c)%N eqn:E13; cbn [flat_map app]; [reflexivity|].
    destruct (TAB =? c)%N; reflexivity.
Qed.

Lemma strip_nil : strip [] = [].
Proof. reflexivity. Qed.

(** C6 (as amended).  For every string, [clean_text] is [strip] followed by
    the three replacements, which is the character-wise substitution of the
    specification; internal spaces are not trimmed further.  On the
    specification's example the result is "a b c": [strip] has already removed
    the trailing carriage return and space. *)
Theorem clean_text_strip_then_replace :
  (forall s : str,
      clean_text s
      = replace [TAB] [SP] (replace [CR] [] (replace [LF] [SP] (strip s)))
      /\ clean_text s = Spec.clean s)
  /\ clean_text ([SP] ++ py "a" ++ [LF] ++ py "b" ++ [TAB] ++ py "c" ++ [CR; SP])
     = py "a b c".
Proof.
  split; [|vm_compute; reflexivity].
  intro s.
  assert (E : clean_text s
              = replace [TAB] [SP] (replace [CR] [] (replace [LF] [SP] (strip s)))).
  { destruct s; [reflexivity|reflexivity]. }
  split; [exact E|].
  rewrite E, !replace_char, !flat_map_flat_map.
  unfold Spec.clean.
  apply flat_map_ext. intro c.
  rewrite <- flat_map_flat_map. apply clean_char_chain.
Qed.

(** C6, the claim as stated fails: the specification's example does not
    evaluate to "a b c " with a trailing space. *)
Lemma clean_text_example_has_no_trailing_space :
  clean_text ([SP] ++ py "a" ++ [LF] ++ py "b" ++ [TAB] ++ py "c" ++ [CR; SP])
  <> py "a b c ".
Proof. vm_compute. discriminate. Qed.

(** ** The back-off delay *)

Lemma delays_up_to_1023 :
  forallb Spec.delay_is_backoff (map Z.of_nat (seq 0 1024)) = true.
Proof. vm_compute. reflexivity. Qed.

Lemma delay_seconds_backoff (attempt : Z) :
  (0 <= attempt <= 1023)%Z ->
  Spec.delay_seconds attempt = Some (Spec.backoff_seconds attempt).
Proof.
  intro H.
  pose proof delays_up_to_1023 as A.
  rewrite forallb_forall in A.
  assert (I : In attempt (map Z.of_nat (seq 0 1024))).
  { apply in_map_iff. exists (Z.to_nat attempt). split; [lia|].
    apply in_seq. lia. }
  specialize (A attempt I).
  unfold Spec.delay_is_backoff in A.
  destruct (Spec.delay_seconds attempt) as [v|]; [|discriminate A].
  f_equal. apply Z.eqb_eq. exact A.
Qed.

Lemma get_retry_delay_returns (attempt : Z) :
  (0 <= attempt <= 1023)%Z ->
  exists d, get_retry_delay attempt default_base_delay = Return d
            /\ integer_value d = Some (Spec.backoff_seconds attempt).
Proof.
  intro H. pose proof (delay_seconds_backoff attempt H) as E.
  unfold Spec.delay_seconds in E.
  destruct (get_retry_delay attempt default_base_delay) as [d|e];
    [|discriminate].
  exists d. auto.
Qed.

Lemma float_of_nat_pow2_overflow (a : Z) :
  (1024 <= a)%Z -> float_of_nat (2 ^ a) = None.
Proof.
  intro H. unfold float_of_nat.
  rewrite Z.log2_pow2 by lia.
  destruct (Z.leb_spec (a - 52) 0) as [L|L]; [lia|].
  cbv zeta.
  rewrite Z.land_ones by lia.
  rewrite Z.shiftr_div_pow2 by lia.
  assert (E : (2 ^ a = 2 ^ 52 * 2 ^ (a - 52))%Z).
  { rewrite <- Z.pow_add_r by lia. f_equal. lia. }
  assert (P : (0 < 2 ^ (a - 52))%Z) by (apply Z.pow_pos_nonneg; lia).
  assert (P' : (0 < 2 ^ (a - 52 - 1))%Z) by (apply Z.pow_pos_nonneg; lia).
  rewrite E.
  rewrite Z.mod_mul by lia.
  rewrite Z.div_mul by lia.
  destruct (Z.ltb_spec 0 (2 ^ (a - 52 - 1))) as [_|C]; [|lia].
  rewrite <- E.
  destruct (Z.leb_spec (2 ^ 1024) (2 ^ a)) as [_|C]; [reflexivity|].
  exfalso. apply (Z.lt_irrefl (2 ^ a)).
  eapply Z.lt_le_trans; [exact C|]. apply Z.pow_le_mono_r; lia.
Qed.

(** From attempt 1024 on, the int [2 ** attempt] does not fit a float and
    the product with the default base delay raises. *)
Lemma get_retry_delay_overflow (attempt : Z) :
  (1024 <= attempt)%Z ->
  get_retry_delay attempt default_base_delay = Raise OverflowError.
Proof.
  intro H. unfold get_retry_delay, pow2.
  destruct (Z.leb_spec 0 attempt) as [_|C]; [|lia].
  cbn [res_bind]. unfold default_base_delay, mul, float_of_int.
  rewrite Z.abs_eq by (apply Z.pow_nonneg; lia).
  rewrite (float_of_nat_pow2_overflow attempt H). reflexivity.
Qed.

(** With an int base delay of 1 the product stays an int, and the delay is
    the capped power of two at every attempt from 0 on. *)
Lemma get_retry_delay_int_base (attempt : Z) :
  (0 <= attempt)%Z ->
  get_retry_delay attempt (PyInt 1)
  = Return (PyInt (Spec.backoff_seconds attempt)).
Proof.
  intro H. unfold get_retry_delay, pow2, Spec.backoff_seconds.
  destruct (Z.leb_spec 0 attempt) as [_|C]; [|lia].
  cbn [res_bind mul min_60].
  destruct (Z.ltb_spec 60 (1 * 2 ^ attempt)) as [L|L]; do 2 f_equal; lia.
Qed.

(** C7 (as amended).  For every attempt from 0 to 1023 the retry delay,
    with the default base delay, is [min(1 * 2^attempt, 60)] seconds, and
    the delays of attempts 0 to 6 are 1, 2, 4, 8, 16, 32, 60. *)
Theorem get_retry_delay_backoff :
  forall attempt : Z,
    (0 <= attempt <= 1023)%Z ->
    Spec.delay_seconds attempt = Some (Spec.backoff_seconds attempt)
    /\ map Spec.delay_seconds [0; 1; 2; 3; 4; 5; 6]%Z
       = map Some [1; 2; 4; 8; 16; 32; 60]%Z.
Proof.
  intros attempt H. split; [|vm_compute; reflexivity].
  apply delay_seconds_backoff. exact H.
Qed.

Lemma get_retry_delay_backoff_witness :
  Spec.delay_seconds 6 = Some (Spec.backoff_seconds 6)
  /\ map Spec.delay_seconds [0; 1; 2; 3; 4; 5; 6]%Z
     = map Some [1; 2; 4; 8; 16; 32; 60]%Z.
Proof. apply (get_retry_delay_backoff 6). lia. Defined.

(** C7, the claim as stated fails: at attempt 1024 the product
    [1.0 * 2 ** 1024] cannot be formed (the int does not fit a float), so no
    delay is returned at all. *)
Lemma get_retry_delay_overflows_at_1024 :
  get_retry_delay 1024 default_base_delay = Raise OverflowError
  /\ Spec.delay_seconds 1024 <> Some (Spec.backoff_seconds 1024).
Proof. split; [vm_compute; reflexivity | vm_compute; discriminate]. Qed.

(** ** The URL of a page *)

Lemma lstrip_by_head (p : char -> bool) (s : str) (c : char) (t : str) :
  lstrip_by p s = c :: t -> p c = false.
Proof.
  induction s as [|x s IH]; simpl; [discriminate|].
  destruct (p x) eqn:E; [exact IH|].
  intro H. injection H as -> _. exact E.
Qed.

(** What [rstrip] leaves does not end with a stripped character. *)
Lemma rstrip_no_trailing (chars s prefix : str) (c : char) :
  rstrip chars s = prefix ++ [c] -> mem c chars = false.
Proof.
  unfold rstrip, rstrip_by. intro H.
  apply (f_equal (@rev char)) in H.
  rewrite rev_involutive, rev_app_distr in H. cbn in H.
  apply (lstrip_by_head (fun c => mem c chars) (rev s) c (rev prefix) H).
Qed.

(** C1.  With base [https://x/y/] the URL requested for page 3 is
    [https://x/ypage/3]: the constructor strips the trailing slash and the
    URL is built without a separator.  Page 1 requests the stripped base.
    For every base, the URL of a page beyond the first is the stripped base,
    which never ends with a slash, directly followed by [page/] and the
    page number. *)
Theorem page_url_lacks_separator :
  page_url (Examples.crawler (py "https://x/y/") 3) 3
    = Return (py "https://x/ypage/3")
  /\ page_url (Examples.crawler (py "https://x/y/") 3) 3
    <> Return (py "https://x/y/page/3")
  /\ page_url (Examples.crawler (py "https://x/y/") 3) 1
    = Return (py "https://x/y")
  /\ trace (snd (crawl_page (Examples.lxml []) 3
                   (Examples.crawler (py "https://x/y/") 3)
                   (Examples.fresh_world
                      (fun _ _ => Response 404 (Return [])))))
     = [SleepUniform 2 5; Get (py "https://x/ypage/3")]
  /\ (forall (base : str) (retries page : Z) (url : str),
        (1 < page)%Z ->
        page_url (__init__ base retries) page = Return url ->
        (exists n, str_of_int page = Return n
                   /\ url = rstrip (py "/") base ++ py "page/" ++ n)
        /\ forall prefix, rstrip (py "/") base <> prefix ++ py "/").
Proof.
  repeat split; try (vm_compute; reflexivity).
  - vm_compute. discriminate.
  - unfold page_url in H0. cbn [base_url __init__] in H0.
    destruct (Z.ltb_spec 1 page) as [_|C]; [|lia].
    destruct (str_of_int page) as [n|e]; [|discriminate].
    exists n. split; [reflexivity|].
    cbn [res_bind] in H0. injection H0 as <-. reflexivity.
  - intros prefix E.
    apply rstrip_no_trailing in E. vm_compute in E. discriminate.
Qed.

(** *** How long the decimal text of a number is *)










(** ** Extraction of the records *)

Lemma parse_card_not_located (card : PageElement) (ts : str) :
  Spec.title_anchor card = None -> _parse_tool_card ts card = None.
Proof.
  unfold Spec.title_anchor, _parse_tool_card.
  destruct (find (py "div") (Some (py "card-body")) true card) as [body|];
    [|reflexivity].
  destruct (find (py "div") (Some (py "app-content")) true body) as [content|];
    [|reflexivity].
  intros ->. reflexivity.
Qed.

Lemma parse_card_located (card a : PageElement) (ts : str) :
  Spec.title_anchor card = Some a ->
  exists r,
    _parse_tool_card ts card = Some r
    /\ truthy r = true
    /\ dict_get "name" r = Some (clean_text (strip (get_text a)))
    /\ dict_get "url" r = Some (strip (get (py "href") [] a))
    /\ dict_get "crawl_time" r = Some ts.
Proof.
  unfold Spec.title_anchor, _parse_tool_card.
  destruct (find (py "div") (Some (py "card-body")) true card) as [body|];
    [|discriminate].
  destruct (find (py "div") (Some (py "app-content")) true body) as [content|];
    [|discriminate].
  intros ->.
  destruct (match find (py "div") (Some (py "text-muted")) false content with
            | Some meta_info => _
            | None => _
            end) as [views likes].
  eexists. split; [reflexivity|].
  repeat split.
Qed.

Lemma parse_card_record (card : PageElement) (ts : str) (r : dict) :
  _parse_tool_card ts card = Some r ->
  Spec.located card = true /\ Spec.record_of card r /\ truthy r = true.
Proof.
  intro H. unfold Spec.located, Spec.record_of.
  destruct (Spec.title_anchor card) as [a|] eqn:E.
  - destruct (parse_card_located card a ts E) as (r' & Hr & Ht & Hn & Hu & _).
    rewrite H in Hr. injection Hr as <-.
    split; [reflexivity|]. split; [|exact Ht].
    exists a, ts. auto.
  - rewrite (parse_card_not_located card ts E) in H. discriminate.
Qed.

Lemma parse_cards_records (clock : nat -> str) (cards : list PageElement) :
  forall tick acc,
  exists recs,
    parse_cards clock tick cards acc = (acc ++ recs, (tick + List.length recs)%nat)
    /\ Forall2 Spec.record_of (filter Spec.located cards) recs.
Proof.
  induction cards as [|card rest IH]; intros tick acc; simpl.
  - exists []. rewrite app_nil_r, Nat.add_0_r. split; [reflexivity|constructor].
  - destruct (_parse_tool_card (clock tick) card) as [r|] eqn:E.
    + destruct (parse_card_record _ _ _ E) as (Hl & Hr & Ht).
      rewrite Ht, Hl.
      destruct (IH (S tick) (acc ++ [r])) as (recs & Hp & Hf).
      exists (r :: recs). rewrite Hp, <- app_assoc. simpl.
      split; [f_equal; lia|]. constructor; assumption.
    + assert (Hl : Spec.located card = false).
      { unfold Spec.located.
        destruct (Spec.title_anchor card) as [a|] eqn:Ea; [|reflexivity].
        destruct (parse_card_located card a (clock tick) Ea) as (r & Hr & _).
        congruence. }
      rewrite Hl. apply IH.
Qed.

Lemma parse_tool_list_records (clock : nat -> str) (soup : PageElement) :
  Forall2 Spec.record_of (filter Spec.located (tool_cards_of soup))
          (parse_tool_list clock soup)
  /\ timestamp_calls clock soup = List.length (parse_tool_list clock soup).
Proof.
  unfold parse_tool_list, timestamp_calls.
  destruct (parse_cards_records clock (tool_cards_of soup) 0 []) as (recs & -> & H).
  simpl. split; [exact H|reflexivity].
Qed.

Lemma PageElement_nested_ind (P : PageElement -> Prop) :
  (forall text, P (NavigableString text)) ->
  (forall name class_ attrs contents,
      Forall P contents -> P (Tag name class_ attrs contents)) ->
  forall e, P e.
Proof.
  intros HS HT. fix IH 1. intros [text|name class_ attrs contents].
  - apply HS.
  - apply HT. induction contents as [|c cs IHcs]; constructor.
    + apply IH.
    + exact IHcs.
Qed.

Lemma matches_is_entry (e : PageElement) :
  matches (py "div") (Some (py "card-app")) e = Spec.is_entry e.
Proof. destruct e; reflexivity. Qed.

(** The cards [parse_tool_list] looks for are the entries of the page, in
    document order. *)
Lemma tool_cards_of_entries (soup : PageElement) :
  tool_cards_of soup = Spec.entries soup.
Proof.
  unfold tool_cards_of, find_all.
  induction soup as [text|name class_ attrs contents H]
    using PageElement_nested_ind; [reflexivity|].
  cbn [descendants Spec.entries].
  induction H as [|c cs Hc _ IH]; [reflexivity|].
  cbn [filter]. rewrite filter_app, Hc, IH, matches_is_entry.
  destruct (Spec.is_entry c); reflexivity.
Qed.

(** C8.  Of the entries of a listing (the [div] elements of class
    [card-app], in document order), exactly the valid ones (content block
    and name anchor located) give a record, in the same relative order: with
    K valid and M other entries the result has K records.  An entry that is
    not valid gives no record and no error: the extraction is a total
    function. *)
Theorem parse_tool_list_valid_entries_in_order :
  forall (clock : nat -> str) (soup : PageElement),
    let cards := Spec.entries soup in
    let valid := filter Spec.located cards in
    let malformed := filter (fun c => negb (Spec.located c)) cards in
    (List.length valid + List.length malformed = List.length cards)%nat
    /\ List.length (parse_tool_list clock soup) = List.length valid
    /\ Forall2 Spec.record_of valid (parse_tool_list clock soup)
    /\ Forall (fun c => forall ts, _parse_tool_card ts c = None) malformed.
Proof.
  intros clock soup cards valid malformed.
  destruct (parse_tool_list_records clock soup) as [H _].
  rewrite tool_cards_of_entries in H.
  fold cards in H. fold valid in H.
  split; [|split; [|split]].
  - subst valid malformed. clear H.
    induction cards as [|c l IH]; simpl; [reflexivity|].
    destruct (Spec.located c); simpl; lia.
  - symmetry. eapply Forall2_length. exact H.
  - exact H.
  - apply Forall_forall. intros c Hc ts.
    apply filter_In in Hc. destruct Hc as [_ Hc].
    apply parse_card_not_located.
    unfold Spec.located in Hc.
    destruct (Spec.title_anchor c); [discriminate|reflexivity].
Qed.

(** ** Pagination *)

Lemma max_of_ge (ns : list Z) :
  forall n, (n <= max_of n ns)%Z /\ Forall (fun v => (v <= max_of n ns)%Z) ns.
Proof.
  unfold max_of.
  induction ns as [|m ns IH]; intro n; simpl.
  - split; [lia|constructor].
  - destruct (IH (Z.max n m)) as [H1 H2].
    split; [lia|]. constructor; [lia|exact H2].
Qed.

Lemma max_of_in (ns : list Z) : forall n, In (max_of n ns) (n :: ns).
Proof.
  unfold max_of.
  induction ns as [|m ns IH]; intro n; simpl.
  - left. reflexivity.
  - destruct (IH (Z.max n m)) as [H|H].
    + destruct (Z.max_spec n m) as [[_ E]|[_ E]]; rewrite E in *; auto.
    + right. right. exact H.
Qed.

(** [maximum_or] is the maximum of a non-empty list. *)
Lemma maximum_or_spec (d : Z) (l : list Z) :
  (l = [] -> Spec.maximum_or d l = d)
  /\ (l <> [] ->
      In (Spec.maximum_or d l) l
      /\ Forall (fun v => (v <= Spec.maximum_or d l)%Z) l).
Proof.
  split.
  - intros ->. reflexivity.
  - intro H. destruct l as [|n ns]; [congruence|]. simpl.
    split; [apply max_of_in|].
    destruct (max_of_ge ns n) as [H1 H2]. constructor; assumption.
Qed.

Lemma total_pages_page_numbers (soup : PageElement) :
  total_pages (extract_pagination_info soup)
  = match page_numbers_of (Spec.page_link_texts soup) with
    | Some (n :: ns) => max_of n ns
    | _ => 1%Z
    end.
Proof.
  unfold extract_pagination_info, Spec.page_link_texts.
  destruct (find (py "div") (Some (py "pagination")) true soup) as [p|];
    [|reflexivity].
  destruct (find_all (py "a") (Some (py "page-numbers")) true p); reflexivity.
Qed.

Lemma current_page_current_text (soup : PageElement) :
  current_page (extract_pagination_info soup)
  = match Spec.current_text soup with
    | Some t => match int t with Some n => n | None => 1%Z end
    | None => 1%Z
    end.
Proof.
  unfold extract_pagination_info, Spec.current_text.
  destruct (find (py "div") (Some (py "pagination")) true soup) as [p|];
    [|reflexivity].
  destruct (find (py "span") (Some (py "current")) true p); reflexivity.
Qed.

Lemma page_numbers_all_convert (texts : list str) :
  Forall (fun t => int t <> None) (Spec.digit_texts texts) ->
  page_numbers_of texts = Some (Spec.integers_of (Spec.digit_texts texts)).
Proof.
  unfold Spec.digit_texts, Spec.integers_of.
  induction texts as [|t rest IH]; simpl; [reflexivity|].
  destruct (isdigit t); [|exact IH].
  intro H. inversion H as [|? ? Ht Hrest]; subst.
  simpl. destruct (int t) as [n|]; [|congruence].
  rewrite (IH Hrest). reflexivity.
Qed.

Lemma page_numbers_one_fails (texts : list str) :
  Exists (fun t => int t = None) (Spec.digit_texts texts) ->
  page_numbers_of texts = None.
Proof.
  unfold Spec.digit_texts.
  induction texts as [|t rest IH]; simpl; intro H.
  - inversion H.
  - destruct (isdigit t); [|auto].
    inversion H as [? ? Ht|? ? Hrest]; subst.
    + rewrite Ht. reflexivity.
    + destruct (int t); [|reflexivity]. rewrite (IH Hrest). reflexivity.
Qed.

(** C4 (as amended).  Without a pagination control the result is
    [{current_page: 1, total_pages: 1}].  Otherwise the code keeps the
    page-link texts that are digit strings ([str.isdigit]): when [int]
    converts each of them, [total_pages] is their maximum, and 1 when there
    is none; when [int] rejects one of them, [total_pages] is 1.  Page-link
    texts "1", "2", "next", "5" give 5. *)
Theorem extract_pagination_info_total_pages :
  forall soup : PageElement,
    let kept := Spec.digit_texts (Spec.page_link_texts soup) in
    let total := total_pages (extract_pagination_info soup) in
    (find (py "div") (Some (py "pagination")) true soup = None ->
     extract_pagination_info soup = {| current_page := 1; total_pages := 1 |})
    /\ (Forall (fun t => int t <> None) kept ->
        (Spec.integers_of kept = [] -> total = 1%Z)
        /\ (Spec.integers_of kept <> [] ->
            In total (Spec.integers_of kept)
            /\ Forall (fun v => (v <= total)%Z) (Spec.integers_of kept)))
    /\ (Exists (fun t => int t = None) kept -> total = 1%Z)
    /\ (Spec.page_link_texts soup = [py "1"; py "2"; py "next"; py "5"] ->
        total = 5%Z).
Proof.
  intros soup kept total.
  split; [|split; [|split]].
  - unfold extract_pagination_info. intros ->. reflexivity.
  - intro H. subst total. rewrite total_pages_page_numbers.
    subst kept. rewrite (page_numbers_all_convert _ H).
    change (match Spec.integers_of (Spec.digit_texts (Spec.page_link_texts soup)) with
            | [] => 1%Z
            | n :: ns => max_of n ns
            end)
      with (Spec.maximum_or 1 (Spec.integers_of (Spec.digit_texts (Spec.page_link_texts soup)))).
    apply maximum_or_spec.
  - intro H. subst total. rewrite total_pages_page_numbers.
    subst kept. rewrite (page_numbers_one_fails _ H). reflexivity.
  - intro H. subst total. rewrite total_pages_page_numbers, H.
    vm_compute. reflexivity.
Qed.

Lemma extract_pagination_info_total_pages_witness :
  extract_pagination_info (Examples.document [])
    = {| current_page := 1; total_pages := 1 |}
  /\ In (total_pages (extract_pagination_info Examples.links_1_2_next_5))
        [1; 2; 5]%Z
  /\ total_pages (extract_pagination_info Examples.links_5_and_superscript_2)
     = 1%Z
  /\ total_pages (extract_pagination_info Examples.links_1_2_next_5) = 5%Z.
Proof.
  split; [|split; [|split]].
  - apply (extract_pagination_info_total_pages (Examples.document [])).
    reflexivity.
  - apply (extract_pagination_info_total_pages Examples.links_1_2_next_5).
    + apply Forall_forall. intros t Ht. vm_compute in Ht.
      destruct Ht as [<-|[<-|[<-|[]]]]; vm_compute; discriminate.
    + vm_compute. discriminate.
  - apply (extract_pagination_info_total_pages
             Examples.links_5_and_superscript_2).
    evaluate_list. apply Exists_cons_tl. apply Exists_cons_hd.
    vm_compute. reflexivity.
  - apply (extract_pagination_info_total_pages Examples.links_1_2_next_5).
    vm_compute. reflexivity.
Defined.

(** C4, the claim as stated fails: with page links "5" and a superscript
    two, the largest text that parses as an integer is 5, and the code
    returns 1 (the superscript is a digit for [isdigit], [int] rejects it,
    and the [ValueError] leaves the default). *)
Lemma total_pages_not_largest_parsed_link :
  Spec.largest_parsed_link Examples.links_5_and_superscript_2 = 5%Z
  /\ total_pages (extract_pagination_info Examples.links_5_and_superscript_2)
     = 1%Z.
Proof. split; vm_compute; reflexivity. Qed.

Lemma decimal_in_nonneg (c : char) (rs : list (N * N)) (d : Z) :
  decimal_in c rs = Some d -> (0 <= d)%Z.
Proof.
  induction rs as [|[lo hi] rs IH]; cbn [decimal_in]; [discriminate|].
  destruct ((lo <=? c)%N && (c <=? hi)%N); [|exact IH].
  intro H. injection H as <-. apply N2Z.is_nonneg.
Qed.

Lemma scan_digits_nonneg (s : str) :
  forall acc n b v k rest,
    (0 <= acc)%Z -> scan_digits acc n b s = Some (v, k, rest) -> (0 <= v)%Z.
Proof.
  induction s as [|c t IH]; intros acc n b v k rest Hacc; cbn [scan_digits].
  - destruct b; [discriminate|]. intro H. injection H as <- _ _. exact Hacc.
  - destruct (decimal c) as [d|] eqn:Ed.
    + apply IH. apply decimal_in_nonneg in Ed. lia.
    + destruct (c =? underscore)%N.
      * destruct b; [discriminate|]. apply IH. exact Hacc.
      * destruct b; [discriminate|]. intro H. injection H as <- _ _. exact Hacc.
Qed.

Lemma int_unsigned_nonneg (s : str) (v : Z) :
  int_unsigned s = Some v -> (0 <= v)%Z.
Proof.
  unfold int_unsigned.
  destruct (scan_digits 0 0 true s) as [[[v' n] rest]|] eqn:E; [|discriminate].
  apply scan_digits_nonneg in E; [|lia].
  destruct (lstrip_by int_space rest); [|discriminate].
  destruct (int_max_str_digits <? n)%N; [discriminate|].
  intro H. injection H as <-. exact E.
Qed.

Lemma lstrip_by_incl (p : char -> bool) (s : str) (c : char) :
  In c (lstrip_by p s) -> In c s.
Proof.
  induction s as [|x t IH]; simpl; [auto|].
  destruct (p x); [|auto]. intro H. right. apply IH. exact H.
Qed.

(** A digit string converts to a non-negative integer, when it converts. *)
Lemma int_isdigit_nonneg (t : str) (n : Z) :
  isdigit t = true -> int t = Some n -> (0 <= n)%Z.
Proof.
  intros Hd. unfold int.
  destruct (lstrip_by int_space t) as [|c r] eqn:E; [discriminate|].
  assert (Hc : isdigit_char c = true).
  { assert (In c t) by (apply (lstrip_by_incl int_space); rewrite E; left; reflexivity).
    destruct t; [discriminate|]. unfold isdigit in Hd.
    rewrite forallb_forall in Hd. apply Hd. assumption. }
  destruct (c =? minus_sign)%N eqn:Em.
  - apply N.eqb_eq in Em. subst c. vm_compute in Hc. discriminate.
  - destruct (c =? plus_sign)%N; apply int_unsigned_nonneg.
Qed.

Lemma integers_of_digit_texts_nonneg (texts : list str) :
  Forall (fun v => (0 <= v)%Z) (Spec.integers_of (Spec.digit_texts texts)).
Proof.
  unfold Spec.integers_of, Spec.digit_texts.
  induction texts as [|t rest IH]; simpl; [constructor|].
  destruct (isdigit t) eqn:Ed; [|exact IH].
  simpl. destruct (int t) as [n|] eqn:En; [|exact IH].
  simpl. constructor; [|exact IH].
  eapply int_isdigit_nonneg; eassumption.
Qed.

Lemma integers_of_in (texts : list str) (v : Z) :
  In v (Spec.integers_of texts) -> exists t, In t texts /\ int t = Some v.
Proof.
  unfold Spec.integers_of. rewrite in_flat_map.
  intros (t & Ht & Hv). exists t. split; [exact Ht|].
  destruct (int t) as [n|]; [|contradiction].
  destruct Hv as [->|[]]. reflexivity.
Qed.

(** [total_pages] is 1 or one of the converted digit strings. *)
Lemma total_pages_cases (soup : PageElement) :
  total_pages (extract_pagination_info soup) = 1%Z
  \/ In (total_pages (extract_pagination_info soup))
        (Spec.integers_of (Spec.digit_texts (Spec.page_link_texts soup))).
Proof.
  rewrite total_pages_page_numbers.
  destruct (page_numbers_of (Spec.page_link_texts soup)) as [l|] eqn:E;
    [|left; reflexivity].
  destruct l as [|n ns]; [left; reflexivity|]. right.
  assert (H : Spec.integers_of (Spec.digit_texts (Spec.page_link_texts soup))
              = n :: ns).
  { destruct (Exists_dec (fun t => int t = None)
                (Spec.digit_texts (Spec.page_link_texts soup))) as [X|X].
    - intro t. destruct (int t); [right; discriminate|left; reflexivity].
    - rewrite (page_numbers_one_fails _ X) in E. discriminate.
    - rewrite page_numbers_all_convert in E.
      + injection E as ->. reflexivity.
      + apply Forall_forall. intros t Ht Hn. apply X.
        apply Exists_exists. exists t. auto. }
  rewrite H. apply max_of_in.
Qed.

(** C9 (as amended).  [total_pages] is never negative, and is at least 1
    unless a digit-string page link denotes zero.  [current_page] is the
    integer the text of the current marker parses as, whatever its sign,
    and 1 when there is no marker or its text does not parse.  When the
    marker is absent or does not parse and no digit-string link denotes
    zero, both are positive and [total_pages >= current_page]. *)
Theorem extract_pagination_info_bounds :
  forall soup : PageElement,
    let info := extract_pagination_info soup in
    let kept := Spec.digit_texts (Spec.page_link_texts soup) in
    (0 <= total_pages info)%Z
    /\ ((forall t, In t kept -> int t <> Some 0%Z) -> (1 <= total_pages info)%Z)
    /\ (forall t n, Spec.current_text soup = Some t -> int t = Some n ->
                    current_page info = n)
    /\ ((forall t, Spec.current_text soup = Some t -> int t = None) ->
        current_page info = 1%Z)
    /\ ((forall t, Spec.current_text soup = Some t -> int t = None) ->
        (forall t, In t kept -> int t <> Some 0%Z) ->
        (0 < current_page info)%Z /\ (0 < total_pages info)%Z
        /\ (current_page info <= total_pages info)%Z).
Proof.
  intros soup info kept.
  assert (Hnn : (0 <= total_pages info)%Z).
  { destruct (total_pages_cases soup) as [H|H]; subst info; [lia|].
    pose proof (integers_of_digit_texts_nonneg (Spec.page_link_texts soup)) as F.
    rewrite Forall_forall in F. apply F. exact H. }
  assert (Hpos : (forall t, In t kept -> int t <> Some 0%Z) ->
                 (1 <= total_pages info)%Z).
  { intro Hz. destruct (total_pages_cases soup) as [H|H]; subst info; [lia|].
    apply integers_of_in in H. destruct H as (t & Ht & Hv).
    specialize (Hz t Ht).
    assert (total_pages (extract_pagination_info soup) <> 0%Z) by congruence.
    lia. }
  assert (Hcur : forall t n, Spec.current_text soup = Some t ->
                             int t = Some n -> current_page info = n).
  { intros t n Ht Hn. subst info.
    rewrite current_page_current_text, Ht, Hn. reflexivity. }
  assert (Hdef : (forall t, Spec.current_text soup = Some t -> int t = None) ->
                 current_page info = 1%Z).
  { intro Hc. subst info. rewrite current_page_current_text.
    destruct (Spec.current_text soup) as [t|]; [|reflexivity].
    rewrite (Hc t eq_refl). reflexivity. }
  split; [exact Hnn|]. split; [exact Hpos|]. split; [exact Hcur|].
  split; [exact Hdef|].
  intros Hc Hz. specialize (Hpos Hz). specialize (Hdef Hc). lia.
Qed.

Lemma extract_pagination_info_bounds_witness :
  (1 <= total_pages (extract_pagination_info Examples.links_1_2_next_5))%Z
  /\ (0 < current_page (extract_pagination_info Examples.links_1_2_next_5))%Z
  /\ (current_page (extract_pagination_info Examples.links_1_2_next_5)
      <= total_pages (extract_pagination_info Examples.links_1_2_next_5))%Z
  /\ current_page (extract_pagination_info Examples.last_of_three_pages) = 3%Z
  /\ current_page (extract_pagination_info Examples.marker_without_number)
     = 1%Z.
Proof.
  assert (Z : forall t,
             In t (Spec.digit_texts
                     (Spec.page_link_texts Examples.links_1_2_next_5)) ->
             int t <> Some 0%Z).
  { intros t Ht. vm_compute in Ht.
    destruct Ht as [<-|[<-|[<-|[]]]]; vm_compute; discriminate. }
  pose proof (extract_pagination_info_bounds Examples.links_1_2_next_5) as B.
  pose proof (extract_pagination_info_bounds Examples.last_of_three_pages) as C.
  pose proof (extract_pagination_info_bounds Examples.marker_without_number)
    as D.
  cbv zeta in B, C, D.
  destruct B as (_ & B1 & _ & _ & B2).
  destruct C as (_ & _ & C3 & _).
  destruct D as (_ & _ & _ & D4 & _).
  split; [exact (B1 Z)|].
  assert (B3 : (0 < current_page
                      (extract_pagination_info Examples.links_1_2_next_5))%Z
               /\ (0 < total_pages
                         (extract_pagination_info Examples.links_1_2_next_5))%Z
               /\ (current_page
                     (extract_pagination_info Examples.links_1_2_next_5)
                   <= total_pages
                        (extract_pagination_info Examples.links_1_2_next_5))%Z).
  { apply B2; [|exact Z]. intros t Ht. vm_compute in Ht. discriminate. }
  destruct B3 as (P1 & _ & P3).
  split; [exact P1|]. split; [exact P3|]. split.
  - apply (C3 (py "3")); vm_compute; reflexivity.
  - apply D4. intros t Ht. vm_compute in Ht. injection Ht as <-.
    vm_compute. reflexivity.
Defined.

(** C9, the claim as stated fails: on the last of three pages the control
    links pages 1 and 2 and marks 3 as current, so [current_page] is 3 and
    [total_pages] is 2. *)
Lemma total_pages_below_current_page :
  extract_pagination_info Examples.last_of_three_pages
    = {| current_page := 3; total_pages := 2 |}
  /\ (total_pages (extract_pagination_info Examples.last_of_three_pages)
      < current_page (extract_pagination_info Examples.last_of_three_pages))%Z.
Proof. split; vm_compute; reflexivity. Qed.

(** ** Fetching *)

Lemma fetch_page_unfolded (self : Crawler) (url : str) (rc : Z) (w : World) :
  fetch_page self url rc w
  = match request self url w with
    | (Return r, w1) => (Return r, w1)
    | (Raise e, w1) =>
        if Z_lt_dec rc (max_retries self)
        then match get_retry_delay rc default_base_delay with
             | Return delay =>
                 if Nat.eq_dec (room w1) 0
                 then (Raise RecursionError, log_event (Sleep delay) w1)
                 else leave_call
                        (fetch_page self url (rc + 1)
                                    (enter_call (log_event (Sleep delay) w1)))
             | Raise e' => (Raise e', w1)
             end
        else (Return None, w1)
    end.
Proof.
  rewrite fetch_page_equation_1.
  destruct (request self url w) as [[r|e] w1]; cbn; [reflexivity|].
  destruct (Z_lt_dec rc (max_retries self)); cbn; [|reflexivity].
  destruct (get_retry_delay rc default_base_delay); cbn; [|reflexivity].
  destruct (Nat.eq_dec (room w1) 0); reflexivity.
Qed.

(** An attempt leaves the room as it is. *)
Lemma request_room (self : Crawler) (url : str) (w : World)
    (r : res (option str)) (w1 : World) :
  request self url w = (r, w1) -> room w1 = room w.
Proof.
  unfold request.
  destruct (session self); cbn [negb];
    [|intro H; injection H as _ <-; reflexivity].
  destruct (server w (gets w) url) as [status [html|e]|e];
    [destruct (status =? 200)%Z; [destruct (disk _ _)|]
    |destruct (status =? 200)%Z|];
    intro H; injection H as _ <-; reflexivity.
Qed.

Lemma request_raises (self : Crawler) (url : str) (w : World) :
  session self = true ->
  Spec.always_raises w url ->
  exists e w1,
    request self url w = (Raise e, w1)
    /\ gets w1 = S (gets w)
    /\ server w1 = server w /\ disk w1 = disk w
    /\ trace w1 = trace w ++ [Get url].
Proof.
  intros Hs Hr. unfold request. rewrite Hs. cbn [negb].
  specialize (Hr (gets w) (writes w)). unfold Spec.attempt_raises in Hr.
  destruct (server w (gets w) url) as [status text|e].
  - apply andb_prop in Hr. destruct Hr as [H200 Ht]. rewrite H200.
    destruct text as [html|e].
    + cbn [disk count_get log_event writes].
      apply negb_true_iff in Ht. rewrite Ht.
      eexists. eexists. split; [reflexivity|]. cbn. auto.
    + eexists. eexists. split; [reflexivity|]. cbn. auto.
  - eexists. eexists. split; [reflexivity|]. cbn. auto.
Qed.

Lemma request_other_status (self : Crawler) (url : str) (w : World)
    (status : Z) (text : res str) :
  session self = true ->
  server w (gets w) url = Response status text ->
  status <> 200%Z ->
  request self url w = (Return None, count_get (log_event (Get url) w)).
Proof.
  intros Hs Hr Hst. unfold request. rewrite Hs, Hr. cbn [negb].
  destruct (Z.eqb_spec status 200); [contradiction|reflexivity].
Qed.

Lemma backoff_sleeps_app (t u : list event) :
  Spec.backoff_sleeps (t ++ u) = Spec.backoff_sleeps t ++ Spec.backoff_sleeps u.
Proof. unfold Spec.backoff_sleeps. apply flat_map_app. Qed.

Lemma backoff_schedule_step (first : Z) (n : nat) :
  Spec.backoff_schedule first (S n)
  = Some (Spec.backoff_seconds first) :: Spec.backoff_schedule (first + 1) n.
Proof.
  unfold Spec.backoff_schedule.
  cbn [seq map]. rewrite Z.add_0_r. f_equal.
  rewrite <- seq_shift, map_map.
  apply map_ext. intro k. do 2 f_equal. lia.
Qed.

(** When every request raises and the stack has room for the retries,
    [fetch_page] asks once more for each retry it has left, sleeps the
    back-off delay before each, and returns None. *)
Lemma fetch_page_all_raise (self : Crawler) (url : str) (n : nat) :
  session self = true ->
  (max_retries self <= 1024)%Z ->
  forall (rc : Z) (w : World),
    (0 <= rc)%Z ->
    Z.to_nat (max_retries self - rc) = n ->
    (n <= room w)%nat ->
    Spec.always_raises w url ->
    exists w',
      fetch_page self url rc w = (Return None, w')
      /\ gets w' = (gets w + n + 1)%nat
      /\ Spec.backoff_sleeps (trace w')
         = Spec.backoff_sleeps (trace w) ++ Spec.backoff_schedule rc n.
Proof.
  intros Hs Hmax.
  induction n as [|n IH]; intros rc w Hrc Hn Hroom Hr;
    rewrite fetch_page_unfolded;
    destruct (request_raises self url w Hs Hr)
      as (e & w1 & Er & Hg1 & Hsrv & Hdsk & Ht1);
    pose proof (request_room self url w (Raise e) w1 Er) as Hr1;
    rewrite Er;
    destruct (Z_lt_dec rc (max_retries self)) as [Hlt|Hge]; try lia.
  - exists w1. split; [reflexivity|]. split; [lia|].
    rewrite Ht1, backoff_sleeps_app. cbn. rewrite !app_nil_r. reflexivity.
  - destruct (get_retry_delay_returns rc) as (d & -> & Hd); [lia|].
    destruct (Nat.eq_dec (room w1) 0) as [Z0|_]; [lia|].
    destruct (IH (rc + 1)%Z (enter_call (log_event (Sleep d) w1)))
      as (w' & -> & Hg & Ht); [lia|lia| | |].
    { cbn [room enter_call with_room log_event]. lia. }
    { intros k j. cbn [server disk enter_call with_room log_event].
      rewrite Hsrv, Hdsk. apply Hr. }
    eexists. split; [reflexivity|].
    cbn [fst snd gets trace with_room].
    cbn [gets trace enter_call with_room log_event] in Hg, Ht.
    split.
    + rewrite Hg. lia.
    + rewrite Ht, backoff_schedule_step.
      rewrite Ht1, !backoff_sleeps_app. cbn. rewrite Hd, !app_nil_r, <- app_assoc.
      reflexivity.
Qed.

(** With room for the retries, [fetch_page] returns: no exception reaches
    the caller. *)
Lemma fetch_page_returns (self : Crawler) (url : str) (n : nat) :
  (max_retries self <= 1024)%Z ->
  forall (rc : Z) (w : World),
    (0 <= rc)%Z ->
    Z.to_nat (max_retries self - rc) = n ->
    (n <= room w)%nat ->
    exists r w', fetch_page self url rc w = (Return r, w').
Proof.
  intros Hmax.
  induction n as [|n IH]; intros rc w Hrc Hn Hroom;
    rewrite fetch_page_unfolded;
    destruct (request self url w) as [[r|e] w1] eqn:Er;
    try (eexists; eexists; reflexivity);
    pose proof (request_room self url w _ w1 Er) as Hr1;
    destruct (Z_lt_dec rc (max_retries self)) as [Hlt|Hge];
    try (eexists; eexists; reflexivity); try lia.
  destruct (get_retry_delay_returns rc) as (d & -> & _); [lia|].
  destruct (Nat.eq_dec (room w1) 0) as [Z0|_]; [lia|].
  destruct (IH (rc + 1)%Z (enter_call (log_event (Sleep d) w1)))
    as (r & w' & ->); [lia|lia| |].
  { cbn [room enter_call with_room log_event]. lia. }
  eexists. eexists. reflexivity.
Qed.

(** C3 (as amended).  With the session open, at most 1024 retries
    configured and room under the recursion limit for [max_retries]
    retries: a request that raises an exception is retried, after the
    back-off sleep, while [attempt < max_retries], so a fetch whose requests
    all raise makes [max_retries + 1] requests and returns None; a status
    other than 200 is not retried, the fetch returns None at once without
    sleeping; and the fetch never raises to its caller. *)
Theorem fetch_page_retries_exceptions_only :
  forall (self : Crawler) (url : str) (w : World),
    session self = true ->
    (0 <= max_retries self <= 1024)%Z ->
    (max_retries self <= Z.of_nat (room w))%Z ->
    (Spec.always_raises w url ->
     exists w',
       fetch_page self url 0 w = (Return None, w')
       /\ Z.of_nat (gets w') = (Z.of_nat (gets w) + (max_retries self + 1))%Z
       /\ Spec.backoff_sleeps (trace w')
          = Spec.backoff_sleeps (trace w)
            ++ Spec.backoff_schedule 0 (Z.to_nat (max_retries self)))
    /\ (forall (attempt status : Z) (text : res str),
          server w (gets w) url = Response status text ->
          status <> 200%Z ->
          fetch_page self url attempt w
          = (Return None, count_get (log_event (Get url) w)))
    /\ (exists r w', fetch_page self url 0 w = (Return r, w')).
Proof.
  intros self url w Hs Hmax Hroom. split; [|split].
  - intro Hr.
    destruct (fetch_page_all_raise self url (Z.to_nat (max_retries self)) Hs
                (proj2 Hmax) 0%Z w) as (w' & E & Hg & Ht);
      [lia|f_equal; lia|lia|exact Hr|].
    exists w'. split; [exact E|]. split; [lia|exact Ht].
  - intros attempt status text Hr Hst.
    rewrite fetch_page_unfolded.
    rewrite (request_other_status self url w status text Hs Hr Hst).
    reflexivity.
  - apply (fetch_page_returns self url (Z.to_nat (max_retries self))
             (proj2 Hmax) 0%Z w); [lia|f_equal; lia|lia].
Qed.

Lemma fetch_page_retries_exceptions_only_witness :
  (exists w',
     fetch_page (Examples.crawler (py "https://x/y/") 3) (py "https://x/y") 0
                (Examples.fresh_world Examples.unreachable)
     = (Return None, w')
     /\ Z.of_nat (gets w') = 4%Z
     /\ Spec.backoff_sleeps (trace w') = [Some 1; Some 2; Some 4]%Z)
  /\ fst (fetch_page (Examples.crawler (py "https://x/y/") 3)
                     (py "https://x/y") 0
                     (Examples.fresh_world (Examples.refuse 503)))
     = Return None.
Proof.
  split.
  - apply (fetch_page_retries_exceptions_only
             (Examples.crawler (py "https://x/y/") 3) (py "https://x/y")
             (Examples.fresh_world Examples.unreachable)).
    + reflexivity.
    + cbn. lia.
    + vm_compute. discriminate.
    + intros k j. reflexivity.
  - destruct (fetch_page_retries_exceptions_only
                (Examples.crawler (py "https://x/y/") 3) (py "https://x/y")
                (Examples.fresh_world (Examples.refuse 503)))
      as (_ & B & _).
    + reflexivity.
    + cbn. lia.
    + vm_compute. discriminate.
    + rewrite (B 0%Z 503%Z (Return [])); [reflexivity|reflexivity|discriminate].
Defined.

(** C3, the claim as stated fails: with three retries configured and a
    server that answers 503 to every request, the fetch makes one request,
    sleeps no back-off delay and returns None; it does not make
    [max_retries + 1 = 4] attempts. *)
Lemma fetch_page_does_not_retry_status :
  fst (fetch_page (Examples.crawler (py "https://x/y/") 3) (py "https://x/y") 0
                  (Examples.fresh_world (Examples.refuse 503)))
    = Return None
  /\ trace (snd (fetch_page (Examples.crawler (py "https://x/y/") 3)
                            (py "https://x/y") 0
                            (Examples.fresh_world (Examples.refuse 503))))
     = [Get (py "https://x/y")]
  /\ gets (snd (fetch_page (Examples.crawler (py "https://x/y/") 3)
                           (py "https://x/y") 0
                           (Examples.fresh_world (Examples.refuse 503))))
     <> 4%nat.
Proof. repeat split; try (vm_compute; reflexivity). vm_compute. discriminate. Qed.

(** Without room for the retries the fetch does raise: with three retries
    configured, room for two and a server no request reaches, the third
    retry does not fit, and [RecursionError] reaches the caller after three
    requests and three back-off sleeps. *)
Lemma fetch_page_exhausts_room :
  fst (fetch_page (Examples.crawler (py "https://x/y/") 3) (py "https://x/y") 0
                  (with_room 2 (Examples.fresh_world Examples.unreachable)))
    = Raise RecursionError
  /\ gets (snd (fetch_page (Examples.crawler (py "https://x/y/") 3)
                           (py "https://x/y") 0
                           (with_room 2
                              (Examples.fresh_world Examples.unreachable))))
     = 3%nat
  /\ Spec.backoff_sleeps
       (trace (snd (fetch_page (Examples.crawler (py "https://x/y/") 3)
                               (py "https://x/y") 0
                               (with_room 2
                                  (Examples.fresh_world Examples.unreachable)))))
     = [Some 1; Some 2; Some 4]%Z.
Proof. repeat split; vm_compute; reflexivity. Qed.

(** ** The page operation *)

Lemma crawl_page_unfolded (BeautifulSoup : str -> PageElement) (page : Z)
    (self : Crawler) (w : World) (url : str) (h : option str) (w2 : World) :
  page_url self page = Return url ->
  fetch_page self url 0 (log_event (SleepUniform 2 5) w) = (Return h, w2) ->
  crawl_page BeautifulSoup page self w
  = match h with
    | None => (Return false, self, w2)
    | Some [] => (Return false, self, w2)
    | Some html =>
        if negb (is_valid_page (BeautifulSoup html))
        then (Return false, self, w2)
        else
          let w3 :=
            advance_clock
              (ticks w2 + timestamp_calls (Spec.clock_of w2) (BeautifulSoup html))
              w2 in
          match parse_tool_list (Spec.clock_of w2) (BeautifulSoup html) with
          | _ :: _ =>
              (Return true,
               extend_tools self
                 (parse_tool_list (Spec.clock_of w2) (BeautifulSoup html)),
               w3)
          | [] => (Return false, self, w3)
          end
    end.
Proof.
  intros Hu Hf. unfold crawl_page. rewrite Hu, Hf.
  destruct h as [[|c html]|]; reflexivity.
Qed.

(** What a call of [crawl_page] can do to the crawler. *)
Lemma crawl_page_outcome (BeautifulSoup : str -> PageElement) (page : Z)
    (self : Crawler) (w : World) :
  (exists e w', crawl_page BeautifulSoup page self w = (Raise e, self, w'))
  \/ (exists w', crawl_page BeautifulSoup page self w = (Return false, self, w'))
  \/ (exists url html w2 w',
        page_url self page = Return url
        /\ fetch_page self url 0 (log_event (SleepUniform 2 5) w)
           = (Return (Some html), w2)
        /\ html <> []
        /\ is_valid_page (BeautifulSoup html) = true
        /\ parse_tool_list (Spec.clock_of w2) (BeautifulSoup html) <> []
        /\ crawl_page BeautifulSoup page self w
           = (Return true,
              extend_tools self
                (parse_tool_list (Spec.clock_of w2) (BeautifulSoup html)),
              w')).
Proof.
  destruct (page_url self page) as [url|e] eqn:Hu.
  2:{ left. exists e, w. unfold crawl_page. rewrite Hu. reflexivity. }
  destruct (fetch_page self url 0 (log_event (SleepUniform 2 5) w))
    as [[h|e] w2] eqn:Hf.
  2:{ left. exists e, w2. unfold crawl_page. rewrite Hu, Hf. reflexivity. }
  rewrite (crawl_page_unfolded BeautifulSoup page self w url h w2 Hu Hf).
  destruct h as [[|c html]|]; try (right; left; eexists; reflexivity).
  destruct (is_valid_page (BeautifulSoup (c :: html))) eqn:Hv; cbn [negb];
    [|right; left; eexists; reflexivity].
  cbv zeta.
  destruct (parse_tool_list (Spec.clock_of w2) (BeautifulSoup (c :: html)))
    as [|r rs] eqn:Hp; [right; left; eexists; reflexivity|].
  right. right. exists url, (c :: html), w2. eexists.
  rewrite Hp. repeat split; try discriminate; try assumption.
Qed.




Lemma successful_pages_app (results : list bool) (b : bool) :
  successful_pages (results ++ [b])
  = (successful_pages results + if b then 1 else 0)%nat.
Proof.
  unfold successful_pages. rewrite filter_app, length_app.
  destruct b; reflexivity.
Qed.

(** C10.  When the page operation returns false the crawler, and with it
    the collection of records, is exactly as before; when it returns true at
    least one record has been appended.  A page that is fetched and passes
    validation but yields no record returns false, and does not count among
    the successful pages. *)
Theorem crawl_page_all_or_nothing :
  forall (BeautifulSoup : str -> PageElement) (page : Z) (self : Crawler)
         (w : World) (b : bool) (self' : Crawler) (w' : World),
    crawl_page BeautifulSoup page self w = (Return b, self', w') ->
    (b = false -> self' = self /\ tools self' = tools self)
    /\ (b = true -> exists r rs, tools self' = tools self ++ r :: rs)
    /\ (forall url html w2,
          page_url self page = Return url ->
          fetch_page self url 0 (log_event (SleepUniform 2 5) w)
          = (Return (Some html), w2) ->
          is_valid_page (BeautifulSoup html) = true ->
          parse_tool_list (Spec.clock_of w2) (BeautifulSoup html) = [] ->
          b = false
          /\ forall results,
               successful_pages (results ++ [b]) = successful_pages results).
Proof.
  intros BeautifulSoup page self w b self' w' H.
  split; [|split].
  - intros ->.
    destruct (crawl_page_outcome BeautifulSoup page self w)
      as [(e & w1 & E)|[(w1 & E)|(url & html & w2 & w1 & _ & _ & _ & _ & _ & E)]];
      rewrite E in H; try discriminate.
    injection H as <- _. auto.
  - intros ->.
    destruct (crawl_page_outcome BeautifulSoup page self w)
      as [(e & w1 & E)|[(w1 & E)|(url & html & w2 & w1 & _ & _ & _ & _ & Hp & E)]];
      rewrite E in H; try discriminate.
    injection H as <- _.
    destruct (parse_tool_list (Spec.clock_of w2) (BeautifulSoup html))
      as [|r rs]; [congruence|].
    exists r, rs. reflexivity.
  - intros url html w2 Hu Hf Hv Hp.
    rewrite (crawl_page_unfolded BeautifulSoup page self w url (Some html) w2
               Hu Hf) in H.
    assert (E : b = false).
    { destruct html; [congruence|].
      rewrite Hv in H. cbn [negb] in H. cbv zeta in H. rewrite Hp in H.
      congruence. }
    split; [exact E|]. intro results.
    rewrite successful_pages_app, E. lia.
Qed.

Lemma crawl_page_all_or_nothing_witness :
  tools (snd (fst (crawl_page (Examples.lxml Examples.pages) 2 Examples.site
                     (Examples.fresh_world
                        (Examples.serve Examples.entry_without_content_html)))))
    = tools Examples.site
  /\ successful_pages ([true] ++ [false]) = successful_pages [true].
Proof.
  pose proof
    (crawl_page_all_or_nothing (Examples.lxml Examples.pages) 2 Examples.site
       (Examples.fresh_world
          (Examples.serve Examples.entry_without_content_html))
       false
       (snd (fst (crawl_page (Examples.lxml Examples.pages) 2 Examples.site
                    (Examples.fresh_world
                       (Examples.serve Examples.entry_without_content_html)))))
       (snd (crawl_page (Examples.lxml Examples.pages) 2 Examples.site
               (Examples.fresh_world
                  (Examples.serve Examples.entry_without_content_html)))))
    as T.
  destruct T as (T1 & _ & T3).
  - apply injective_projections; [|reflexivity].
    apply injective_projections; [vm_compute; reflexivity|reflexivity].
  - split.
    + apply T1. reflexivity.
    + apply (T3 Examples.second_page Examples.entry_without_content_html
                (snd (fetch_page Examples.site Examples.second_page 0
                        (Examples.paced
                           (Examples.fresh_world
                              (Examples.serve
                                 Examples.entry_without_content_html)))))).
      * vm_compute. reflexivity.
      * apply injective_projections; [vm_compute; reflexivity|reflexivity].
      * vm_compute. reflexivity.
      * vm_compute. reflexivity.
Defined.

(** * Further properties of the code *)

(** ** Cleaning of texts *)

Lemma clean_text_clean (s : str) : clean_text s = Spec.clean s.
Proof.
  assert (E : clean_text s
              = replace [TAB] [SP] (replace [CR] [] (replace [LF] [SP] (strip s)))).
  { destruct s; reflexivity. }
  rewrite E, !replace_char, !flat_map_flat_map.
  unfold Spec.clean. apply flat_map_ext. intro c.
  rewrite <- flat_map_flat_map. apply clean_char_chain.
Qed.

Lemma lstrip_by_fixed (p : char -> bool) (s : str) :
  match s with [] => True | c :: _ => p c = false end -> lstrip_by p s = s.
Proof. destruct s as [|c t]; simpl; [reflexivity|]. intros ->. reflexivity. Qed.

(** [lstrip_by] removes a prefix of characters satisfying [p]. *)
Lemma lstrip_by_split (p : char -> bool) (s : str) :
  exists pre, s = pre ++ lstrip_by p s /\ forallb p pre = true.
Proof.
  induction s as [|c t (pre & E & F)]; simpl.
  - exists []. auto.
  - destruct (p c) eqn:Hc.
    + exists (c :: pre). simpl. rewrite Hc, F. split; [f_equal; exact E|reflexivity].
    + exists []. auto.
Qed.

(** [rstrip_by] removes a suffix of characters satisfying [p]. *)
Lemma rstrip_by_split (p : char -> bool) (s : str) :
  exists suf, s = rstrip_by p s ++ suf /\ forallb p suf = true.
Proof.
  unfold rstrip_by.
  destruct (lstrip_by_split p (rev s)) as (pre & E & F).
  exists (rev pre). split.
  - rewrite <- rev_app_distr, <- E, rev_involutive. reflexivity.
  - rewrite forallb_forall in *. intros c Hc. apply F. apply in_rev. exact Hc.
Qed.

Lemma rstrip_by_last (p : char -> bool) (s prefix : str) (c : char) :
  rstrip_by p s = prefix ++ [c] -> p c = false.
Proof.
  unfold rstrip_by. intro H.
  apply (f_equal (@rev char)) in H.
  rewrite rev_involutive, rev_app_distr in H. cbn in H.
  apply (lstrip_by_head p (rev s) c (rev prefix) H).
Qed.

Lemma rstrip_by_fixed (p : char -> bool) (s : str) :
  match s with [] => True | c :: _ => p (last s c) = false end ->
  rstrip_by p s = s.
Proof.
  intro H. unfold rstrip_by.
  destruct s as [|c t]; [reflexivity|].
  destruct (exists_last (l := c :: t)) as (pre & x & E); [discriminate|].
  rewrite E in *. rewrite last_last in H.
  rewrite rev_app_distr. cbn [rev app]. cbn [lstrip_by]. rewrite H.
  cbn. rewrite rev_involutive. reflexivity.
Qed.

Lemma trimmed_last (s pre : str) (x : char) :
  s = pre ++ [x] ->
  Props.trimmed s = true ->
  isspace x = false /\ match s with [] => True | c :: _ => isspace c = false end.
Proof.
  intros -> H. unfold Props.trimmed in H.
  destruct (pre ++ [x]) as [|c t] eqn:E; [destruct pre; discriminate|].
  apply andb_prop in H. destruct H as [H1 H2].
  rewrite <- E, last_last in H2.
  apply negb_true_iff in H1, H2. auto.
Qed.

Lemma strip_trimmed (s : str) : Props.trimmed (strip s) = true.
Proof.
  unfold strip.
  destruct (rstrip_by isspace (lstrip_by isspace s)) as [|c t] eqn:E;
    [reflexivity|].
  unfold Props.trimmed. apply andb_true_intro. split; apply negb_true_iff.
  - destruct (rstrip_by_split isspace (lstrip_by isspace s)) as (suf & Es & _).
    rewrite E in Es. cbn in Es.
    apply (lstrip_by_head isspace s c (t ++ suf) Es).
  - destruct (exists_last (l := c :: t)) as (pre & x & Ex); [discriminate|].
    rewrite Ex, last_last. rewrite Ex in E.
    apply (rstrip_by_last isspace _ _ _ E).
Qed.

Lemma strip_fixed (s : str) : Props.trimmed s = true -> strip s = s.
Proof.
  intro H. unfold strip.
  destruct s as [|c t]; [reflexivity|].
  unfold Props.trimmed in H. apply andb_prop in H. destruct H as [H1 H2].
  apply negb_true_iff in H1, H2.
  rewrite (lstrip_by_fixed isspace (c :: t) H1).
  apply rstrip_by_fixed. exact H2.
Qed.

Lemma layout_is_space (c : char) :
  Props.is_layout c = true -> isspace c = true.
Proof.
  unfold Props.is_layout. intro H.
  apply orb_prop in H. destruct H as [H|H]; [apply orb_prop in H; destruct H as [H|H]|];
    apply N.eqb_eq in H; subst c; reflexivity.
Qed.

Lemma clean_char_other (c : char) :
  Props.is_layout c = false -> Spec.clean_char c = [c].
Proof.
  unfold Props.is_layout, Spec.clean_char. intro H.
  apply orb_false_elim in H. destruct H as [H H3].
  apply orb_false_elim in H. destruct H as [H1 H2].
  rewrite H1, H2, H3. reflexivity.
Qed.

Lemma clean_char_no_layout (c : char) :
  forallb (fun x => negb (Props.is_layout x)) (Spec.clean_char c) = true.
Proof.
  destruct (Props.is_layout c) eqn:E.
  - unfold Props.is_layout in E. unfold Spec.clean_char.
    destruct (c =? LF)%N; [reflexivity|].
    destruct (c =? CR)%N; [reflexivity|].
    destruct (c =? TAB)%N; [reflexivity|discriminate].
  - rewrite (clean_char_other c E). cbn. rewrite E. reflexivity.
Qed.

Lemma not_space_not_layout (c : char) :
  isspace c = false -> Props.is_layout c = false.
Proof.
  intro H. destruct (Props.is_layout c) eqn:E; [|reflexivity].
  apply layout_is_space in E. congruence.
Qed.

Lemma clean_of_trimmed (u : str) :
  Props.trimmed u = true -> Props.cleaned (flat_map Spec.clean_char u) = true.
Proof.
  intro H. unfold Props.cleaned. apply andb_true_intro. split.
  - destruct u as [|c t]; [reflexivity|].
    destruct (exists_last (l := c :: t)) as (pre & x & E); [discriminate|].
    destruct (trimmed_last (c :: t) pre x E H) as [Hx Hc].
    assert (Ec : flat_map Spec.clean_char (c :: t)
                 = c :: flat_map Spec.clean_char t).
    { cbn [flat_map]. rewrite (clean_char_other c (not_space_not_layout c Hc)).
      reflexivity. }
    assert (El : flat_map Spec.clean_char (c :: t)
                 = flat_map Spec.clean_char pre ++ [x]).
    { rewrite E, flat_map_app. cbn [flat_map].
      rewrite (clean_char_other x (not_space_not_layout x Hx)), app_nil_r.
      reflexivity. }
    rewrite Ec. unfold Props.trimmed. rewrite <- Ec, El, last_last.
    rewrite Hc, Hx. reflexivity.
  - apply forallb_forall. intros x Hx.
    apply in_flat_map in Hx. destruct Hx as (c & _ & Hc).
    pose proof (clean_char_no_layout c) as F.
    rewrite forallb_forall in F. apply F. exact Hc.
Qed.

Lemma clean_text_cleaned (s : str) : Props.cleaned (clean_text s) = true.
Proof.
  rewrite clean_text_clean. unfold Spec.clean.
  apply clean_of_trimmed. apply strip_trimmed.
Qed.

Lemma clean_text_fixed (s : str) : Props.cleaned s = true -> clean_text s = s.
Proof.
  intro H. unfold Props.cleaned in H.
  apply andb_prop in H. destruct H as [Ht Hl].
  rewrite clean_text_clean. unfold Spec.clean.
  rewrite (strip_fixed s Ht). clear Ht.
  induction s as [|c t IH]; [reflexivity|].
  cbn [forallb] in Hl. apply andb_prop in Hl. destruct Hl as [Hc Hl].
  apply negb_true_iff in Hc.
  cbn [flat_map]. rewrite (clean_char_other c Hc), (IH Hl). reflexivity.
Qed.

(** X1.  Whatever the text, [clean_text] returns a text that neither begins
    nor ends with white space and holds no newline, carriage return or tab;
    and the texts [clean_text] leaves as they are are exactly those. *)
Theorem clean_text_normal_form :
  forall s : str,
    Props.cleaned (clean_text s) = true
    /\ (clean_text s = s <-> Props.cleaned s = true).
Proof.
  intro s. split; [apply clean_text_cleaned|]. split.
  - intro E. rewrite <- E. apply clean_text_cleaned.
  - apply clean_text_fixed.
Qed.

(** X2.  Cleaning twice is cleaning once, and cleaning never lengthens a
    text. *)
Theorem clean_text_idempotent :
  forall s : str,
    clean_text (clean_text s) = clean_text s
    /\ (List.length (clean_text s) <= List.length s)%nat.
Proof.
  intro s. split.
  - apply clean_text_fixed. apply clean_text_cleaned.
  - rewrite clean_text_clean. unfold Spec.clean, strip.
    destruct (lstrip_by_split isspace s) as (pre & E1 & _).
    destruct (rstrip_by_split isspace (lstrip_by isspace s)) as (suf & E2 & _).
    assert (L : forall u, (List.length (flat_map Spec.clean_char u)
                           <= List.length u)%nat).
    { induction u as [|c t IH]; [reflexivity|].
      cbn [flat_map]. rewrite length_app. cbn [List.length].
      assert (List.length (Spec.clean_char c) <= 1)%nat.
      { unfold Spec.clean_char.
        destruct (c =? LF)%N; [cbn; lia|].
        destruct (c =? CR)%N; [cbn; lia|].
        destruct (c =? TAB)%N; cbn; lia. }
      lia. }
    specialize (L (rstrip_by isspace (lstrip_by isspace s))).
    apply (f_equal (@List.length char)) in E1, E2.
    rewrite length_app in E1, E2. lia.
Qed.

(** ** The shape of a record *)

(** The record of an entry whose anchor is located, field by field. *)
Lemma parse_card_explicit (card a : PageElement) (ts : str) :
  Spec.title_anchor card = Some a ->
  exists description category views likes icon,
    _parse_tool_card ts card
    = Some [ ("name"%string, clean_text (strip (get_text a)));
             ("description"%string, clean_text description);
             ("url"%string, strip (get (py "href") [] a));
             ("category"%string, clean_text category);
             ("crawl_time"%string, ts);
             ("views"%string, clean_text views);
             ("likes"%string, clean_text likes);
             ("icon_url"%string, icon) ]
    /\ Props.trimmed icon = true.
Proof.
  unfold Spec.title_anchor, _parse_tool_card.
  destruct (find (py "div") (Some (py "card-body")) true card) as [body|];
    [|discriminate].
  destruct (find (py "div") (Some (py "app-content")) true body) as [content|];
    [|discriminate].
  intros ->.
  destruct (match find (py "div") (Some (py "text-muted")) false content with
            | Some meta_info => _
            | None => _
            end) as [views likes].
  do 5 eexists. split; [reflexivity|].
  destruct (find (py "a") (Some (py "media-content")) true body);
    [apply strip_trimmed|reflexivity].
Qed.

Lemma parse_card_shape (card : PageElement) (ts : str) (r : dict) :
  _parse_tool_card ts card = Some r ->
  keys r = Props.columns
  /\ Forall (fun k => Props.cleaned (Props.field k r) = true)
            ["name"; "description"; "category"; "views"; "likes"]%string
  /\ Forall (fun k => Props.trimmed (Props.field k r) = true)
            ["url"; "icon_url"]%string
  /\ Props.field "crawl_time" r = ts.
Proof.
  intro H.
  destruct (Spec.title_anchor card) as [a|] eqn:E.
  2:{ rewrite (parse_card_not_located card ts E) in H. discriminate. }
  destruct (parse_card_explicit card a ts E)
    as (description & category & views & likes & icon & Hr & Hi).
  rewrite H in Hr. injection Hr as ->.
  split; [reflexivity|]. split; [|split; [|reflexivity]].
  - repeat constructor; cbn; apply clean_text_cleaned.
  - repeat constructor; cbn; [apply strip_trimmed|exact Hi].
Qed.

Lemma record_of_parsed (card : PageElement) (r : dict) :
  Spec.record_of card r -> exists ts, _parse_tool_card ts card = Some r.
Proof. intros (a & ts & _ & H & _). exists ts. exact H. Qed.

Lemma Forall2_in_right {A B} (R : A -> B -> Prop) (l : list A) (m : list B)
    (b : B) :
  Forall2 R l m -> In b m -> exists a, In a l /\ R a b.
Proof.
  induction 1 as [|x y l m Hxy _ IH]; [intros []|].
  intros [<-|H].
  - exists x. split; [left; reflexivity|exact Hxy].
  - destruct (IH H) as (a & Ha & Hr). exists a. split; [right; exact Ha|exact Hr].
Qed.

Lemma parse_tool_list_parsed (clock : nat -> str) (soup : PageElement)
    (r : dict) :
  In r (parse_tool_list clock soup) ->
  exists card ts, In card (tool_cards_of soup)
                  /\ _parse_tool_card ts card = Some r.
Proof.
  intro H.
  destruct (parse_tool_list_records clock soup) as [F _].
  destruct (Forall2_in_right _ _ _ r F H) as (card & Hc & Hr).
  destruct (record_of_parsed card r Hr) as [ts Hts].
  exists card, ts. split; [|exact Hts].
  apply filter_In in Hc. tauto.
Qed.

(** X3.  Every record [parse_tool_list] returns has the same eight keys in
    the same order (name, description, url, category, crawl_time, views,
    likes, icon_url); its name, description, category, views and likes are
    cleaned texts, and its url and icon_url are trimmed. *)
Theorem parse_tool_list_record_shape :
  forall (clock : nat -> str) (soup : PageElement),
    Forall (fun r =>
              keys r = Props.columns
              /\ Forall (fun k => Props.cleaned (Props.field k r) = true)
                        ["name"; "description"; "category"; "views"; "likes"]%string
              /\ Forall (fun k => Props.trimmed (Props.field k r) = true)
                        ["url"; "icon_url"]%string)
           (parse_tool_list clock soup).
Proof.
  intros clock soup. apply Forall_forall. intros r Hr.
  destruct (parse_tool_list_parsed clock soup r Hr) as (card & ts & _ & Hp).
  destruct (parse_card_shape card ts r Hp) as (K & C & T & _).
  auto.
Qed.

(** X4.  The fallbacks of an extracted record: without a muted-text block
    the description is empty; without a tag block, or without a link in it,
    the category is the default one; without a muted-text block directly
    under the content block, views and likes are both "0"; without a media
    element the icon url is empty. *)
Theorem parse_tool_card_fallbacks :
  forall (ts : str) (c b ac : PageElement) (rec : dict),
    find (py "div") (Some (py "card-body")) true c = Some b ->
    find (py "div") (Some (py "app-content")) true b = Some ac ->
    _parse_tool_card ts c = Some rec ->
    (find (py "div") (Some (py "text-muted")) true ac = None ->
     Props.field "description" rec = [])
    /\ (find (py "div") (Some (py "tga")) true ac = None ->
        Props.field "category" rec = default_category)
    /\ (forall tga,
          find (py "div") (Some (py "tga")) true ac = Some tga ->
          find (py "a") None true tga = None ->
          Props.field "category" rec = default_category)
    /\ (find (py "div") (Some (py "text-muted")) false ac = None ->
        Props.field "views" rec = py "0" /\ Props.field "likes" rec = py "0")
    /\ (find (py "a") (Some (py "media-content")) true b = None ->
        Props.field "icon_url" rec = []).
Proof.
  intros ts c b ac rec Hb Hac.
  unfold _parse_tool_card. rewrite Hb, Hac.
  destruct (find (py "a") None true ac) as [a|]; [|discriminate].
  destruct (match find (py "div") (Some (py "text-muted")) false ac with
            | Some meta_info => _
            | None => _
            end) as [views likes] eqn:Hm.
  intro H. injection H as <-.
  split; [|split; [|split; [|split]]].
  - intros ->. reflexivity.
  - intros ->. reflexivity.
  - intros tga -> ->. reflexivity.
  - intros Hn. rewrite Hn in Hm. injection Hm as <- <-. split; reflexivity.
  - intros ->. reflexivity.
Qed.

Lemma parse_tool_card_fallbacks_witness :
  Props.field "description"
    (Props.field_record (_parse_tool_card Samples.stamp Samples.bare_card)) = []
  /\ Props.field "category"
       (Props.field_record (_parse_tool_card Samples.stamp Samples.bare_card))
     = default_category
  /\ Props.field "views"
       (Props.field_record (_parse_tool_card Samples.stamp Samples.bare_card))
     = py "0"
  /\ Props.field "icon_url"
       (Props.field_record (_parse_tool_card Samples.stamp Samples.bare_card))
     = [].
Proof.
  pose proof
    (parse_tool_card_fallbacks Samples.stamp Samples.bare_card
       Samples.bare_body Samples.bare_content
       (Props.field_record (_parse_tool_card Samples.stamp Samples.bare_card)))
    as T.
  destruct T as (D & C & _ & V & I);
    [reflexivity|reflexivity|vm_compute; reflexivity|].
  split; [apply D; reflexivity|].
  split; [apply C; reflexivity|].
  split; [apply V; reflexivity|apply I; reflexivity].
Defined.

(** ** Time stamps *)

Lemma parse_cards_timestamps (clock : nat -> str) (cards : list PageElement) :
  forall tick acc,
  exists recs,
    parse_cards clock tick cards acc
    = (acc ++ recs, (tick + List.length recs)%nat)
    /\ forall i r, nth_error recs i = Some r ->
                   Props.field "crawl_time" r = clock (tick + i)%nat.
Proof.
  induction cards as [|card rest IH]; intros tick acc; cbn [parse_cards].
  - exists []. rewrite app_nil_r, Nat.add_0_r. split; [reflexivity|].
    intros [|i] r; discriminate.
  - destruct (_parse_tool_card (clock tick) card) as [r|] eqn:E; [|apply IH].
    destruct (parse_card_record _ _ _ E) as (_ & _ & Ht). rewrite Ht.
    destruct (parse_card_shape _ _ _ E) as (_ & _ & _ & Hc).
    destruct (IH (S tick) (acc ++ [r])) as (recs & Hp & Hn).
    exists (r :: recs). rewrite Hp, <- app_assoc. cbn [app List.length].
    split; [f_equal; lia|].
    intros [|i] r' Hr'; cbn in Hr'.
    + injection Hr' as <-. rewrite Nat.add_0_r. exact Hc.
    + rewrite (Hn i r' Hr'). f_equal. lia.
Qed.

(** X5.  [parse_tool_list] reads the clock once per record it returns, in
    order: an entry that gives no record reads nothing, and the record at
    position [i] carries reading [i] as its crawl_time. *)
Theorem parse_tool_list_timestamps :
  forall (clock : nat -> str) (soup : PageElement),
    timestamp_calls clock soup = List.length (parse_tool_list clock soup)
    /\ forall i r,
         nth_error (parse_tool_list clock soup) i = Some r ->
         Props.field "crawl_time" r = clock i.
Proof.
  intros clock soup. unfold timestamp_calls, parse_tool_list.
  destruct (parse_cards_timestamps clock (tool_cards_of soup) 0 [])
    as (recs & -> & H).
  split; [reflexivity|]. exact H.
Qed.

(** ** Validation and extraction *)

Lemma parse_tool_list_no_cards (clock : nat -> str) (soup : PageElement) :
  tool_cards_of soup = [] -> parse_tool_list clock soup = [].
Proof. unfold parse_tool_list. intros ->. reflexivity. Qed.

(** X6.  For a page from which at least one record is extracted, validity
    is exactly the presence of a content-area container: such a page is
    never rejected for want of entries. *)
Theorem is_valid_page_of_extractable_page :
  forall (clock : nat -> str) (soup : PageElement),
    parse_tool_list clock soup <> [] ->
    (is_valid_page soup = true
     <-> find (py "div") (Some (py "content")) true soup <> None).
Proof.
  intros clock soup H. unfold is_valid_page.
  destruct (find (py "div") (Some (py "content")) true soup) as [c|].
  - destruct (tool_cards_of soup) as [|card cards] eqn:E.
    + exfalso. apply H. apply parse_tool_list_no_cards. exact E.
    + split; [discriminate|reflexivity].
  - split; [discriminate|congruence].
Qed.

Lemma is_valid_page_of_extractable_page_witness :
  is_valid_page Examples.entry_with_blank_anchor = true
  <-> find (py "div") (Some (py "content")) true
           Examples.entry_with_blank_anchor <> None.
Proof.
  apply (is_valid_page_of_extractable_page (fun _ => Samples.stamp)).
  vm_compute. discriminate.
Defined.

(** ** The constructor *)

Lemma forallb_mem_slash (suf : str) :
  forallb (fun c => mem c (py "/")) suf = true ->
  suf = repeat 47%N (List.length suf).
Proof.
  induction suf as [|c t IH]; [reflexivity|].
  cbn [forallb]. intro H. apply andb_prop in H. destruct H as [Hc Ht].
  cbn [List.length repeat]. rewrite <- (IH Ht).
  cbn in Hc. rewrite orb_false_r in Hc. apply N.eqb_eq in Hc. subst c.
  reflexivity.
Qed.

(** X7.  The constructor keeps the base URL up to its trailing slashes: the
    URL given is the stored one followed by slashes only, the stored one does
    not end with a slash, and storing it again changes nothing.  A new
    crawler has no records and no open session. *)
Theorem init_normalises_base_url :
  forall (base : str) (retries : Z),
    let self := __init__ base retries in
    (exists k, base = base_url self ++ repeat 47%N k)
    /\ (forall prefix, base_url self <> prefix ++ py "/")
    /\ base_url (__init__ (base_url self) retries) = base_url self
    /\ max_retries self = retries
    /\ tools self = []
    /\ session self = false.
Proof.
  intros base retries self. subst self. cbn [base_url __init__ max_retries tools session].
  assert (N : forall prefix, rstrip (py "/") base <> prefix ++ py "/").
  { intros prefix E. apply rstrip_no_trailing in E. vm_compute in E.
    discriminate. }
  split; [|split; [exact N|split; [|auto]]].
  - unfold rstrip.
    destruct (rstrip_by_split (fun c => mem c (py "/")) base) as (suf & E & F).
    exists (List.length suf). rewrite <- (forallb_mem_slash suf F). exact E.
  - remember (rstrip (py "/") base) as u eqn:Eu.
    unfold rstrip. apply rstrip_by_fixed.
    destruct u as [|c t]; [exact I|].
    destruct (exists_last (l := c :: t)) as (pre & x & Ex); [discriminate|].
    rewrite Ex, last_last.
    destruct (mem x (py "/")) eqn:M; [|reflexivity].
    exfalso. apply (N pre). rewrite Ex.
    cbn in M. rewrite orb_false_r in M. apply N.eqb_eq in M. subst x.
    reflexivity.
Qed.

(** ** Fetching: what holds for every server *)

(** What one attempt does to the world. *)
Lemma request_frame (self : Crawler) (url : str) (w : World)
    (r : res (option str)) (w1 : World) :
  request self url w = (r, w1) ->
  server w1 = server w /\ disk w1 = disk w
  /\ wallclock w1 = wallclock w /\ ticks w1 = ticks w
  /\ Spec.backoff_sleeps (trace w1) = Spec.backoff_sleeps (trace w)
  /\ (session self = true -> gets w1 = S (gets w))
  /\ (session self = false -> w1 = w /\ r = Raise RuntimeError)
  /\ (forall html, r = Return (Some html) ->
        server w (gets w) url = Response 200 (Return html)
        /\ trace w1 = trace w ++ [Get url; WriteDebug html]).
Proof.
  unfold request.
  destruct (session self) eqn:Hs; cbn [negb].
  2:{ intro H. injection H as <- <-. repeat split; try reflexivity; discriminate. }
  destruct (server w (gets w) url) as [status text|e] eqn:Es;
    [destruct (Z.eqb_spec status 200) as [->|Hst];
     [destruct text as [html|e]; [destruct (disk _ _)|]|]|];
    intro H; injection H as <- <-;
    cbn [server disk wallclock ticks gets trace count_get count_write log_event];
    rewrite ?backoff_sleeps_app; cbn [Spec.backoff_sleeps flat_map app];
    rewrite ?app_nil_r;
    (split; [reflexivity|]); (split; [reflexivity|]);
    (split; [reflexivity|]); (split; [reflexivity|]);
    (split; [reflexivity|]); (split; [reflexivity|]);
    (split; [discriminate|]);
    intros html' E; try discriminate.
  injection E as <-. split; [reflexivity|].
  rewrite <- app_assoc. reflexivity.
Qed.

Lemma get_retry_delay_cases (rc : Z) :
  (0 <= rc)%Z ->
  (exists d, get_retry_delay rc default_base_delay = Return d
             /\ integer_value d = Some (Spec.backoff_seconds rc))
  \/ get_retry_delay rc default_base_delay = Raise OverflowError.
Proof.
  intro H. destruct (Z_le_gt_dec rc 1023) as [L|G].
  - left. apply get_retry_delay_returns. lia.
  - right. apply get_retry_delay_overflow. lia.
Qed.

Lemma backoff_schedule_nil (first : Z) : Spec.backoff_schedule first 0 = [].
Proof. reflexivity. Qed.

(** One attempt seen as a fetch that slept no back-off delay. *)
Lemma request_attempt_frame (self : Crawler) (url : str) (rc : Z)
    (w : World) (r1 : res (option str)) (w1 : World) :
  request self url w = (r1, w1) ->
  server w1 = server w /\ disk w1 = disk w
  /\ wallclock w1 = wallclock w /\ ticks w1 = ticks w
  /\ Spec.backoff_sleeps (trace w1)
     = Spec.backoff_sleeps (trace w) ++ Spec.backoff_schedule rc 0
  /\ (session self = true -> gets w1 = (gets w + 0 + 1)%nat)
  /\ (session self = false -> gets w1 = gets w)
  /\ (forall html, r1 = Return (Some html) ->
        exists j, (gets w <= j < gets w1)%nat
                  /\ server w j url = Response 200 (Return html)
                  /\ exists t, trace w1 = t ++ [Get url; WriteDebug html]).
Proof.
  intro Er.
  destruct (request_frame self url w r1 w1 Er)
    as (Fs & Fd & Fw & Ft & Fb & Fg & Fn & Fh).
  repeat (split; [assumption|]).
  split; [rewrite backoff_schedule_nil, app_nil_r; exact Fb|].
  split; [intro S; rewrite (Fg S); lia|].
  split; [intro S; destruct (Fn S) as [-> _]; reflexivity|].
  intros html E. destruct (Fh html E) as [E1 E2].
  assert (S : session self = true).
  { destruct (session self); [reflexivity|].
    destruct (Fn eq_refl) as [_ X]. congruence. }
  exists (gets w). split; [rewrite (Fg S); lia|].
  split; [exact E1|]. exists (trace w). exact E2.
Qed.

(** What a fetch does to the world, whatever the server answers. *)
Lemma fetch_page_frame (self : Crawler) (url : str) (n : nat) :
  forall (rc : Z) (w : World) (r : res (option str)) (w' : World),
    (0 <= rc)%Z ->
    Z.to_nat (max_retries self - rc) = n ->
    fetch_page self url rc w = (r, w') ->
    server w' = server w /\ disk w' = disk w
    /\ wallclock w' = wallclock w /\ ticks w' = ticks w
    /\ room w' = room w
    /\ ((n <= room w)%nat -> r <> Raise RecursionError)
    /\ exists k,
         (k <= n)%nat
         /\ Spec.backoff_sleeps (trace w')
            = Spec.backoff_sleeps (trace w) ++ Spec.backoff_schedule rc k
         /\ (session self = true -> r <> Raise RecursionError ->
             gets w' = (gets w + k + 1)%nat)
         /\ (session self = false -> gets w' = gets w)
         /\ (forall html, r = Return (Some html) ->
               exists j, (gets w <= j < gets w')%nat
                         /\ server w j url = Response 200 (Return html)
                         /\ exists t, trace w' = t ++ [Get url; WriteDebug html]).
Proof.
  induction n as [|n IH]; intros rc w r w' Hrc Hn; rewrite fetch_page_unfolded;
    destruct (request self url w) as [r1 w1] eqn:Er;
    pose proof (request_attempt_frame self url rc w r1 w1 Er) as Base;
    pose proof (request_room self url w r1 w1 Er) as Room;
    destruct r1 as [r0|e];
    try (intro H; injection H as <- <-; single_attempt Base Room);
    destruct (Z_lt_dec rc (max_retries self)) as [L|G]; try lia;
    try (intro H; injection H as <- <-; single_attempt Base Room).
  (* a retry *)
  destruct (get_retry_delay_cases rc Hrc) as [(d & -> & Hd)| ->];
    [|intro H; injection H as <- <-; single_attempt Base Room].
  destruct (request_frame self url w (Raise e) w1 Er)
    as (Fs & Fd & Fw & Ft & Fb & Fg & Fn & _).
  destruct (Nat.eq_dec (room w1) 0) as [Z0|NZ].
  - (* no room for the retry *)
    intro H. injection H as <- <-.
    cbn [server disk wallclock ticks room gets trace log_event].
    repeat (split; [assumption|]).
    split; [intros Hroom _; lia|].
    exists 1%nat. split; [lia|]. split.
    { rewrite backoff_sleeps_app, Fb. cbn. rewrite Hd, Z.add_0_r. reflexivity. }
    split; [intros _ X; congruence|].
    split; [intro S; destruct (Fn S) as [-> _]; reflexivity|].
    intros html X. discriminate X.
  - destruct (fetch_page self url (rc + 1)
                (enter_call (log_event (Sleep d) w1))) as [r' w''] eqn:EF.
    unfold leave_call. cbn [fst snd]. intro H. injection H as <- <-.
    destruct (IH (rc + 1)%Z (enter_call (log_event (Sleep d) w1)) r' w'') as
      (A & B & C & D & R & N & k & K1 & K2 & K3 & K4 & K5); [lia|lia|exact EF|].
    cbn [server disk wallclock ticks room gets trace log_event enter_call
         with_room] in *.
    split; [congruence|]. split; [congruence|].
    split; [congruence|]. split; [congruence|].
    split; [lia|]. split; [intro Hroom; apply N; lia|].
    exists (S k). split; [lia|]. split.
    { rewrite K2, backoff_schedule_step, backoff_sleeps_app, Fb.
      cbn. rewrite Hd, <- app_assoc. reflexivity. }
    split; [intros S X; rewrite (K3 S X), (Fg S); lia|].
    split; [intro S; rewrite (K4 S); destruct (Fn S) as [-> _]; reflexivity|].
    intros html E. destruct (K5 html E) as (j & J1 & J2 & J3).
    exists j. split.
    + assert (gets w <= gets w1)%nat.
      { destruct (session self) eqn:S; [rewrite (Fg eq_refl); lia|].
        destruct (Fn eq_refl) as [-> _]. lia. }
      lia.
    + split; [rewrite <- Fs; exact J2|exact J3].
Qed.

(** X8.  Whatever the server answers, a fetch by an open session that has
    room under the recursion limit for its retries makes [k + 1] requests
    for some [k <= max_retries], and sleeps exactly the first [k] delays of
    the back-off schedule, in order; it never reads the clock.  A page it
    returns was served with status 200 at one of these requests, and the
    last thing it did was to write that page to the debug file. *)
Theorem fetch_page_requests_bounded :
  forall (self : Crawler) (url : str) (w : World) (r : res (option str))
         (w' : World),
    session self = true ->
    (0 <= max_retries self)%Z ->
    (max_retries self <= Z.of_nat (room w))%Z ->
    fetch_page self url 0 w = (r, w') ->
    ticks w' = ticks w
    /\ exists k,
         (Z.of_nat k <= max_retries self)%Z
         /\ gets w' = (gets w + k + 1)%nat
         /\ Spec.backoff_sleeps (trace w')
            = Spec.backoff_sleeps (trace w) ++ Spec.backoff_schedule 0 k
         /\ (forall html, r = Return (Some html) ->
               exists j, (gets w <= j < gets w')%nat
                         /\ server w j url = Response 200 (Return html)
                         /\ exists t, trace w' = t ++ [Get url; WriteDebug html]).
Proof.
  intros self url w r w' Hs Hmax Hroom H.
  destruct (fetch_page_frame self url (Z.to_nat (max_retries self)) 0%Z w r w')
    as (_ & _ & _ & T & _ & N & k & K1 & K2 & K3 & _ & K5);
    [lia|f_equal; lia|exact H|].
  split; [exact T|]. exists k.
  split; [lia|]. split; [apply (K3 Hs); apply N; lia|].
  split; [exact K2|exact K5].
Qed.

Lemma fetch_page_requests_bounded_witness :
  exists k,
    (Z.of_nat k <= 3)%Z
    /\ gets (snd (fetch_page Examples.site Examples.second_page 0
                     (Examples.fresh_world Examples.unreachable)))
       = (0 + k + 1)%nat.
Proof.
  destruct (fetch_page_requests_bounded Examples.site Examples.second_page
              (Examples.fresh_world Examples.unreachable)
              (fst (fetch_page Examples.site Examples.second_page 0
                      (Examples.fresh_world Examples.unreachable)))
              (snd (fetch_page Examples.site Examples.second_page 0
                      (Examples.fresh_world Examples.unreachable))))
    as (_ & k & K1 & K2 & _).
  - reflexivity.
  - cbn. lia.
  - vm_compute. discriminate.
  - apply surjective_pairing.
  - exists k. split; [exact K1|exact K2].
Defined.

Lemma request_fails_raises (self : Crawler) (url : str) (w : World) :
  session self = true ->
  Props.request_fails (server w (gets w) url) = true ->
  exists e, request self url w = (Raise e, count_get (log_event (Get url) w)).
Proof.
  intros Hs Hf. unfold request. rewrite Hs. cbn [negb].
  destruct (server w (gets w) url) as [status [html|e]|e]; cbn in Hf.
  - discriminate.
  - rewrite Hf. exists e. reflexivity.
  - exists e. reflexivity.
Qed.

Lemma request_succeeds (self : Crawler) (url : str) (w : World) (html : str) :
  session self = true ->
  server w (gets w) url = Response 200 (Return html) ->
  disk w (writes w) = true ->
  request self url w
  = (Return (Some html),
     count_write (log_event (WriteDebug html) (count_get (log_event (Get url) w)))).
Proof.
  intros Hs Hr Hd. unfold request. rewrite Hs, Hr. cbn. rewrite Hd. reflexivity.
Qed.

Lemma fetch_page_recovers (self : Crawler) (url html : str) (k : nat) :
  session self = true ->
  forall (rc : Z) (w : World),
    (0 <= rc)%Z ->
    ((0 < k)%nat -> rc + Z.of_nat k <= max_retries self)%Z ->
    ((0 < k)%nat -> rc + Z.of_nat k <= 1024)%Z ->
    (k <= room w)%nat ->
    (forall i, (i < k)%nat ->
               Props.request_fails (server w (gets w + i)%nat url) = true) ->
    server w (gets w + k)%nat url = Response 200 (Return html) ->
    disk w (writes w) = true ->
    exists w',
      fetch_page self url rc w = (Return (Some html), w')
      /\ gets w' = (gets w + k + 1)%nat
      /\ Spec.backoff_sleeps (trace w')
         = Spec.backoff_sleeps (trace w) ++ Spec.backoff_schedule rc k
      /\ exists t, trace w' = t ++ [Get url; WriteDebug html].
Proof.
  intro Hs. induction k as [|k IH]; intros rc w Hrc Hmax Hlim Hroom Hf Hok Hd;
    rewrite fetch_page_unfolded.
  - rewrite Nat.add_0_r in Hok.
    rewrite (request_succeeds self url w html Hs Hok Hd).
    eexists. split; [reflexivity|].
    cbn [gets trace count_get count_write log_event].
    split; [lia|]. split.
    + rewrite !backoff_sleeps_app. cbn. rewrite !app_nil_r. reflexivity.
    + exists (trace w). rewrite <- app_assoc. reflexivity.
  - assert (F0 : Props.request_fails (server w (gets w) url) = true).
    { rewrite <- (Nat.add_0_r (gets w)). apply Hf. lia. }
    destruct (request_fails_raises self url w Hs F0) as [e ->].
    specialize (Hmax ltac:(lia)). specialize (Hlim ltac:(lia)).
    destruct (Z_lt_dec rc (max_retries self)) as [_|G]; [|lia].
    destruct (get_retry_delay_returns rc) as (d & -> & Hv); [lia|].
    destruct (Nat.eq_dec (room (count_get (log_event (Get url) w))) 0)
      as [Z0|_]; [cbn [room count_get log_event] in Z0; lia|].
    destruct (IH (rc + 1)%Z
                 (enter_call
                    (log_event (Sleep d) (count_get (log_event (Get url) w)))))
      as (w' & -> & Hg & Hb & Ht); try lia.
    + cbn [room enter_call with_room log_event count_get]. lia.
    + intros i Hi. cbn [server gets enter_call with_room log_event count_get].
      replace (S (gets w) + i)%nat with (gets w + S i)%nat by lia.
      apply Hf. lia.
    + cbn [server gets enter_call with_room log_event count_get].
      replace (S (gets w) + k)%nat with (gets w + S k)%nat by lia. exact Hok.
    + exact Hd.
    + eexists. split; [reflexivity|].
      cbn [fst snd gets trace with_room].
      cbn [gets trace enter_call with_room log_event count_get] in Hg, Hb.
      split; [lia|]. split; [|exact Ht].
      rewrite Hb, backoff_schedule_step, !backoff_sleeps_app. cbn.
      rewrite Hv, !app_nil_r, <- app_assoc. reflexivity.
Qed.

(** X9.  A fetch recovers from failures: when the first [k] requests raise
    (a request error or an undecodable body), with [k] at most
    [max_retries] and room under the recursion limit for [k] retries, the
    next request is answered 200 and the debug file can be
    written, the fetch returns that page after [k + 1] requests and the
    first [k] back-off sleeps, its last step being the write of the page to
    the debug file.  With [k = 0] the page comes at once, without any
    sleep. *)
Theorem fetch_page_returns_first_success :
  forall (self : Crawler) (url html : str) (w : World) (k : nat),
    session self = true ->
    (Z.of_nat k <= max_retries self)%Z ->
    (Z.of_nat k <= 1024)%Z ->
    (k <= room w)%nat ->
    (forall i, (i < k)%nat ->
               Props.request_fails (server w (gets w + i)%nat url) = true) ->
    server w (gets w + k)%nat url = Response 200 (Return html) ->
    disk w (writes w) = true ->
    exists w',
      fetch_page self url 0 w = (Return (Some html), w')
      /\ gets w' = (gets w + k + 1)%nat
      /\ Spec.backoff_sleeps (trace w')
         = Spec.backoff_sleeps (trace w) ++ Spec.backoff_schedule 0 k
      /\ exists t, trace w' = t ++ [Get url; WriteDebug html].
Proof.
  intros self url html w k Hs Hk Hl Hroom Hf Hok Hd.
  apply (fetch_page_recovers self url html k Hs 0%Z w); try assumption; lia.
Qed.

Lemma fetch_page_returns_first_success_witness :
  exists w',
    fetch_page Examples.site Examples.second_page 0
               (Examples.fresh_world
                  (Samples.flaky Examples.entry_with_blank_anchor_html))
    = (Return (Some Examples.entry_with_blank_anchor_html), w')
    /\ gets w' = 3%nat
    /\ Spec.backoff_sleeps (trace w') = [Some 1; Some 2]%Z
    /\ exists t,
         trace w'
         = t ++ [Get Examples.second_page;
                 WriteDebug Examples.entry_with_blank_anchor_html].
Proof.
  apply (fetch_page_returns_first_success Examples.site Examples.second_page
           Examples.entry_with_blank_anchor_html
           (Examples.fresh_world
              (Samples.flaky Examples.entry_with_blank_anchor_html)) 2).
  - reflexivity.
  - cbn. lia.
  - lia.
  - cbn. lia.
  - intros i Hi. destruct i as [|[|i]]; [reflexivity|reflexivity|lia].
  - reflexivity.
  - reflexivity.
Defined.

Lemma fetch_page_no_session (self : Crawler) (url : str) (n : nat) :
  session self = false ->
  (max_retries self <= 1024)%Z ->
  forall (rc : Z) (w : World),
    (0 <= rc)%Z ->
    Z.to_nat (max_retries self - rc) = n ->
    (n <= room w)%nat ->
    exists new,
      fetch_page self url rc w
      = (Return None,
         {| server := server w; disk := disk w; wallclock := wallclock w;
            room := room w;
            gets := gets w; writes := writes w; ticks := ticks w;
            trace := trace w ++ new |})
      /\ forallb Props.is_backoff new = true
      /\ Spec.backoff_sleeps new = Spec.backoff_schedule rc n.
Proof.
  intros Hs Hmax.
  assert (R : forall w, request self url w = (Raise RuntimeError, w)).
  { intro w. unfold request. rewrite Hs. reflexivity. }
  induction n as [|n IH]; intros rc w Hrc Hn Hroom;
    rewrite fetch_page_unfolded, R;
    destruct (Z_lt_dec rc (max_retries self)) as [L|G]; try lia.
  - exists []. rewrite app_nil_r. destruct w. auto.
  - destruct (get_retry_delay_returns rc) as (d & -> & Hd); [lia|].
    destruct (Nat.eq_dec (room w) 0) as [Z0|_]; [lia|].
    destruct (IH (rc + 1)%Z (enter_call (log_event (Sleep d) w)))
      as (new & -> & F & B); [lia|lia| |].
    { cbn [room enter_call with_room log_event]. lia. }
    exists (Sleep d :: new). unfold leave_call.
    cbn [fst snd server disk wallclock room gets writes ticks trace
         enter_call with_room log_event].
    rewrite <- app_assoc. split.
    + replace (S (pred (room w))) with (room w) by lia. reflexivity.
    + split; [exact F|].
      rewrite backoff_schedule_step. cbn. rewrite Hd. f_equal. exact B.
Qed.

(** X10.  A crawler whose session was never opened issues no request: each
    attempt fails before the GET and is retried like any exception.  With
    room under the recursion limit for [max_retries] retries, the fetch
    returns None after sleeping the whole back-off schedule of
    [max_retries] delays, with nothing else done. *)
Theorem fetch_page_without_session :
  forall (self : Crawler) (url : str) (w : World),
    session self = false ->
    (0 <= max_retries self <= 1024)%Z ->
    (max_retries self <= Z.of_nat (room w))%Z ->
    exists new,
      fetch_page self url 0 w
      = (Return None,
         {| server := server w; disk := disk w; wallclock := wallclock w;
            room := room w;
            gets := gets w; writes := writes w; ticks := ticks w;
            trace := trace w ++ new |})
      /\ forallb Props.is_backoff new = true
      /\ Spec.backoff_sleeps new
         = Spec.backoff_schedule 0 (Z.to_nat (max_retries self)).
Proof.
  intros self url w Hs Hmax Hroom.
  apply (fetch_page_no_session self url (Z.to_nat (max_retries self)) Hs);
    [lia|lia|f_equal; lia|lia].
Qed.

Lemma fetch_page_without_session_witness :
  exists new,
    fetch_page Samples.unopened Examples.second_page 0
               (Examples.fresh_world
                  (Examples.serve Examples.entry_with_blank_anchor_html))
    = (Return None,
       {| server := Examples.serve Examples.entry_with_blank_anchor_html;
          disk := fun _ => true;
          wallclock := fun _ => py "2024-01-01 00:00:00";
          room := 900;
          gets := 0; writes := 0; ticks := 0;
          trace := [] ++ new |})
    /\ forallb Props.is_backoff new = true
    /\ Spec.backoff_sleeps new = [Some 1; Some 2; Some 4]%Z.
Proof.
  apply (fetch_page_without_session Samples.unopened Examples.second_page
           (Examples.fresh_world
              (Examples.serve Examples.entry_with_blank_anchor_html))).
  - reflexivity.
  - cbn. lia.
  - vm_compute. discriminate.
Defined.

(** ** The page operation, continued *)

Lemma eqb_refl (s : str) : eqb s s = true.
Proof.
  induction s as [|c t IH]; [reflexivity|].
  cbn. rewrite N.eqb_refl, IH. reflexivity.
Qed.

Lemma request_events (self : Crawler) (url : str) (w : World)
    (r : res (option str)) (w1 : World) :
  request self url w = (r, w1) ->
  exists new, trace w1 = trace w ++ new
              /\ forallb (Props.fetch_event url) new = true.
Proof.
  unfold request.
  destruct (session self); cbn [negb].
  2:{ intro H. injection H as <- <-. exists []. rewrite app_nil_r. auto. }
  destruct (server w (gets w) url) as [status [html|e]|e];
    [destruct (status =? 200)%Z; [destruct (disk _ _)|]
    |destruct (status =? 200)%Z|];
    intro H; injection H as <- <-;
    cbn [trace count_get count_write log_event];
    rewrite <- ?app_assoc; eexists; (split; [reflexivity|]);
    cbn; rewrite eqb_refl; reflexivity.
Qed.

Lemma fetch_page_events (self : Crawler) (url : str) (n : nat) :
  forall (rc : Z) (w : World) (r : res (option str)) (w' : World),
    Z.to_nat (max_retries self - rc) = n ->
    fetch_page self url rc w = (r, w') ->
    exists new, trace w' = trace w ++ new
                /\ forallb (Props.fetch_event url) new = true.
Proof.
  induction n as [|n IH]; intros rc w r w' Hn; rewrite fetch_page_unfolded;
    destruct (request self url w) as [r1 w1] eqn:Er;
    destruct (request_events self url w r1 w1 Er) as (new1 & E1 & F1);
    destruct r1 as [r0|e];
    try (intro H; injection H as <- <-; exists new1; auto);
    destruct (Z_lt_dec rc (max_retries self)) as [L|G]; try lia;
    try (intro H; injection H as <- <-; exists new1; auto).
  destruct (get_retry_delay rc default_base_delay) as [d|e'];
    [|intro H; injection H as <- <-; exists new1; auto].
  destruct (Nat.eq_dec (room w1) 0) as [Z0|NZ].
  { intro H. injection H as <- <-. exists (new1 ++ [Sleep d]).
    cbn [trace log_event]. rewrite E1, <- app_assoc.
    split; [reflexivity|]. rewrite forallb_app, F1. reflexivity. }
  destruct (fetch_page self url (rc + 1) (enter_call (log_event (Sleep d) w1)))
    as [r' w''] eqn:EF.
  unfold leave_call. cbn [fst snd]. intro H. injection H as <- <-.
  destruct (IH (rc + 1)%Z (enter_call (log_event (Sleep d) w1)) r' w'')
    as (new & E & F); [lia|exact EF|].
  cbn [trace log_event enter_call with_room] in E |- *.
  exists (new1 ++ Sleep d :: new). split.
  - rewrite E, E1, <- !app_assoc. reflexivity.
  - rewrite forallb_app, F1. cbn. exact F.
Qed.





Lemma parse_tool_list_reads (clock : nat -> str) (soup : PageElement) :
  timestamp_calls clock soup = List.length (parse_tool_list clock soup)
  /\ forall i r,
       nth_error (parse_tool_list clock soup) i = Some r ->
       Props.field "crawl_time" r = clock i.
Proof.
  unfold timestamp_calls, parse_tool_list.
  destruct (parse_cards_timestamps clock (tool_cards_of soup) 0 [])
    as (recs & -> & H).
  split; [reflexivity|]. exact H.
Qed.

(** X13.  [crawl_page] never changes the base URL, the retry limit or the
    session of the crawler, and only appends to its records.  It reads the
    clock once per record it appends, and each appended record carries its
    reading as crawl_time; a call that appends nothing reads no clock. *)
Theorem crawl_page_appends_with_timestamps :
  forall (BeautifulSoup : str -> PageElement) (page : Z) (self : Crawler)
         (w : World),
    let self' := snd (fst (crawl_page BeautifulSoup page self w)) in
    let w' := snd (crawl_page BeautifulSoup page self w) in
    base_url self' = base_url self
    /\ max_retries self' = max_retries self
    /\ session self' = session self
    /\ exists new,
         tools self' = tools self ++ new
         /\ ticks w' = (ticks w + List.length new)%nat
         /\ forall i r,
              nth_error new i = Some r ->
              Props.field "crawl_time" r = wallclock w (ticks w + i)%nat.
Proof.
  intros BeautifulSoup page self w self' w'. subst self' w'.
  assert (Nothing : forall w2 : World,
             ticks w2 = ticks w ->
             exists new : list dict,
               tools self = tools self ++ new
               /\ ticks w2 = (ticks w + List.length new)%nat
               /\ forall i r, nth_error new i = Some r ->
                    Props.field "crawl_time" r = wallclock w (ticks w + i)%nat).
  { intros w2 E. exists []. rewrite app_nil_r. cbn. split; [reflexivity|].
    split; [lia|]. intros [|i] r; discriminate. }
  destruct (page_url self page) as [url|e] eqn:Hu.
  2:{ unfold crawl_page. rewrite Hu. cbn [fst snd]. auto. }
  destruct (fetch_page self url 0 (log_event (SleepUniform 2 5) w))
    as [r w2] eqn:Hf.
  destruct (fetch_page_frame self url (Z.to_nat (max_retries self - 0)) 0%Z
              _ r w2 (Z.le_refl 0) eq_refl Hf) as (_ & _ & Fw & Ft & _).
  cbn [wallclock ticks log_event] in Fw, Ft.
  destruct r as [h|e].
  2:{ unfold crawl_page. rewrite Hu, Hf. cbn [fst snd]. auto. }
  rewrite (crawl_page_unfolded BeautifulSoup page self w url h w2 Hu Hf).
  destruct h as [[|c html]|]; cbn [fst snd]; auto.
  destruct (negb (is_valid_page (BeautifulSoup (c :: html)))); cbn [fst snd]; auto.
  cbv zeta.
  destruct (parse_tool_list_reads (Spec.clock_of w2) (BeautifulSoup (c :: html)))
    as [Hn Hc].
  destruct (parse_tool_list (Spec.clock_of w2) (BeautifulSoup (c :: html)))
    as [|r0 rs] eqn:Hp; cbn [fst snd].
  - repeat (split; [reflexivity|]). apply Nothing.
    cbn [ticks advance_clock]. rewrite Hn. cbn. lia.
  - repeat (split; [reflexivity|]). exists (r0 :: rs).
    cbn [tools extend_tools ticks advance_clock].
    split; [reflexivity|]. split; [rewrite Hn, Ft; reflexivity|].
    intros i r Hi. rewrite (Hc i r Hi). unfold Spec.clock_of.
    rewrite Fw, Ft. reflexivity.
Qed.

(** ** Extraction does not depend on the clock *)

Lemma parse_card_time_independent (ts ts' : str) (card : PageElement) :
  option_map Props.without_time (_parse_tool_card ts card)
  = option_map Props.without_time (_parse_tool_card ts' card).
Proof.
  unfold _parse_tool_card.
  destruct (find (py "div") (Some (py "card-body")) true card) as [body|];
    [|reflexivity].
  destruct (find (py "div") (Some (py "app-content")) true body) as [content|];
    [|reflexivity].
  destruct (find (py "a") None true content) as [a|]; [|reflexivity].
  destruct (match find (py "div") (Some (py "text-muted")) false content with
            | Some meta_info => _
            | None => _
            end) as [views likes].
  reflexivity.
Qed.

Lemma parse_cards_time_independent (clock clock' : nat -> str)
    (cards : list PageElement) :
  forall tick tick' acc acc',
    map Props.without_time acc = map Props.without_time acc' ->
    map Props.without_time (fst (parse_cards clock tick cards acc))
    = map Props.without_time (fst (parse_cards clock' tick' cards acc')).
Proof.
  induction cards as [|card rest IH]; intros tick tick' acc acc' H;
    cbn [parse_cards]; [exact H|].
  pose proof (parse_card_time_independent (clock tick) (clock' tick') card) as E.
  destruct (_parse_tool_card (clock tick) card) as [r|] eqn:E1;
    destruct (_parse_tool_card (clock' tick') card) as [r'|] eqn:E2;
    cbn in E; try discriminate.
  - destruct (parse_card_record _ _ _ E1) as (_ & _ & ->).
    destruct (parse_card_record _ _ _ E2) as (_ & _ & ->).
    apply IH. rewrite !map_app, H. cbn. injection E as ->. reflexivity.
  - apply IH. exact H.
Qed.

(** X14.  Extraction depends on the clock through crawl_time only: two
    extractions of the same page give the same records, field by field and in
    the same order, once crawl_time is set aside. *)
Theorem parse_tool_list_clock_independent :
  forall (clock clock' : nat -> str) (soup : PageElement),
    map Props.without_time (parse_tool_list clock soup)
    = map Props.without_time (parse_tool_list clock' soup).
Proof.
  intros clock clock' soup. unfold parse_tool_list.
  apply parse_cards_time_independent. reflexivity.
Qed.

(** ** The back-off delay, continued *)

(** X15.  Up to attempt 1023 the retry delay, with the default base delay,
    is at least one second, at most sixty, and never decreases from one
    attempt to a later one. *)
Theorem get_retry_delay_monotone :
  forall a b : Z,
    (0 <= a <= b)%Z ->
    (b <= 1023)%Z ->
    exists x y,
      Spec.delay_seconds a = Some x /\ Spec.delay_seconds b = Some y
      /\ (1 <= x <= y)%Z /\ (y <= 60)%Z.
Proof.
  intros a b Hab Hb.
  exists (Spec.backoff_seconds a), (Spec.backoff_seconds b).
  split; [apply delay_seconds_backoff; lia|].
  split; [apply delay_seconds_backoff; lia|].
  unfold Spec.backoff_seconds.
  assert (1 <= 2 ^ a)%Z.
  { change 1%Z with (2 ^ 0)%Z. apply Z.pow_le_mono_r; lia. }
  assert (2 ^ a <= 2 ^ b)%Z by (apply Z.pow_le_mono_r; lia).
  lia.
Qed.

Lemma get_retry_delay_monotone_witness :
  exists x y,
    Spec.delay_seconds 3 = Some x /\ Spec.delay_seconds 9 = Some y
    /\ (1 <= x <= y)%Z /\ (y <= 60)%Z.
Proof. apply (get_retry_delay_monotone 3 9); lia. Defined.

(** ** The orchestrator *)

Lemma page_range_in (total p : Z) :
  In p (page_range total) <-> (2 <= p <= total)%Z.
Proof.
  unfold page_range. rewrite in_map_iff. split.
  - intros (k & <- & Hk). apply in_seq in Hk. lia.
  - intro H. exists (Z.to_nat (p - 2)). split; [lia|]. apply in_seq. lia.
Qed.

Lemma page_range_sorted (total : Z) :
  StronglySorted Z.lt (page_range total).
Proof.
  unfold page_range.
  generalize (Z.to_nat (total - 1)) as n. intro n.
  generalize 0%nat as start.
  induction n as [|n IH]; intro start; cbn [seq map]; constructor.
  - apply IH.
  - apply Forall_forall. intros p Hp.
    apply in_map_iff in Hp. destruct Hp as (k & <- & Hk).
    apply in_seq in Hk. lia.
Qed.

Lemma page_range_length (total : Z) :
  List.length (page_range total) = Z.to_nat (total - 1).
Proof. unfold page_range. rewrite length_map, length_seq. reflexivity. Qed.

Lemma paced_step (n : nat) (w : World) :
  Props.paced n (log_event (SleepUniform 1 3) w) = Props.paced (S n) w.
Proof.
  unfold Props.paced. cbn [server disk wallclock gets writes ticks trace log_event].
  f_equal. rewrite <- app_assoc. reflexivity.
Qed.

Lemma paced_zero (w : World) : Props.paced 0 w = w.
Proof. unfold Props.paced. cbn. rewrite app_nil_r. destruct w. reflexivity. Qed.

Lemma schedule_spec (BeautifulSoup : str -> PageElement) (pages : list Z) :
  forall tasks w,
    schedule BeautifulSoup pages tasks w
    = (tasks ++ map (crawl_page BeautifulSoup) pages,
       Props.paced (List.length pages) w).
Proof.
  induction pages as [|p rest IH]; intros tasks w; cbn [schedule map List.length].
  - rewrite app_nil_r, paced_zero. reflexivity.
  - rewrite IH, <- app_assoc, paced_step. reflexivity.
Qed.

(** What [crawl_all] does once the first page has been fetched. *)
Lemma crawl_all_after_first_page
    (BeautifulSoup : str -> PageElement)
    (gather : list (coroutine bool) -> coroutine (list bool))
    (self : Crawler) (w : World) (html : str) (w1 : World) :
  fetch_page self (base_url self) 0 w = (Return (Some html), w1) ->
  html <> [] ->
  exists self1 w2,
    base_url self1 = base_url self
    /\ max_retries self1 = max_retries self
    /\ session self1 = session self
    /\ tools self1
       = tools self ++ Props.first_page_records (BeautifulSoup html) w1
    /\ trace w2 = trace w1 /\ gets w2 = gets w1 /\ server w2 = server w1
    /\ crawl_all BeautifulSoup gather self w
       = if (1 <? total_pages (extract_pagination_info (BeautifulSoup html)))%Z
         then Props.report
                (gather
                   (map (crawl_page BeautifulSoup)
                      (page_range
                         (total_pages
                            (extract_pagination_info (BeautifulSoup html)))))
                   self1
                   (Props.paced
                      (List.length
                         (page_range
                            (total_pages
                               (extract_pagination_info (BeautifulSoup html)))))
                      w2))
         else (Return tt, self1, w2).
Proof.
  intros Hf Hne. unfold crawl_all. rewrite Hf.
  destruct html as [|c html]; [congruence|].
  unfold Props.first_page_records.
  cbv zeta.
  destruct (is_valid_page (BeautifulSoup (c :: html))).
  - fold (Spec.clock_of w1).
    destruct (parse_tool_list (Spec.clock_of w1) (BeautifulSoup (c :: html)))
      as [|r rs] eqn:Hp.
    + exists self.
      exists (advance_clock
                (ticks w1
                 + timestamp_calls (Spec.clock_of w1) (BeautifulSoup (c :: html)))
                w1).
      repeat (split; [reflexivity|]).
      split; [rewrite app_nil_r; reflexivity|].
      repeat (split; [reflexivity|]).
      destruct (1 <? _)%Z; [|reflexivity].
      rewrite schedule_spec. cbn [app]. reflexivity.
    + exists (extend_tools self (r :: rs)).
      exists (advance_clock
                (ticks w1
                 + timestamp_calls (Spec.clock_of w1) (BeautifulSoup (c :: html)))
                w1).
      repeat (split; [reflexivity|]).
      destruct (1 <? _)%Z; [|reflexivity].
      rewrite schedule_spec. cbn [app]. reflexivity.
  - exists self, w1.
    repeat (split; [reflexivity|]).
    split; [rewrite app_nil_r; reflexivity|].
    repeat (split; [reflexivity|]).
    destruct (1 <? _)%Z; [|reflexivity].
    rewrite schedule_spec. cbn [app]. reflexivity.
Qed.

(** The records of a page are those of its located entries, in order. *)
Lemma parse_tool_list_entries (clock : nat -> str) (soup : PageElement) :
  Forall2 Spec.record_of (filter Spec.located (Spec.entries soup))
          (parse_tool_list clock soup).
Proof.
  rewrite <- tool_cards_of_entries. apply parse_tool_list_records.
Qed.

(** What [crawl_all] itself appends: the records of the first page, or
    nothing; every other change of the collection is made by the page
    operations it hands to the scheduler. *)
Lemma crawl_all_appends
    (BeautifulSoup : str -> PageElement)
    (gather : list (coroutine bool) -> coroutine (list bool))
    (self : Crawler) (w : World) :
  exists self1 page_tools,
    tools self1 = tools self ++ page_tools
    /\ (page_tools = []
        \/ exists html w1,
             fetch_page self (base_url self) 0 w = (Return (Some html), w1)
             /\ page_tools
                = parse_tool_list (Spec.clock_of w1) (BeautifulSoup html))
    /\ ((exists r w2, crawl_all BeautifulSoup gather self w = (r, self1, w2))
        \/ exists pages w3,
             crawl_all BeautifulSoup gather self w
             = Props.report
                 (gather (map (crawl_page BeautifulSoup) pages) self1 w3)).
Proof.
  destruct (fetch_page self (base_url self) 0 w) as [[[[|c html]|]|e] w1] eqn:Hf.
  1,3,4: exists self, []; rewrite app_nil_r;
    (split; [reflexivity|]); (split; [left; reflexivity|]);
    left; unfold crawl_all; rewrite Hf; eexists; eexists; reflexivity.
  destruct (crawl_all_after_first_page BeautifulSoup gather self w (c :: html)
              w1 Hf ltac:(discriminate))
    as (self1 & w2 & _ & _ & _ & Ht & _ & _ & _ & E).
  exists self1, (Props.first_page_records (BeautifulSoup (c :: html)) w1).
  split; [exact Ht|]. split.
  - unfold Props.first_page_records.
    destruct (is_valid_page (BeautifulSoup (c :: html))); [|left; reflexivity].
    right. exists (c :: html), w1. split; reflexivity.
  - rewrite E. destruct (1 <? _)%Z.
    + right. eexists. eexists. reflexivity.
    + left. eexists. eexists. reflexivity.
Qed.

(** C2 (as amended).  Every record that enters the collection, whether the
    page operation appends it or the orchestrator appends it from the first
    page, was extracted from an entry whose content block and name anchor
    were located: its name is the cleaned text of that anchor and its url
    the stripped [href] of the anchor, either of which may be empty.  The
    orchestrator changes the collection in no other way than by this append
    and by the page operations it schedules.  An entry without content
    block or name anchor gives no record and no error. *)
Theorem tools_grow_by_located_entries :
  forall (BeautifulSoup : str -> PageElement)
         (gather : list (coroutine bool) -> coroutine (list bool))
         (page : Z) (self : Crawler) (w : World),
    (exists page_tools,
        tools (snd (fst (crawl_page BeautifulSoup page self w)))
        = tools self ++ page_tools
        /\ (page_tools = []
            \/ exists url html w2,
                 page_url self page = Return url
                 /\ fetch_page self url 0 (log_event (SleepUniform 2 5) w)
                    = (Return (Some html), w2)
                 /\ page_tools
                    = parse_tool_list (Spec.clock_of w2) (BeautifulSoup html)
                 /\ Forall2 Spec.record_of
                      (filter Spec.located (Spec.entries (BeautifulSoup html)))
                      page_tools))
    /\ (exists self1 page_tools,
          tools self1 = tools self ++ page_tools
          /\ (page_tools = []
              \/ exists html w1,
                   fetch_page self (base_url self) 0 w
                   = (Return (Some html), w1)
                   /\ page_tools
                      = parse_tool_list (Spec.clock_of w1) (BeautifulSoup html)
                   /\ Forall2 Spec.record_of
                        (filter Spec.located
                           (Spec.entries (BeautifulSoup html)))
                        page_tools)
          /\ ((exists r w2,
                 crawl_all BeautifulSoup gather self w = (r, self1, w2))
              \/ exists pages w3,
                   crawl_all BeautifulSoup gather self w
                   = Props.report
                       (gather (map (crawl_page BeautifulSoup) pages)
                               self1 w3)))
    /\ (forall card ts,
          Spec.located card = false -> _parse_tool_card ts card = None).
Proof.
  intros BeautifulSoup gather page self w. split; [|split].
  - destruct (crawl_page_outcome BeautifulSoup page self w)
      as [(e & w1 & E)|[(w1 & E)|(url & html & w2 & w1 & Hu & Hf & _ & _ & _ & E)]];
      rewrite E; cbn [fst snd].
    + exists []. rewrite app_nil_r. auto.
    + exists []. rewrite app_nil_r. auto.
    + exists (parse_tool_list (Spec.clock_of w2) (BeautifulSoup html)).
      split; [reflexivity|]. right. exists url, html, w2.
      repeat split; try assumption.
      apply parse_tool_list_entries.
  - destruct (crawl_all_appends BeautifulSoup gather self w)
      as (self1 & page_tools & Ht & Hp & Hc).
    exists self1, page_tools. split; [exact Ht|]. split; [|exact Hc].
    destruct Hp as [->|(html & w1 & Hf & ->)]; [left; reflexivity|].
    right. exists html, w1. split; [exact Hf|]. split; [reflexivity|].
    apply parse_tool_list_entries.
  - intros card ts H. apply parse_card_not_located.
    unfold Spec.located in H.
    destruct (Spec.title_anchor card); [discriminate|reflexivity].
Qed.

Lemma tools_grow_by_located_entries_witness :
  _parse_tool_card (py "2024-01-01 00:00:00") (Examples.div "card-app" [])
  = None.
Proof.
  pose proof
    (tools_grow_by_located_entries (Examples.lxml Examples.pages)
       Samples.gather_in_turn 2 Examples.site
       (Examples.fresh_world
          (Examples.serve Examples.entry_without_content_html)))
    as T.
  destruct T as (_ & _ & T).
  apply T. reflexivity.
Defined.

(** C2, the claim as stated fails: an entry whose anchor has no text and no
    [href] is extracted, and its record, with an empty name and an empty url,
    enters the collection. *)
Lemma crawl_page_appends_nameless_record :
  map (dict_get "name")
      (tools (snd (fst (crawl_page (Examples.lxml Examples.pages) 2
                          Examples.site
                          (Examples.fresh_world
                             (Examples.serve
                                Examples.entry_with_blank_anchor_html))))))
    = [Some []]
  /\ map (dict_get "url")
         (tools (snd (fst (crawl_page (Examples.lxml Examples.pages) 2
                             Examples.site
                             (Examples.fresh_world
                                (Examples.serve
                                   Examples.entry_with_blank_anchor_html))))))
     = [Some []].
Proof. split; vm_compute; reflexivity. Qed.

(** X16.  When the fetch of the first page fails (no page, or an empty
    text), [crawl_all] ends the run normally, whatever the scheduler: the
    crawler is unchanged, no page operation is started, and nothing was done
    but requests for the base URL, back-off sleeps and debug writes. *)
Theorem crawl_all_first_fetch_fails :
  forall (BeautifulSoup : str -> PageElement) (self : Crawler) (w : World)
         (h : option str) (w1 : World),
    fetch_page self (base_url self) 0 w = (Return h, w1) ->
    Spec.fetch_failed h = true ->
    (forall gather,
        crawl_all BeautifulSoup gather self w = (Return tt, self, w1))
    /\ exists new,
         trace w1 = trace w ++ new
         /\ forallb (Props.fetch_event (base_url self)) new = true.
Proof.
  intros BeautifulSoup self w h w1 Hf Hh. split.
  - intro gather. unfold crawl_all. rewrite Hf.
    destruct h as [[|c html]|]; [reflexivity|discriminate|reflexivity].
  - apply (fetch_page_events self (base_url self)
             (Z.to_nat (max_retries self - 0)) 0%Z w (Return h) w1 eq_refl Hf).
Qed.

Lemma crawl_all_first_fetch_fails_witness :
  (forall gather,
      crawl_all (Examples.lxml Examples.pages) gather Examples.site
                (Examples.fresh_world (Examples.refuse 503))
      = (Return tt, Examples.site,
         snd (fetch_page Examples.site (base_url Examples.site) 0
                (Examples.fresh_world (Examples.refuse 503)))))
  /\ exists new,
       trace (snd (fetch_page Examples.site (base_url Examples.site) 0
                     (Examples.fresh_world (Examples.refuse 503))))
       = [] ++ new
       /\ forallb (Props.fetch_event (base_url Examples.site)) new = true.
Proof.
  apply (crawl_all_first_fetch_fails (Examples.lxml Examples.pages)
           Examples.site (Examples.fresh_world (Examples.refuse 503)) None).
  - apply injective_projections; [vm_compute; reflexivity|reflexivity].
  - reflexivity.
Defined.

(** X17.  Once the first page is fetched, [crawl_all] appends its records
    when it is valid (none when it is not), reads the page count from that
    page alone, and, when the count exceeds 1, hands to the scheduler the
    page operations of pages 2 to the count, each once and in increasing
    order, after one pacing sleep per page; with a count of 1 or less it
    stops there.  An invalid first page still drives the fan-out. *)
Theorem crawl_all_fans_out :
  forall (BeautifulSoup : str -> PageElement)
         (gather : list (coroutine bool) -> coroutine (list bool))
         (self : Crawler) (w : World) (html : str) (w1 : World),
    fetch_page self (base_url self) 0 w = (Return (Some html), w1) ->
    html <> [] ->
    let total := total_pages (extract_pagination_info (BeautifulSoup html)) in
    exists self1 w2 pages,
      tools self1
      = tools self ++ Props.first_page_records (BeautifulSoup html) w1
      /\ trace w2 = trace w1
      /\ (forall p, In p pages <-> (2 <= p <= total)%Z)
      /\ StronglySorted Z.lt pages
      /\ ((total <= 1)%Z ->
          crawl_all BeautifulSoup gather self w = (Return tt, self1, w2))
      /\ ((1 < total)%Z ->
          Z.of_nat (List.length pages) = (total - 1)%Z
          /\ crawl_all BeautifulSoup gather self w
             = Props.report
                 (gather (map (crawl_page BeautifulSoup) pages) self1
                         (Props.paced (List.length pages) w2))).
Proof.
  intros BeautifulSoup gather self w html w1 Hf Hne total.
  destruct (crawl_all_after_first_page BeautifulSoup gather self w html w1 Hf Hne)
    as (self1 & w2 & _ & _ & _ & Ht & Htr & _ & _ & E).
  fold total in E.
  exists self1, w2, (page_range total).
  split; [exact Ht|]. split; [exact Htr|].
  split; [apply page_range_in|]. split; [apply page_range_sorted|].
  split.
  - intro H. destruct (Z.ltb_spec 1 total) as [C|_]; [lia|exact E].
  - intro H. destruct (Z.ltb_spec 1 total) as [_|C]; [|lia].
    split; [rewrite page_range_length; lia|exact E].
Qed.

Lemma fetch_first_page :
  fetch_page Examples.site (base_url Examples.site) 0
             (Examples.fresh_world Samples.listing_server)
  = (Return (Some Samples.first_page_html),
     snd (fetch_page Examples.site (base_url Examples.site) 0
            (Examples.fresh_world Samples.listing_server))).
Proof. apply injective_projections; [vm_compute; reflexivity|reflexivity]. Qed.

Lemma crawl_all_fans_out_witness :
  exists self1 w2 pages,
    tools self1
    = tools Examples.site
      ++ Props.first_page_records
           (Examples.lxml Samples.listing Samples.first_page_html)
           (snd (fetch_page Examples.site (base_url Examples.site) 0
                   (Examples.fresh_world Samples.listing_server)))
    /\ trace w2
       = trace (snd (fetch_page Examples.site (base_url Examples.site) 0
                       (Examples.fresh_world Samples.listing_server)))
    /\ (forall p, In p pages <->
                  (2 <= p <= total_pages
                              (extract_pagination_info
                                 (Examples.lxml Samples.listing
                                    Samples.first_page_html)))%Z)
    /\ StronglySorted Z.lt pages
    /\ ((total_pages
           (extract_pagination_info
              (Examples.lxml Samples.listing Samples.first_page_html)) <= 1)%Z ->
        crawl_all (Examples.lxml Samples.listing) Samples.gather_in_turn
                  Examples.site (Examples.fresh_world Samples.listing_server)
        = (Return tt, self1, w2))
    /\ ((1 < total_pages
               (extract_pagination_info
                  (Examples.lxml Samples.listing Samples.first_page_html)))%Z ->
        Z.of_nat (List.length pages)
        = (total_pages
             (extract_pagination_info
                (Examples.lxml Samples.listing Samples.first_page_html)) - 1)%Z
        /\ crawl_all (Examples.lxml Samples.listing) Samples.gather_in_turn
                     Examples.site (Examples.fresh_world Samples.listing_server)
           = Props.report
               (Samples.gather_in_turn
                  (map (crawl_page (Examples.lxml Samples.listing)) pages)
                  self1 (Props.paced (List.length pages) w2))).
Proof.
  apply (crawl_all_fans_out (Examples.lxml Samples.listing)
           Samples.gather_in_turn Examples.site
           (Examples.fresh_world Samples.listing_server)
           Samples.first_page_html).
  - exact fetch_first_page.
  - discriminate.
Defined.

Lemma gather_in_turn_single : Props.runs_single_task Samples.gather_in_turn.
Proof.
  intros task self w. cbn [Samples.gather_in_turn].
  destruct (task self w) as [[[b|e] self'] w']; reflexivity.
Qed.

Lemma crawl_page_appends (BeautifulSoup : str -> PageElement) (page : Z)
    (self : Crawler) (w : World) :
  exists new,
    tools (snd (fst (crawl_page BeautifulSoup page self w))) = tools self ++ new.
Proof.
  destruct (crawl_page_outcome BeautifulSoup page self w)
    as [(e & w1 & E)|[(w1 & E)|(url & html & w2 & w1 & _ & _ & _ & _ & _ & E)]];
    rewrite E; cbn [fst snd].
  - exists []. rewrite app_nil_r. reflexivity.
  - exists []. rewrite app_nil_r. reflexivity.
  - eexists. reflexivity.
Qed.

(** X18.  A listing of two pages, with a scheduler that runs a single task
    as that task: [crawl_all] is the first page followed, after one pacing
    sleep, by the page operation of page 2, and the collection ends as the
    records it had, then those of the first page, then those page 2
    appended. *)
Theorem crawl_all_two_pages :
  forall (BeautifulSoup : str -> PageElement)
         (gather : list (coroutine bool) -> coroutine (list bool))
         (self : Crawler) (w : World) (html : str) (w1 : World),
    Props.runs_single_task gather ->
    fetch_page self (base_url self) 0 w = (Return (Some html), w1) ->
    html <> [] ->
    total_pages (extract_pagination_info (BeautifulSoup html)) = 2%Z ->
    exists self1 w2 second,
      tools self1
      = tools self ++ Props.first_page_records (BeautifulSoup html) w1
      /\ trace w2 = trace w1
      /\ crawl_all BeautifulSoup gather self w
         = Props.report_one
             (crawl_page BeautifulSoup 2 self1 (Props.paced 1 w2))
      /\ tools (snd (fst (crawl_all BeautifulSoup gather self w)))
         = tools self ++ Props.first_page_records (BeautifulSoup html) w1
           ++ second.
Proof.
  intros BeautifulSoup gather self w html w1 Hg Hf Hne H2.
  destruct (crawl_all_after_first_page BeautifulSoup gather self w html w1 Hf Hne)
    as (self1 & w2 & _ & _ & _ & Ht & Htr & _ & _ & E).
  rewrite H2 in E. change (page_range 2) with [2%Z] in E.
  cbn [Z.ltb Z.compare Pos.compare Pos.compare_cont map List.length] in E.
  rewrite Hg in E.
  destruct (crawl_page_appends BeautifulSoup 2 self1 (Props.paced 1 w2))
    as (second & Hs).
  exists self1, w2, second.
  split; [exact Ht|]. split; [exact Htr|].
  assert (R : crawl_all BeautifulSoup gather self w
              = Props.report_one
                  (crawl_page BeautifulSoup 2 self1 (Props.paced 1 w2))).
  { rewrite E.
    destruct (crawl_page BeautifulSoup 2 self1 (Props.paced 1 w2))
      as [[[b|e] s'] w']; reflexivity. }
  split; [exact R|].
  rewrite R, app_assoc, <- Ht, <- Hs.
  destruct (crawl_page BeautifulSoup 2 self1 (Props.paced 1 w2))
    as [[[b|e] s'] w']; reflexivity.
Qed.

Lemma crawl_all_two_pages_witness :
  exists self1 w2 second,
    tools self1
    = tools Examples.site
      ++ Props.first_page_records
           (Examples.lxml Samples.listing Samples.first_page_html)
           (snd (fetch_page Examples.site (base_url Examples.site) 0
                   (Examples.fresh_world Samples.listing_server)))
    /\ trace w2
       = trace (snd (fetch_page Examples.site (base_url Examples.site) 0
                       (Examples.fresh_world Samples.listing_server)))
    /\ crawl_all (Examples.lxml Samples.listing) Samples.gather_in_turn
                 Examples.site (Examples.fresh_world Samples.listing_server)
       = Props.report_one
           (crawl_page (Examples.lxml Samples.listing) 2 self1
                       (Props.paced 1 w2))
    /\ tools (snd (fst (crawl_all (Examples.lxml Samples.listing)
                          Samples.gather_in_turn Examples.site
                          (Examples.fresh_world Samples.listing_server))))
       = tools Examples.site
         ++ Props.first_page_records
              (Examples.lxml Samples.listing Samples.first_page_html)
              (snd (fetch_page Examples.site (base_url Examples.site) 0
                      (Examples.fresh_world Samples.listing_server)))
         ++ second.
Proof.
  apply (crawl_all_two_pages (Examples.lxml Samples.listing)
           Samples.gather_in_turn Examples.site
           (Examples.fresh_world Samples.listing_server)
           Samples.first_page_html).
  - exact gather_in_turn_single.
  - exact fetch_first_page.
  - discriminate.
  - vm_compute. reflexivity.
Defined.

(** The two-page listing, run: the collection ends with the record of the
    first page followed by that of the second. *)
Lemma crawl_all_listing_names :
  map (Props.field "name")
      (tools (snd (fst (crawl_all (Examples.lxml Samples.listing)
                          Samples.gather_in_turn Examples.site
                          (Examples.fresh_world Samples.listing_server)))))
  = [py "One"; py "Two"].
Proof. vm_compute. reflexivity. Qed.

(** ** Saving the records *)

Lemma encodable_app (a b : str) :
  encodable (a ++ b) = encodable a && encodable b.
Proof. apply forallb_app. Qed.

Lemma dict_to_list_incl (fieldnames : list string) (r : dict) :
  incl (keys r) fieldnames ->
  dict_to_list fieldnames r = Some (row_cells fieldnames r).
Proof.
  intro H. unfold dict_to_list.
  replace (forallb _ (keys r)) with true; [reflexivity|].
  symmetry. apply forallb_forall. intros k Hk.
  apply existsb_exists. exists k. split; [apply H; exact Hk|].
  apply String.eqb_refl.
Qed.

Lemma dict_to_list_extra (fieldnames : list string) (r : dict) :
  ~ incl (keys r) fieldnames -> dict_to_list fieldnames r = None.
Proof.
  intro H. unfold dict_to_list.
  destruct (forallb _ (keys r)) eqn:E; [|reflexivity].
  exfalso. apply H. intros k Hk.
  rewrite forallb_forall in E. specialize (E k Hk).
  apply existsb_exists in E. destruct E as (k' & Hk' & Heq).
  apply String.eqb_eq in Heq. subst k'. exact Hk'.
Qed.

Lemma header_get (k : string) (l : list string) :
  In k l -> dict_get k (map (fun k => (k, py k)) l) = Some (py k).
Proof.
  induction l as [|k' l IH]; [intros []|].
  intro H. cbn [map dict_get].
  destruct (String.eqb k k') eqn:E.
  - apply String.eqb_eq in E. subst k'. reflexivity.
  - destruct H as [->|H]; [rewrite String.eqb_refl in E; discriminate|].
    apply IH, H.
Qed.

Lemma writeheader_line (writerow : list str -> str) (fieldnames : list string) :
  encodable (writerow (map py fieldnames)) = true ->
  DictWriter_writeheader writerow fieldnames []
  = (None, writerow (map py fieldnames)).
Proof.
  intro H. unfold DictWriter_writeheader, DictWriter_writerow.
  rewrite dict_to_list_incl.
  2:{ unfold keys. rewrite map_map. cbn [fst]. rewrite map_id.
      apply incl_refl. }
  replace (row_cells fieldnames (map (fun k => (k, py k)) fieldnames))
    with (map py fieldnames).
  - unfold write. rewrite H. reflexivity.
  - unfold row_cells. apply map_ext_in. intros k Hk.
    rewrite (header_get k fieldnames Hk). reflexivity.
Qed.

Lemma writerows_uniform (writerow : list str -> str) (fieldnames : list string)
    (rows : list dict) :
  forall written,
    Forall (fun r => incl (keys r) fieldnames) rows ->
    encodable (flat_map (fun r => writerow (row_cells fieldnames r)) rows)
    = true ->
    DictWriter_writerows writerow fieldnames rows written
    = (None,
       written ++ flat_map (fun r => writerow (row_cells fieldnames r)) rows).
Proof.
  induction rows as [|r rows IH]; intros written HF HE.
  - cbn. rewrite app_nil_r. reflexivity.
  - inversion HF as [|? ? Hr Hrows]; subst.
    cbn [flat_map] in HE |- *. rewrite encodable_app in HE.
    apply andb_prop in HE. destruct HE as [E1 E2].
    cbn [DictWriter_writerows]. unfold DictWriter_writerow.
    rewrite (dict_to_list_incl fieldnames r Hr). unfold write. rewrite E1.
    rewrite (IH _ Hrows E2), app_assoc. reflexivity.
Qed.

Lemma writerows_refused (writerow : list str -> str) (fieldnames : list string)
    (good : list dict) (bad : dict) (rest : list dict) (written : str) :
  Forall (fun r => incl (keys r) fieldnames) good ->
  encodable (flat_map (fun r => writerow (row_cells fieldnames r)) good)
  = true ->
  ~ incl (keys bad) fieldnames ->
  DictWriter_writerows writerow fieldnames (good ++ bad :: rest) written
  = (Some FieldsError,
     written ++ flat_map (fun r => writerow (row_cells fieldnames r)) good).
Proof.
  revert written.
  induction good as [|r good IH]; intros written HF HE Hbad.
  - cbn [app DictWriter_writerows flat_map]. unfold DictWriter_writerow.
    rewrite (dict_to_list_extra fieldnames bad Hbad), app_nil_r. reflexivity.
  - inversion HF as [|? ? Hr Hgood]; subst.
    cbn [flat_map] in HE |- *. rewrite encodable_app in HE.
    apply andb_prop in HE. destruct HE as [E1 E2].
    cbn [app DictWriter_writerows]. unfold DictWriter_writerow.
    rewrite (dict_to_list_incl fieldnames r Hr). unfold write. rewrite E1.
    rewrite (IH _ Hgood E2 Hbad), app_assoc. reflexivity.
Qed.

Lemma save_data_csv_unfolded (lower : str -> str)
    (json_chunks : list dict -> list str) (writerow : list str -> str)
    (fs : FileSystem) (timestamp : str) (first : dict) (rest : list dict)
    (output_format output_dir : str) :
  eqb (lower output_format) (py "json") = false ->
  Props.accepts fs output_dir (Props.export_path output_dir timestamp ".csv") ->
  encodable (writerow (map py (keys first))) = true ->
  save_data lower json_chunks writerow fs timestamp (first :: rest)
            output_format output_dir
  = match DictWriter_writerows writerow (keys first) (first :: rest)
            (writerow (map py (keys first))) with
    | (None, text) =>
        (Saved (Props.export_path output_dir timestamp ".csv"),
         Props.made fs output_dir
         ++ [WriteFile (Props.export_path output_dir timestamp ".csv") text])
    | (Some e, text) =>
        (Failed e,
         Props.made fs output_dir
         ++ [WriteFile (Props.export_path output_dir timestamp ".csv") text])
    end.
Proof.
  intros Hf [Hd Ho] Hh. unfold save_data, Props.made.
  unfold Props.export_path in Ho.
  assert (E : (if path_exists fs output_dir then (None, [])
               else match makedirs fs output_dir with
                    | Some e => (Some e, [])
                    | None => (None, [Makedirs output_dir])
                    end)
              = (@None save_error,
                 if path_exists fs output_dir then []
                 else [Makedirs output_dir])).
  { destruct (path_exists fs output_dir); [reflexivity|].
    destruct Hd as [Hd|Hd]; [discriminate|]. rewrite Hd. reflexivity. }
  rewrite E, Hf, Ho.
  rewrite (writeheader_line writerow (keys first) Hh). reflexivity.
Qed.

(** X19.  A CSV export (any format whose lower case is not "json") of
    records whose keys all occur among those of the first record, every
    line encodable in UTF-8, on a file system that accepts the operations
    (the output directory exists or can be made, the file can be opened):
    [save_data] returns the path ai_tools_<timestamp>.csv under the output
    directory, and the one file it writes holds the line of the first
    record's keys followed by one line per record, in order, a missing cell
    being empty. *)
Theorem save_data_csv_uniform_records :
  forall (lower : str -> str) (json_chunks : list dict -> list str)
         (writerow : list str -> str) (fs : FileSystem) (timestamp : str)
         (first : dict) (rest : list dict) (output_format output_dir : str),
    eqb (lower output_format) (py "json") = false ->
    Props.accepts fs output_dir
      (Props.export_path output_dir timestamp ".csv") ->
    Forall (fun r => incl (keys r) (keys first)) rest ->
    encodable (Props.csv_text writerow (keys first) (first :: rest)) = true ->
    save_data lower json_chunks writerow fs timestamp (first :: rest)
              output_format output_dir
    = (Saved (Props.export_path output_dir timestamp ".csv"),
       Props.made fs output_dir
       ++ [WriteFile (Props.export_path output_dir timestamp ".csv")
             (Props.csv_text writerow (keys first) (first :: rest))]).
Proof.
  intros lower json_chunks writerow fs timestamp first rest
         output_format output_dir Hf Ha HF HE.
  unfold Props.csv_text in HE. rewrite encodable_app in HE.
  apply andb_prop in HE. destruct HE as [Hh Hr].
  rewrite (save_data_csv_unfolded _ _ _ _ _ _ _ _ _ Hf Ha Hh).
  rewrite writerows_uniform; [reflexivity| |exact Hr].
  constructor; [apply incl_refl|exact HF].
Qed.

Lemma save_data_csv_uniform_records_witness :
  save_data Samples.ascii_lower Samples.no_chunks Samples.plain_row
            Samples.empty_disk
            (py "20240101_000000") [Samples.row_one; Samples.row_two]
            (py "CSV") (py "data/output")
  = (Saved (py "data/output/ai_tools_20240101_000000.csv"),
     [Makedirs (py "data/output");
      WriteFile (py "data/output/ai_tools_20240101_000000.csv")
        (py "name,url" ++ [CR; LF] ++ py "One,/one" ++ [CR; LF]
         ++ py "Two,/two" ++ [CR; LF])]).
Proof.
  apply (save_data_csv_uniform_records Samples.ascii_lower Samples.no_chunks
           Samples.plain_row Samples.empty_disk (py "20240101_000000")
           Samples.row_one [Samples.row_two] (py "CSV") (py "data/output")).
  - reflexivity.
  - split; [right; reflexivity|reflexivity].
  - constructor; [|constructor]. intros k Hk. cbn in Hk |- *. tauto.
  - vm_compute. reflexivity.
Defined.

(** X20.  On a file system that accepts the operations, a CSV export in
    which a record has a key the first record lacks raises the [ValueError]
    of the CSV writer at that record, whatever follows it; the file has been
    created by then and keeps the header and the lines of the records before
    it. *)
Theorem save_data_csv_refused_record :
  forall (lower : str -> str) (json_chunks : list dict -> list str)
         (writerow : list str -> str) (fs : FileSystem) (timestamp : str)
         (first : dict) (good : list dict) (bad : dict) (rest : list dict)
         (output_format output_dir : str),
    eqb (lower output_format) (py "json") = false ->
    Props.accepts fs output_dir
      (Props.export_path output_dir timestamp ".csv") ->
    Forall (fun r => incl (keys r) (keys first)) good ->
    encodable (Props.csv_text writerow (keys first) (first :: good)) = true ->
    ~ incl (keys bad) (keys first) ->
    save_data lower json_chunks writerow fs timestamp
              (first :: good ++ bad :: rest) output_format output_dir
    = (Failed FieldsError,
       Props.made fs output_dir
       ++ [WriteFile (Props.export_path output_dir timestamp ".csv")
             (Props.csv_text writerow (keys first) (first :: good))]).
Proof.
  intros lower json_chunks writerow fs timestamp first good bad rest
         output_format output_dir Hf Ha HF HE Hbad.
  unfold Props.csv_text in HE. rewrite encodable_app in HE.
  apply andb_prop in HE. destruct HE as [Hh Hr].
  rewrite (save_data_csv_unfolded _ _ _ _ _ _ _ _ _ Hf Ha Hh).
  change (first :: good ++ bad :: rest) with ((first :: good) ++ bad :: rest).
  rewrite writerows_refused; [reflexivity| |exact Hr|exact Hbad].
  constructor; [apply incl_refl|exact HF].
Qed.

Lemma save_data_csv_refused_record_witness :
  save_data Samples.ascii_lower Samples.no_chunks Samples.plain_row
            Samples.full_disk
            (py "20240101_000000")
            [Samples.row_one; Samples.row_odd; Samples.row_two]
            (py "csv") (py "out/")
  = (Failed FieldsError,
     [WriteFile (py "out/ai_tools_20240101_000000.csv")
        (py "name,url" ++ [CR; LF] ++ py "One,/one" ++ [CR; LF])]).
Proof.
  apply (save_data_csv_refused_record Samples.ascii_lower Samples.no_chunks
           Samples.plain_row Samples.full_disk (py "20240101_000000")
           Samples.row_one [] Samples.row_odd [Samples.row_two] (py "csv")
           (py "out/")).
  - reflexivity.
  - split; [left; reflexivity|reflexivity].
  - constructor.
  - vm_compute. reflexivity.
  - intro H. specialize (H "rank"%string). cbn in H.
    destruct H as [H|[H|[]]]; [right; left; reflexivity|discriminate H..].
Defined.

Lemma parse_tool_list_columns (clock : nat -> str) (soup : PageElement) :
  Forall (fun r => keys r = Props.columns) (parse_tool_list clock soup).
Proof.
  apply Forall_forall. intros r Hr.
  destruct (parse_tool_list_parsed clock soup r Hr) as (card & ts & _ & Hp).
  destruct (parse_card_shape card ts r Hp) as (K & _).
  exact K.
Qed.

(** X21.  The records [parse_tool_list] extracts from a page always export
    to CSV without the writer refusing one: when the page gives a record,
    the lines are encodable in UTF-8 and the file system accepts the
    operations, [save_data] returns the path, and the file holds the header
    of the eight columns followed by one line of eight cells per record. *)
Theorem save_data_csv_of_parsed_records :
  forall (lower : str -> str) (json_chunks : list dict -> list str)
         (writerow : list str -> str) (fs : FileSystem) (timestamp : str)
         (clock : nat -> str) (soup : PageElement)
         (output_format output_dir : str),
    eqb (lower output_format) (py "json") = false ->
    Props.accepts fs output_dir
      (Props.export_path output_dir timestamp ".csv") ->
    parse_tool_list clock soup <> [] ->
    encodable (Props.csv_text writerow Props.columns
                 (parse_tool_list clock soup)) = true ->
    save_data lower json_chunks writerow fs timestamp
              (parse_tool_list clock soup) output_format output_dir
    = (Saved (Props.export_path output_dir timestamp ".csv"),
       Props.made fs output_dir
       ++ [WriteFile (Props.export_path output_dir timestamp ".csv")
             (Props.csv_text writerow Props.columns
                (parse_tool_list clock soup))])
    /\ Forall (fun r => List.length (row_cells Props.columns r) = 8%nat)
              (parse_tool_list clock soup).
Proof.
  intros lower json_chunks writerow fs timestamp clock soup
         output_format output_dir Hf Ha Hne HE.
  pose proof (parse_tool_list_columns clock soup) as HC.
  split.
  - destruct (parse_tool_list clock soup) as [|first rest]; [congruence|].
    inversion HC as [|? ? K1 KR]; subst.
    unfold Props.csv_text in HE |- *. rewrite encodable_app in HE.
    apply andb_prop in HE. destruct HE as [Hh Hr].
    rewrite <- K1 in Hh, Hr |- *.
    rewrite (save_data_csv_unfolded _ _ _ _ _ _ _ _ _ Hf Ha Hh).
    rewrite writerows_uniform; [reflexivity| |exact Hr].
    constructor; [apply incl_refl|].
    eapply Forall_impl; [|exact KR].
    intros r K. cbv beta in K. rewrite K, K1. apply incl_refl.
  - apply Forall_forall. intros r _. reflexivity.
Qed.

Lemma save_data_csv_of_parsed_records_witness :
  save_data Samples.ascii_lower Samples.no_chunks Samples.plain_row
            Samples.full_disk
            (py "20240101_000000")
            (parse_tool_list (fun _ => Samples.stamp) Samples.first_page)
            (py "csv") (py "out")
  = (Saved (Props.export_path (py "out") (py "20240101_000000") ".csv"),
     Props.made Samples.full_disk (py "out")
     ++ [WriteFile (Props.export_path (py "out") (py "20240101_000000") ".csv")
           (Props.csv_text Samples.plain_row Props.columns
              (parse_tool_list (fun _ => Samples.stamp) Samples.first_page))])
  /\ Forall (fun r => List.length (row_cells Props.columns r) = 8%nat)
            (parse_tool_list (fun _ => Samples.stamp) Samples.first_page).
Proof.
  apply (save_data_csv_of_parsed_records Samples.ascii_lower Samples.no_chunks
           Samples.plain_row Samples.full_disk (py "20240101_000000")
           (fun _ => Samples.stamp) Samples.first_page (py "csv") (py "out")).
  - reflexivity.
  - split; [left; reflexivity|reflexivity].
  - vm_compute. discriminate.
  - vm_compute. reflexivity.
Defined.

